(** * Shallow embedding of boulder's web front end ([wfe/web-front-end.go])

    The Go handlers are modelled as computations in a small state monad
    whose state is the part of the world a handler touches: the anti-replay
    nonce register, the HTTP response being written (headers, status code,
    body chunks), the calls made to the Registration Authority and the audit
    log.  The collaborators (RA, SA) and the libraries the handlers call
    (go-jose, encoding/json, crypto/x509) are records of functions; every
    theorem holds for all of them. *)

From Stdlib Require Import ZArith Lia Ascii.
From stdpp Require Import base gmap sets list strings pretty.

Open Scope Z_scope.

(** ** Go values *)

(** Go [error] values that the handlers distinguish: [sql.ErrNoRows] by
    identity, the typed errors of package [core] by their dynamic type
    (see [statusCodeFromError]); any other error carries its message. *)
Inductive error :=
  | ErrNoRows
  | ErrPlain (msg : string)
  | MalformedRequestError (msg : string)
  | NotSupportedError (msg : string)
  | SyntaxError (msg : string)
  | UnauthorizedError (msg : string)
  | NotFoundError (msg : string)
  | SignatureValidationError (msg : string)
  | InternalServerError (msg : string).

Definition Error (e : error) : string :=
  match e with
  | ErrNoRows => "sql: no rows in result set"
  | ErrPlain m | MalformedRequestError m | NotSupportedError m | SyntaxError m
  | UnauthorizedError m | NotFoundError m | SignatureValidationError m
  | InternalServerError m => m
  end.

(** A Go [(T, error)] pair where only one side is meaningful. *)
Inductive result (A : Type) :=
  | Ok (a : A)
  | Err (e : error).
Arguments Ok {A} a.
Arguments Err {A} e.

(** A JSON Web Key, identified by its serialisation. *)
Definition Key := string.
(** DER bytes. *)
Definition DER := string.
(** The public key of a parsed x509 certificate. *)
Definition PublicKey := string.

Record Registration := {
  reg_ID : Z;
  reg_Key : Key;
  reg_Contact : list string;
  reg_Agreement : string
}.

(** [core.Registration{}]: the zero value. *)
Definition zero_Registration : Registration :=
  {| reg_ID := 0; reg_Key := ""; reg_Contact := []; reg_Agreement := "" |}.

(** A challenge; its URI is kept as the two parts [challenge] compares. *)
Record Challenge := {
  chal_Type : string;
  chal_Status : string;
  chal_URI_Path : string;
  chal_URI_RawQuery : string
}.

Record Authorization := {
  authz_ID : string;
  authz_Identifier : string;
  authz_RegistrationID : Z;
  authz_Status : string;
  authz_Challenges : list Challenge
}.

(** [core.Certificate] as stored by the SA. *)
Record Certificate := {
  cert_RegistrationID : Z;
  cert_Serial : string;
  cert_DER : DER
}.

Inductive OCSPStatus := OCSPStatusGood | OCSPStatusRevoked.

Record CertificateStatus := { cs_Status : OCSPStatus }.

(** The fields of an [x509.Certificate] the front end reads. *)
Record ParsedCertificate := {
  pc_SerialNumber : Z;
  pc_PublicKey : PublicKey
}.

Definition CertificateRequest := string.

(** go-jose: a signature's unprotected view of its header, the protected
    header returned by [Verify], and a parsed JWS. *)
Record SigHeader := { sh_JsonWebKey : Key }.
Record Signature := { sig_Header : SigHeader }.
Record JoseHeader := { jh_Nonce : string }.
Record JsonWebSignature := { jws_Signatures : list Signature }.

(** An HTTP request as the handlers read it; [Body] is [nil] or a reader
    whose [ReadAll] may fail. *)
Inductive ReqBody :=
  | NoBody
  | BodyReadError (e : error)
  | BodyBytes (s : string).

Record Request := {
  req_Method : string;
  req_Path : string;
  req_RawQuery : string;
  req_Body : ReqBody
}.

(** ** Collaborators *)

(** [core.StorageGetter] (the read side of the SA). *)
Record StorageGetter := {
  GetRegistrationByKey : Key -> result Registration;
  GetAuthorization : string -> result Authorization;
  GetCertificate : string -> result Certificate;
  GetCertificateStatus : string -> result CertificateStatus;
  GetCertificateByShortSerial : string -> result Certificate
}.

(** [core.RegistrationAuthority]. *)
Record RegistrationAuthority := {
  RA_NewCertificate : CertificateRequest -> Z -> result Certificate;
  RA_UpdateRegistration : Registration -> Registration -> result Registration;
  RA_UpdateAuthorization : Authorization -> nat -> Challenge -> result Authorization;
  RA_RevokeCertificate : ParsedCertificate -> option error
}.

(** The library functions the handlers call: go-jose, encoding/json on the
    request and response types, crypto/x509, and the [core] helpers
    [SerialToString] and [KeyDigestEquals]. *)
Record Libs := {
  ParseSigned : string -> result JsonWebSignature;
  JWSVerify : JsonWebSignature -> Key -> result (string * JoseHeader);
  KeyDigestEquals : Key -> PublicKey -> bool;
  ParseCertificate : DER -> result ParsedCertificate;
  SerialToString : Z -> string;
  UnmarshalRegistration : string -> result Registration;
  UnmarshalChallenge : string -> result Challenge;
  UnmarshalRevokeRequest : string -> result DER;
  UnmarshalCertificateRequest : string -> result CertificateRequest;
  MarshalChallenge : Challenge -> result string;
  MarshalRegistration : Registration -> result string
}.

(** [WebFrontEndImpl] without its nonce service, which is state below. *)
Record WebFrontEndImpl := {
  RA : RegistrationAuthority;
  SA : StorageGetter;
  lib : Libs;
  BaseURL : string;
  AuthzBase : string;
  CertBase : string;
  SubscriberAgreementURL : string
}.

(** ** The nonce service *)

(** Modelled from the spec: [core.NonceService] (its [Nonce] and [Valid]
    methods are not part of this file).  §4.1: [issue] produces a fresh,
    never-before-issued token and records it as valid; [consume] returns
    true and invalidates the token if it is currently valid, and returns
    false without side effect otherwise.  Tokens are the decimal renderings
    of a counter, so freshness is the counter's. *)
Record NonceService := {
  ns_counter : N;
  ns_valid : gset string
}.

Definition NewNonceService : NonceService :=
  {| ns_counter := 0%N; ns_valid := ∅ |}.

(** Modelled from the spec: [NonceService.Nonce] (issue). *)
Definition ns_Nonce (ns : NonceService) : string * NonceService :=
  let t := pretty (ns_counter ns) in
  (t, {| ns_counter := N.succ (ns_counter ns); ns_valid := {[ t ]} ∪ ns_valid ns |}).

(** Modelled from the spec: [NonceService.Valid] (consume). *)
Definition ns_Valid (t : string) (ns : NonceService) : bool * NonceService :=
  if decide (t ∈ ns_valid ns)
  then (true, {| ns_counter := ns_counter ns; ns_valid := ns_valid ns ∖ {[ t ]} |})
  else (false, ns).

(** ** The handler monad *)

(** What the front end writes: a problem document or raw bytes. *)
Definition ProblemType := string.
Definition MalformedProblem : ProblemType := "urn:acme:error:malformed".
Definition UnauthorizedProblem : ProblemType := "urn:acme:error:unauthorized".
Definition ServerInternalProblem : ProblemType := "urn:acme:error:serverInternal".

Record problem := { prob_Type : ProblemType; prob_Detail : string }.

Inductive Chunk :=
  | ProblemDoc (p : problem)
  | Bytes (s : string).

(** Calls made to the RA, in order. *)
Inductive RACall :=
  | CallNewCertificate (csr : CertificateRequest) (regID : Z)
  | CallUpdateRegistration (base update : Registration)
  | CallUpdateAuthorization (authz : Authorization) (index : nat) (response : Challenge)
  | CallRevokeCertificate (cert : ParsedCertificate).

(** The state a handler runs in.  [st_panic] records a Go runtime panic
    (an index out of range), after which the handler writes nothing more:
    net/http recovers the panic and drops the connection. *)
Record St := {
  st_nonces : NonceService;
  st_header : list (string * string);
  st_code : option Z;
  st_body : list Chunk;
  st_calls : list RACall;
  st_audit : list string;
  st_panic : option string
}.

Definition M (A : Type) : Type := St -> A * St.

Global Instance M_ret : MRet M := fun A x s => (x, s).
Global Instance M_bind : MBind M :=
  fun A B f m s => let '(a, s') := m s in f a s'.

Definition modify (f : St -> St) : M unit := fun s => (tt, f s).

Definition set_nonces (ns : NonceService) (s : St) : St :=
  {| st_nonces := ns; st_header := st_header s; st_code := st_code s; st_body := st_body s; st_calls := st_calls s; st_audit := st_audit s; st_panic := st_panic s |}.
Definition set_header (h : list (string * string)) (s : St) : St :=
  {| st_nonces := st_nonces s; st_header := h; st_code := st_code s; st_body := st_body s; st_calls := st_calls s; st_audit := st_audit s; st_panic := st_panic s |}.
Definition set_code (c : option Z) (s : St) : St :=
  {| st_nonces := st_nonces s; st_header := st_header s; st_code := c; st_body := st_body s; st_calls := st_calls s; st_audit := st_audit s; st_panic := st_panic s |}.
Definition set_body (b : list Chunk) (s : St) : St :=
  {| st_nonces := st_nonces s; st_header := st_header s; st_code := st_code s; st_body := b; st_calls := st_calls s; st_audit := st_audit s; st_panic := st_panic s |}.
Definition set_calls (cs : list RACall) (s : St) : St :=
  {| st_nonces := st_nonces s; st_header := st_header s; st_code := st_code s; st_body := st_body s; st_calls := cs; st_audit := st_audit s; st_panic := st_panic s |}.
Definition set_audit (a : list string) (s : St) : St :=
  {| st_nonces := st_nonces s; st_header := st_header s; st_code := st_code s; st_body := st_body s; st_calls := st_calls s; st_audit := a; st_panic := st_panic s |}.
Definition set_panic (p : option string) (s : St) : St :=
  {| st_nonces := st_nonces s; st_header := st_header s; st_code := st_code s; st_body := st_body s; st_calls := st_calls s; st_audit := st_audit s; st_panic := p |}.

(** [http.Header.Set]: replace every value of the key. *)
Definition header_Set (k v : string) : M unit :=
  modify (fun s => set_header (filter (fun kv => kv.1 <> k) (st_header s) ++ [(k, v)]) s).
(** [http.Header.Add]: append a value. *)
Definition header_Add (k v : string) : M unit :=
  modify (fun s => set_header (st_header s ++ [(k, v)]) s).
(** [ResponseWriter.WriteHeader]: only the first call takes effect. *)
Definition WriteHeader (code : Z) : M unit :=
  modify (fun s => match st_code s with
                   | None => set_code (Some code) s
                   | Some _ => s
                   end).
(** [ResponseWriter.Write]: implies [WriteHeader(200)] if none was sent. *)
Definition Write (c : Chunk) : M unit :=
  WriteHeader 200;; modify (fun s => set_body (st_body s ++ [c]) s).
Definition audit (msg : string) : M unit :=
  modify (fun s => set_audit (st_audit s ++ [msg]) s).
Definition record_call (c : RACall) : M unit :=
  modify (fun s => set_calls (st_calls s ++ [c]) s).
Definition go_panic (msg : string) : M unit :=
  modify (fun s => set_panic (Some msg) s).

Definition nonce_issue : M string :=
  fun s => let '(t, ns) := ns_Nonce (st_nonces s) in (t, set_nonces ns s).
Definition nonce_valid (t : string) : M bool :=
  fun s => let '(b, ns) := ns_Valid t (st_nonces s) in (b, set_nonces ns s).

(** HTTP status codes used by the front end. *)
Definition StatusOK := 200.
Definition StatusCreated := 201.
Definition StatusAccepted := 202.
Definition StatusBadRequest := 400.
Definition StatusForbidden := 403.
Definition StatusNotFound := 404.
Definition StatusMethodNotAllowed := 405.
Definition StatusConflict := 409.
Definition StatusPreconditionFailed := 412.
Definition StatusInternalServerError := 500.
Definition StatusNotImplemented := 501.

(** ** Error reporting *)

Definition statusCodeFromError (e : error) : Z :=
  match e with
  | MalformedRequestError _ => StatusBadRequest
  | NotSupportedError _ => StatusNotImplemented
  | SyntaxError _ => StatusBadRequest
  | UnauthorizedError _ => StatusForbidden
  | NotFoundError _ => StatusNotFound
  | SignatureValidationError _ => StatusPreconditionFailed
  | InternalServerError _ => StatusInternalServerError
  | _ => StatusInternalServerError
  end.

(** The [switch code] of [sendError]; a code no case lists leaves the
    [Type] field at its zero value [""] (omitted by [omitempty]). *)
Definition problemTypeForCode (code : Z) : ProblemType :=
  if Z.eqb code StatusForbidden then UnauthorizedProblem
  else if Z.eqb code StatusConflict then MalformedProblem
  else if Z.eqb code StatusMethodNotAllowed then MalformedProblem
  else if Z.eqb code StatusNotFound then MalformedProblem
  else if Z.eqb code StatusBadRequest then MalformedProblem
  else if Z.eqb code StatusInternalServerError then ServerInternalProblem
  else "".

(** [sendError]; [json.Marshal] of a struct of two strings cannot fail, so
    its fallback branch is not modelled.  The [debug] value only enters
    the audit message and is left out. *)
Definition sendError (details : string) (code : Z) : M unit :=
  let p := {| prob_Type := problemTypeForCode code; prob_Detail := details |} in
  (if String.eqb (prob_Type p) ServerInternalProblem
   then audit ("Internal error - " +:+ details)
   else mret tt);;
  header_Set "Content-Type" "application/problem+json";;
  WriteHeader code;;
  Write (ProblemDoc p).

Definition sendAllow (methods : list string) : M unit :=
  header_Set "Allow" (String.concat ", " methods).

Definition sendStandardHeaders : M unit :=
  n ← nonce_issue;
  header_Set "Replay-Nonce" n;;
  header_Set "Access-Control-Allow-Origin" "*".

(** The double-quote character. *)
Definition dquote : string := String (Ascii.ascii_of_nat 34) EmptyString.

Definition link (url relation : string) : string :=
  "<" +:+ url +:+ ">;rel=" +:+ dquote +:+ relation +:+ dquote.

(** ** [verifyPOST] *)

Section Verify.
Variable wfe : WebFrontEndImpl.

Definition verifyPOST (request : Request) (regCheck : bool)
    : M (result (string * Key * Registration)) :=
  match req_Body request with
  | NoBody => mret (Err (ErrPlain "No body on POST"))
  | BodyReadError e => mret (Err e)
  | BodyBytes body =>
    match ParseSigned (lib wfe) body with
    | Err e => mret (Err e)
    | Ok parsedJws =>
      match jws_Signatures parsedJws with
      | [] => mret (Err (ErrPlain "POST not signed"))
      | _ :: _ :: _ => mret (Err (ErrPlain "Too many signatures on POST"))
      | [sig] =>
        let key := sh_JsonWebKey (sig_Header sig) in
        match JWSVerify (lib wfe) parsedJws key with
        | Err e => mret (Err e)
        | Ok (payload, header) =>
          if String.eqb (jh_Nonce header) ""
          then mret (Err (ErrPlain "JWS has no anti-replay nonce"))
          else
            ok ← nonce_valid (jh_Nonce header);
            if negb ok
            then mret (Err (ErrPlain "JWS has invalid anti-replay nonce"))
            else
              match GetRegistrationByKey (SA wfe) key with
              | Err e =>
                if regCheck then mret (Err e)
                else mret (Ok (payload, key, zero_Registration))
              | Ok reg => mret (Ok (payload, key, reg))
              end
        end
      end
    end
  end.

End Verify.

(** ** Path parsing *)

Definition CertPath : string := "/acme/cert/".
Definition IssuerPath : string := "/acme/issuer-cert".

(** [path[n:]]. *)
Fixpoint str_drop (n : nat) (s : string) : string :=
  match n, s with
  | O, _ => s
  | S n', String _ s' => str_drop n' s'
  | S _, EmptyString => EmptyString
  end.

(** [strings.HasPrefix]. *)
Fixpoint HasPrefix (s pre : string) : bool :=
  match pre, s with
  | EmptyString, _ => true
  | String c pre', String d s' => bool_decide (c = d) && HasPrefix s' pre'
  | String _ _, EmptyString => false
  end.

(** Length of the longest prefix of [s] matched by the regexp ["^.*/"]:
    [.] does not match a newline, so the match ends at the last ['/']
    before the first newline; [None] when there is no such ['/']. *)
Fixpoint slash_prefix_len (s : string) (pos : nat) (best : option nat) : option nat :=
  match s with
  | EmptyString => best
  | String c rest =>
    if bool_decide (c = "010"%char) then best
    else slash_prefix_len rest (S pos) (if bool_decide (c = "/"%char) then Some (S pos) else best)
  end.

(** [parseIDFromPath]: [regexp.MustCompile("^.*/").ReplaceAllString(path, "")]. *)
Definition parseIDFromPath (path : string) : string :=
  match slash_prefix_len path 0 None with
  | None => path
  | Some n => str_drop n path
  end.

Definition digit_value (c : Ascii.ascii) : option Z :=
  let n := Z.of_nat (Ascii.nat_of_ascii c) in
  if (48 <=? n) && (n <=? 57) then Some (n - 48) else None.

(** The value of a non-empty run of decimal digits. *)
Fixpoint digits_value (s : string) (acc : Z) : option Z :=
  match s with
  | EmptyString => Some acc
  | String c rest =>
    match digit_value c with
    | Some d => digits_value rest (10 * acc + d)
    | None => None
    end
  end.

Definition parse_unsigned (s : string) : option Z :=
  match s with
  | EmptyString => None
  | _ => digits_value s 0
  end.

(** [strconv.ParseInt(s, 10, 64)]: an optional sign, decimal digits (no
    underscores in base 10), and the int64 range. *)
Definition ParseInt (s : string) : result Z :=
  let '(neg, digits) :=
    match s with
    | String "-"%char rest => (true, rest)
    | String "+"%char rest => (false, rest)
    | _ => (false, s)
    end in
  match parse_unsigned digits with
  | None => Err (ErrPlain ("strconv.ParseInt: parsing " +:+ s +:+ ": invalid syntax"))
  | Some v =>
    let z := if neg then - v else v in
    if (- 2 ^ 63 <=? z) && (z <? 2 ^ 63) then Ok z
    else Err (ErrPlain ("strconv.ParseInt: parsing " +:+ s +:+ ": value out of range"))
  end.

(** ** Hexadecimal rendering ([fmt.Sprintf("%016x", *big.Int)]) *)

Definition hex_digit (d : N) : Ascii.ascii :=
  match String.get (N.to_nat d) "0123456789abcdef" with
  | Some c => c
  | None => "0"%char
  end.

(** Digits of [n], most significant first, prepended to [acc]. *)
Fixpoint hex_go (fuel : nat) (n : N) (acc : string) : string :=
  match fuel with
  | O => acc
  | S f =>
    let acc' := String (hex_digit (n mod 16)) acc in
    if (n <? 16)%N then acc' else hex_go f (n / 16)%N acc'
  end.

(** [big.Int.Text(16)] of a non-negative value. *)
Definition hex_N (n : N) : string := hex_go (S (N.size_nat n)) n "".

Fixpoint zeros (k : nat) : string :=
  match k with O => "" | S k' => String "0"%char (zeros k') end.

(** [%016x]: sign, then zero padding up to a total width of 16, then the
    digits of the absolute value; wider numbers are not truncated. *)
Definition Sprintf016x (z : Z) : string :=
  let sign := if z <? 0 then "-" else "" in
  let digits := hex_N (Z.to_N (Z.abs z)) in
  sign +:+ zeros (16 - String.length sign - String.length digits) +:+ digits.

(** The short identifier [NewCertificate] puts in a certificate's URL:
    [fmt.Sprintf("%016x", serial.Rsh(serial, 64))]. *)
Definition shortSerial (serial : Z) : string := Sprintf016x (Z.shiftr serial 64).

(** The regexp [allHex] = ["^[0-9a-f]+$"]. *)
Definition is_lower_hex (c : Ascii.ascii) : bool :=
  let n := Ascii.nat_of_ascii c in
  ((48 <=? n) && (n <=? 57))%nat || ((97 <=? n) && (n <=? 102))%nat.

Fixpoint all_lower_hex (s : string) : bool :=
  match s with
  | EmptyString => true
  | String c rest => is_lower_hex c && all_lower_hex rest
  end.

Definition allHex_Match (s : string) : bool :=
  match s with
  | EmptyString => false
  | _ => all_lower_hex s
  end.

(** ** Handlers *)

Section Handlers.
Variable wfe : WebFrontEndImpl.

Definition is_ErrNoRows (e : error) : bool :=
  match e with ErrNoRows => true | _ => false end.

(** The shared reaction of the account-requiring handlers to a failed
    [verifyPOST]. *)
Definition sendVerifyError (e : error) : M unit :=
  if is_ErrNoRows e
  then sendError "No registration exists matching provided key" StatusForbidden
  else sendError "Unable to read/verify body" StatusBadRequest.

(** [RevokeCertificate]. *)
Definition RevokeCertificate (request : Request) : M unit :=
  sendStandardHeaders;;
  if negb (String.eqb (req_Method request) "POST") then
    sendAllow ["POST"];; sendError "Method not allowed" StatusMethodNotAllowed
  else
  v ← verifyPOST wfe request false;
  match v with
  | Err _ => sendError "Unable to read/verify body" StatusBadRequest
  | Ok (body, requestKey, registration) =>
    match UnmarshalRevokeRequest (lib wfe) body with
    | Err _ => sendError "Unable to read/verify body" StatusBadRequest
    | Ok certificateDER =>
      match ParseCertificate (lib wfe) certificateDER with
      | Err _ => sendError "Unable to read/verify body" StatusBadRequest
      | Ok providedCert =>
        let serial := SerialToString (lib wfe) (pc_SerialNumber providedCert) in
        match GetCertificate (SA wfe) serial with
        | Err _ => sendError "No such certificate" StatusNotFound
        | Ok cert =>
          if negb (String.eqb (cert_DER cert) certificateDER)
          then sendError "No such certificate" StatusNotFound
          else
          match ParseCertificate (lib wfe) (cert_DER cert) with
          | Err _ => sendError "Invalid certificate" StatusInternalServerError
          | Ok parsedCertificate =>
            match GetCertificateStatus (SA wfe) serial with
            | Err _ => sendError "Certificate status not yet available" StatusNotFound
            | Ok certStatus =>
              match cs_Status certStatus with
              | OCSPStatusRevoked =>
                sendError "Certificate already revoked" StatusConflict
              | OCSPStatusGood =>
                if negb (KeyDigestEquals (lib wfe) requestKey (pc_PublicKey parsedCertificate)
                         || Z.eqb (reg_ID registration) (cert_RegistrationID cert))
                then sendError "Revocation request must be signed by private key of cert to be revoked"
                       StatusForbidden
                else
                  record_call (CallRevokeCertificate parsedCertificate);;
                  match RA_RevokeCertificate (RA wfe) parsedCertificate with
                  | Some e => sendError "Failed to revoke certificate" (statusCodeFromError e)
                  | None => WriteHeader StatusOK
                  end
              end
            end
          end
        end
      end
    end
  end.

(** [NewCertificate]. *)
Definition NewCertificate (request : Request) : M unit :=
  sendStandardHeaders;;
  if negb (String.eqb (req_Method request) "POST") then
    sendAllow ["POST"];; sendError "Method not allowed" StatusMethodNotAllowed
  else
  v ← verifyPOST wfe request true;
  match v with
  | Err e => sendVerifyError e
  | Ok (body, key, reg) =>
    if String.eqb (reg_Agreement reg) "" then
      sendError "Must agree to subscriber agreement before any further actions" StatusForbidden
    else
    match UnmarshalCertificateRequest (lib wfe) body with
    | Err _ => sendError "Error unmarshaling certificate request" StatusBadRequest
    | Ok init =>
      record_call (CallNewCertificate init (reg_ID reg));;
      match RA_NewCertificate (RA wfe) init (reg_ID reg) with
      | Err e => sendError "Error creating new cert" (statusCodeFromError e)
      | Ok cert =>
        match ParseCertificate (lib wfe) (cert_DER cert) with
        | Err _ => sendError "Error creating new cert" StatusBadRequest
        | Ok parsedCertificate =>
          let certURL := CertBase wfe +:+ shortSerial (pc_SerialNumber parsedCertificate) in
          header_Add "Location" certURL;;
          header_Add "Link" (link (BaseURL wfe +:+ IssuerPath) "up");;
          header_Set "Content-Type" "application/pkix-cert";;
          WriteHeader StatusCreated;;
          Write (Bytes (cert_DER cert))
        end
      end
    end
  end.

(** The [for i, challenge := range authz.Challenges] search of [challenge]:
    the first challenge whose URI path and raw query equal the request's. *)
Fixpoint findChallenge (l : list Challenge) (path rawQuery : string) (i : nat) : option nat :=
  match l with
  | [] => None
  | c :: rest =>
    if String.eqb (chal_URI_Path c) path && String.eqb (chal_URI_RawQuery c) rawQuery
    then Some i
    else findChallenge rest path rawQuery (S i)
  end.

(** Writing a challenge as the reply of [challenge] (both branches). *)
Definition replyChallenge (authz : Authorization) (ch : Challenge) : M unit :=
  match MarshalChallenge (lib wfe) ch with
  | Err _ => sendError "Failed to marshal challenge" StatusInternalServerError
  | Ok jsonReply =>
    let authzURL := AuthzBase wfe +:+ authz_ID authz in
    let challengeURL :=
      if String.eqb (chal_URI_RawQuery ch) "" then chal_URI_Path ch
      else chal_URI_Path ch +:+ "?" +:+ chal_URI_RawQuery ch in
    header_Add "Location" challengeURL;;
    header_Set "Content-Type" "application/json";;
    header_Add "Link" (link authzURL "up");;
    WriteHeader StatusAccepted;;
    Write (Bytes jsonReply)
  end.

(** [challenge]. *)
Definition challenge (authz : Authorization) (request : Request) : M unit :=
  sendStandardHeaders;;
  let meth := req_Method request in
  if negb (String.eqb meth "GET") && negb (String.eqb meth "POST") then
    sendAllow ["GET"; "POST"];; sendError "Method not allowed" StatusMethodNotAllowed
  else
  match findChallenge (authz_Challenges authz) (req_Path request) (req_RawQuery request) 0 with
  | None => sendError "Unable to find challenge" StatusNotFound
  | Some challengeIndex =>
    if String.eqb meth "GET" then
      match authz_Challenges authz !! challengeIndex with
      | None => go_panic "index out of range"
      | Some ch => replyChallenge authz ch
      end
    else if String.eqb meth "POST" then
      v ← verifyPOST wfe request true;
      match v with
      | Err e => sendVerifyError e
      | Ok (body, _, currReg) =>
        if String.eqb (reg_Agreement currReg) "" then
          sendError "Must agree to subscriber agreement before any further actions" StatusForbidden
        else if negb (Z.eqb (reg_ID currReg) (authz_RegistrationID authz)) then
          sendError "User registration ID doesn't match registration ID in authorization"
            StatusForbidden
        else
        match UnmarshalChallenge (lib wfe) body with
        | Err _ => sendError "Error unmarshaling challenge response" StatusBadRequest
        | Ok challengeResponse =>
          record_call (CallUpdateAuthorization authz challengeIndex challengeResponse);;
          match RA_UpdateAuthorization (RA wfe) authz challengeIndex challengeResponse with
          | Err e => sendError "Unable to update authorization" (statusCodeFromError e)
          | Ok updatedAuthz =>
            match authz_Challenges updatedAuthz !! challengeIndex with
            | None => go_panic "index out of range"
            | Some ch => replyChallenge authz ch
            end
          end
        end
      end
    else
      sendAllow ["GET"; "POST"];; sendError "Method not allowed" StatusMethodNotAllowed
  end.

(** [Registration] (the account-update handler; the Go name is taken by
    the record type here). *)
Definition RegistrationHandler (request : Request) : M unit :=
  sendStandardHeaders;;
  if negb (String.eqb (req_Method request) "POST") then
    sendAllow ["POST"];; sendError "Method not allowed" StatusMethodNotAllowed
  else
  v ← verifyPOST wfe request true;
  match v with
  | Err e => sendVerifyError e
  | Ok (body, _, currReg) =>
    let idStr := parseIDFromPath (req_Path request) in
    match ParseInt idStr with
    | Err _ => sendError "Registration ID must be an integer" StatusBadRequest
    | Ok id =>
      if id <=? 0 then
        sendError "Registration ID must be a positive non-zero integer" StatusBadRequest
      else if negb (Z.eqb id (reg_ID currReg)) then
        sendError "Request signing key did not match registration key" StatusForbidden
      else
      match UnmarshalRegistration (lib wfe) body with
      | Err _ => sendError "Error unmarshaling registration" StatusBadRequest
      | Ok update =>
        if negb (String.eqb (reg_Agreement update) "")
           && negb (String.eqb (reg_Agreement update) (SubscriberAgreementURL wfe)) then
          sendError ("Provided agreement URL [" +:+ reg_Agreement update
                     +:+ "] does not match current agreement URL ["
                     +:+ SubscriberAgreementURL wfe +:+ "]") StatusBadRequest
        else
        let update := {| reg_ID := reg_ID update; reg_Key := reg_Key currReg;
                         reg_Contact := reg_Contact update;
                         reg_Agreement := reg_Agreement update |} in
        record_call (CallUpdateRegistration currReg update);;
        match RA_UpdateRegistration (RA wfe) currReg update with
        | Err e => sendError "Unable to update registration" (statusCodeFromError e)
        | Ok updatedReg =>
          match MarshalRegistration (lib wfe) updatedReg with
          | Err _ => sendError "Failed to marshal registration" StatusInternalServerError
          | Ok jsonReply =>
            header_Set "Content-Type" "application/json";;
            WriteHeader StatusAccepted;;
            Write (Bytes jsonReply)
          end
        end
      end
    end
  end.

(** [Certificate] (the certificate-fetch handler). *)
Definition CertificateHandler (request : Request) : M unit :=
  sendStandardHeaders;;
  let meth := req_Method request in
  if negb (String.eqb meth "GET") && negb (String.eqb meth "POST") then
    sendAllow ["GET"; "POST"];; sendError "Method not allowed" StatusMethodNotAllowed
  else
  let path := req_Path request in
  if String.eqb meth "GET" then
    if negb (HasPrefix path CertPath) then sendError "Not found" StatusNotFound
    else
    let serial := str_drop (String.length CertPath) path in
    if negb (Nat.eqb (String.length serial) 16) || negb (allHex_Match serial) then
      sendError "Not found" StatusNotFound
    else
    match GetCertificateByShortSerial (SA wfe) serial with
    | Err e =>
      if HasPrefix (Error e) "gorp: multiple rows returned"
      then sendError "Multiple certificates with same short serial" StatusConflict
      else sendError "Not found" StatusNotFound
    | Ok cert =>
      header_Set "Content-Type" "application/pkix-cert";;
      header_Add "Link" (link IssuerPath "up");;
      WriteHeader StatusOK;;
      Write (Bytes (cert_DER cert))
    end
  else if String.eqb meth "POST" then
    sendError "Not yet supported" StatusNotFound
  else
    sendAllow ["GET"; "POST"];; sendError "Method not allowed" StatusMethodNotAllowed.

End Handlers.

(** ** The remaining POST and GET handlers *)

(** The members of [WebFrontEndImpl], [core.RegistrationAuthority] and the
    JSON layer that only [NewRegistration], [NewAuthorization] and
    [Authorization] use: the RA's two creation methods, [json.Unmarshal]
    and [json.Marshal] on [core.Authorization], and the URL fields
    [RegBase], [NewAuthz] and [NewCert]. *)
Record FrontEndExt := {
  RA_NewRegistration : Registration -> result Registration;
  RA_NewAuthorization : Authorization -> Z -> result Authorization;
  UnmarshalAuthorization : string -> result Authorization;
  MarshalAuthorization : Authorization -> result string;
  RegBase : string;
  NewAuthz : string;
  NewCert : string
}.

(** Calls of the two creation methods of the RA.  The handlers below
    return the list of such calls they made. *)
Inductive RACallExt :=
  | CallNewRegistration (init : Registration)
  | CallNewAuthorization (init : Authorization) (regID : Z).

Section HandlersExt.
Variable wfe : WebFrontEndImpl.
Variable ext : FrontEndExt.

(** [NewRegistration]. *)
Definition NewRegistration (request : Request) : M (list RACallExt) :=
  sendStandardHeaders;;
  if negb (String.eqb (req_Method request) "POST") then
    sendAllow ["POST"];; sendError "Method not allowed" StatusMethodNotAllowed;; mret []
  else
  v ← verifyPOST wfe request false;
  match v with
  | Err _ => sendError "Unable to read/verify body" StatusBadRequest;; mret []
  | Ok (body, key, _) =>
    match GetRegistrationByKey (SA wfe) key with
    | Ok _ => sendError "Registration key is already in use" StatusConflict;; mret []
    | Err _ =>
      match UnmarshalRegistration (lib wfe) body with
      | Err _ => sendError "Error unmarshaling JSON" StatusBadRequest;; mret []
      | Ok init =>
        if negb (String.eqb (reg_Agreement init) "")
           && negb (String.eqb (reg_Agreement init) (SubscriberAgreementURL wfe)) then
          sendError ("Provided agreement URL [" +:+ reg_Agreement init
                     +:+ "] does not match current agreement URL ["
                     +:+ SubscriberAgreementURL wfe +:+ "]") StatusBadRequest;;
          mret []
        else
        let init := {| reg_ID := reg_ID init; reg_Key := key;
                       reg_Contact := reg_Contact init; reg_Agreement := reg_Agreement init |} in
        (match RA_NewRegistration ext init with
         | Err e => sendError "Error creating new registration" (statusCodeFromError e)
         | Ok reg =>
           let regURL := RegBase ext +:+ pretty (reg_ID reg) in
           match MarshalRegistration (lib wfe) reg with
           | Err _ => sendError "Error marshaling registration" StatusInternalServerError
           | Ok responseBody =>
             header_Add "Location" regURL;;
             header_Set "Content-Type" "application/json";;
             header_Add "Link" (link (NewAuthz ext) "next");;
             (if negb (String.eqb (SubscriberAgreementURL wfe) "")
              then header_Add "Link" (link (SubscriberAgreementURL wfe) "terms-of-service")
              else mret tt);;
             WriteHeader StatusCreated;;
             Write (Bytes responseBody)
           end
         end);;
        mret [CallNewRegistration init]
      end
    end
  end.

(** [authz.ID = ""; authz.RegistrationID = 0] before serialising. *)
Definition blank_authz (authz : Authorization) : Authorization :=
  {| authz_ID := ""; authz_Identifier := authz_Identifier authz; authz_RegistrationID := 0;
     authz_Status := authz_Status authz; authz_Challenges := authz_Challenges authz |}.

(** [NewAuthorization]. *)
Definition NewAuthorization (request : Request) : M (list RACallExt) :=
  sendStandardHeaders;;
  if negb (String.eqb (req_Method request) "POST") then
    sendAllow ["POST"];; sendError "Method not allowed" StatusMethodNotAllowed;; mret []
  else
  v ← verifyPOST wfe request true;
  match v with
  | Err e => sendVerifyError e;; mret []
  | Ok (body, _, currReg) =>
    if String.eqb (reg_Agreement currReg) "" then
      sendError "Must agree to subscriber agreement before any further actions" StatusForbidden;;
      mret []
    else
    match UnmarshalAuthorization ext body with
    | Err _ => sendError "Error unmarshaling JSON" StatusBadRequest;; mret []
    | Ok init =>
      (match RA_NewAuthorization ext init (reg_ID currReg) with
       | Err e => sendError "Error creating new authz" (statusCodeFromError e)
       | Ok authz =>
         let authzURL := AuthzBase wfe +:+ authz_ID authz in
         match MarshalAuthorization ext (blank_authz authz) with
         | Err _ => sendError "Error marshaling authz" StatusInternalServerError
         | Ok responseBody =>
           header_Add "Location" authzURL;;
           header_Add "Link" (link (NewCert ext) "next");;
           header_Set "Content-Type" "application/json";;
           WriteHeader StatusCreated;;
           Write (Bytes responseBody)
         end
       end);;
      mret [CallNewAuthorization init (reg_ID currReg)]
    end
  end.

(** [Authorization]; a POST without a query reaches the [default] case of
    its [switch]. *)
Definition AuthorizationHandler (request : Request) : M unit :=
  sendStandardHeaders;;
  let meth := req_Method request in
  if negb (String.eqb meth "GET") && negb (String.eqb meth "POST") then
    sendAllow ["GET"; "POST"];; sendError "Method not allowed" StatusMethodNotAllowed
  else
  let id := parseIDFromPath (req_Path request) in
  match GetAuthorization (SA wfe) id with
  | Err _ => sendError "Unable to find authorization" StatusNotFound
  | Ok authz =>
    if negb (String.eqb (req_RawQuery request) "") then challenge wfe authz request
    else if String.eqb meth "GET" then
      match MarshalAuthorization ext (blank_authz authz) with
      | Err _ => sendError "Failed to marshal authz" StatusInternalServerError
      | Ok jsonReply =>
        header_Add "Link" (link (NewCert ext) "next");;
        header_Set "Content-Type" "application/json";;
        WriteHeader StatusOK;;
        Write (Bytes jsonReply)
      end
    else
      sendAllow ["GET"; "POST"];; sendError "Method not allowed" StatusMethodNotAllowed
  end.

End HandlersExt.

(** ** The short-serial lookup of the storage authority *)

(** Modelled from the spec: the Storage collaborator's
    [getCertificateByShortSerial] (its query is not part of this file).
    §6 and §4.3: it returns the certificate whose short identifier is the
    one asked for, reports no match as not-found, and signals more than
    one match distinctly; the front end recognises that case by the gorp
    error text ["gorp: multiple rows returned"]. *)
Definition sa_GetCertificateByShortSerial (store : list (Z * Certificate)) (shortID : string)
    : result Certificate :=
  match filter (fun e => String.eqb (shortSerial e.1) shortID) store with
  | [] => Err ErrNoRows
  | [(_, c)] => Ok c
  | _ => Err (ErrPlain ("gorp: multiple rows returned for: " +:+ shortID))
  end.

(** ** A concrete front end, for evaluation *)

Definition demo_sig (k : Key) : Signature := {| sig_Header := {| sh_JsonWebKey := k |} |}.

Definition demo_reg : Registration :=
  {| reg_ID := 7; reg_Key := "k1"; reg_Contact := []; reg_Agreement := "terms" |}.

Definition demo_chal : Challenge :=
  {| chal_Type := "simpleHttp"; chal_Status := "pending";
     chal_URI_Path := "/acme/authz/a1"; chal_URI_RawQuery := "challenge=0" |}.

(** Bodies name their signers: ["k1"] signs once, ["two"] twice, ["none"]
    not at all; the signature of ["k1"] verifies and carries nonce ["0"]. *)
Definition demo_lib : Libs := {|
  ParseSigned := fun body =>
    if String.eqb body "none" then Ok {| jws_Signatures := [] |}
    else if String.eqb body "two" then Ok {| jws_Signatures := [demo_sig "k1"; demo_sig "k2"] |}
    else if String.eqb body "garbage" then Err (ErrPlain "square/go-jose: compact JWS format must have three parts")
    else Ok {| jws_Signatures := [demo_sig body] |};
  JWSVerify := fun _ k =>
    if String.eqb k "k1" then Ok ("payload", {| jh_Nonce := "0" |})
    else Err (ErrPlain "square/go-jose: error in cryptographic primitive");
  KeyDigestEquals := fun k pk => String.eqb k pk;
  ParseCertificate := fun der =>
    if String.eqb der "der1" then Ok {| pc_SerialNumber := 1; pc_PublicKey := "certkey" |}
    else Err (ErrPlain "asn1: syntax error");
  SerialToString := fun z => pretty z;
  UnmarshalRegistration := fun _ =>
    Ok {| reg_ID := 0; reg_Key := "k9"; reg_Contact := []; reg_Agreement := "" |};
  UnmarshalChallenge := fun _ => Ok demo_chal;
  UnmarshalRevokeRequest := fun _ => Ok "der1";
  UnmarshalCertificateRequest := fun s => Ok s;
  MarshalChallenge := fun c => Ok (chal_Status c);
  MarshalRegistration := fun _ => Ok "{}"
|}.

Definition demo_cert (owner : Z) : Certificate :=
  {| cert_RegistrationID := owner; cert_Serial := "1"; cert_DER := "der1" |}.

(** A storage authority knowing the account of ["k1"] (or none) and one
    certificate with the given owner and revocation status. *)
Definition demo_sa (accounts : bool) (owner : Z) (status : OCSPStatus) : StorageGetter := {|
  GetRegistrationByKey := fun k =>
    if accounts && String.eqb k "k1" then Ok demo_reg else Err ErrNoRows;
  GetAuthorization := fun _ => Err ErrNoRows;
  GetCertificate := fun s => if String.eqb s "1" then Ok (demo_cert owner) else Err ErrNoRows;
  GetCertificateStatus := fun _ => Ok {| cs_Status := status |};
  GetCertificateByShortSerial := fun _ => Err ErrNoRows
|}.

Definition demo_authz (owner : Z) : Authorization :=
  {| authz_ID := "a1"; authz_Identifier := "example.com"; authz_RegistrationID := owner;
     authz_Status := "pending"; authz_Challenges := [demo_chal] |}.

Definition demo_ra : RegistrationAuthority := {|
  RA_NewCertificate := fun _ _ => Err (ErrPlain "unused");
  RA_UpdateRegistration := fun _ upd => Ok upd;
  RA_UpdateAuthorization := fun authz _ _ => Ok authz;
  RA_RevokeCertificate := fun _ => None
|}.

(** An Authority whose every operation fails with the given error. *)
Definition demo_ra_failing (e : error) : RegistrationAuthority := {|
  RA_NewCertificate := fun _ _ => Err e;
  RA_UpdateRegistration := fun _ _ => Err e;
  RA_UpdateAuthorization := fun _ _ _ => Err e;
  RA_RevokeCertificate := fun _ => Some e
|}.

Definition demo_wfe_failing (e : error) (sa : StorageGetter) : WebFrontEndImpl := {|
  RA := demo_ra_failing e; SA := sa; lib := demo_lib;
  BaseURL := "http://localhost:4000"; AuthzBase := "http://localhost:4000/acme/authz/";
  CertBase := "http://localhost:4000/acme/cert/"; SubscriberAgreementURL := "terms"
|}.

Definition demo_wfe (sa : StorageGetter) : WebFrontEndImpl := {|
  RA := demo_ra; SA := sa; lib := demo_lib;
  BaseURL := "http://localhost:4000"; AuthzBase := "http://localhost:4000/acme/authz/";
  CertBase := "http://localhost:4000/acme/cert/"; SubscriberAgreementURL := "terms"
|}.

(** A storage authority whose short-serial lookup searches [store]. *)
Definition demo_sa_store (store : list (Z * Certificate)) : StorageGetter := {|
  GetRegistrationByKey := fun k => if String.eqb k "k1" then Ok demo_reg else Err ErrNoRows;
  GetAuthorization := fun _ => Err ErrNoRows;
  GetCertificate := fun _ => Err ErrNoRows;
  GetCertificateStatus := fun _ => Ok {| cs_Status := OCSPStatusGood |};
  GetCertificateByShortSerial := sa_GetCertificateByShortSerial store
|}.

Definition demo_get (path : string) : Request :=
  {| req_Method := "GET"; req_Path := path; req_RawQuery := ""; req_Body := NoBody |}.

(** A fresh response writer; nonce ["0"] has been handed out. *)
Definition demo_st : St := {|
  st_nonces := (ns_Nonce NewNonceService).2; st_header := []; st_code := None;
  st_body := []; st_calls := []; st_audit := []; st_panic := None
|}.

Definition demo_post (path body : string) : Request :=
  {| req_Method := "POST"; req_Path := path; req_RawQuery := ""; req_Body := BodyBytes body |}.

(** URLs, an Authority and a JSON layer for the handlers of
    [FrontEndExt]: the new account gets id 8, the new authorization id
    ["a2"]; an authorization serialises as its id and identifier. *)
Definition demo_ext : FrontEndExt := {|
  RA_NewRegistration := fun init =>
    Ok {| reg_ID := 8; reg_Key := reg_Key init; reg_Contact := reg_Contact init;
          reg_Agreement := reg_Agreement init |};
  RA_NewAuthorization := fun init regID =>
    Ok {| authz_ID := "a2"; authz_Identifier := authz_Identifier init;
          authz_RegistrationID := regID; authz_Status := "pending";
          authz_Challenges := [demo_chal] |};
  UnmarshalAuthorization := fun _ =>
    Ok {| authz_ID := ""; authz_Identifier := "example.com"; authz_RegistrationID := 0;
          authz_Status := ""; authz_Challenges := [] |};
  MarshalAuthorization := fun a => Ok (authz_ID a +:+ "|" +:+ authz_Identifier a);
  RegBase := "http://localhost:4000/acme/reg/";
  NewAuthz := "http://localhost:4000/acme/new-authz";
  NewCert := "http://localhost:4000/acme/new-cert"
|}.

(** A storage authority knowing the account of ["k1"] and the
    authorization ["a1"] of account 7. *)
Definition demo_sa_authz : StorageGetter := {|
  GetRegistrationByKey := fun k => if String.eqb k "k1" then Ok demo_reg else Err ErrNoRows;
  GetAuthorization := fun id => if String.eqb id "a1" then Ok (demo_authz 7) else Err ErrNoRows;
  GetCertificate := fun _ => Err ErrNoRows;
  GetCertificateStatus := fun _ => Ok {| cs_Status := OCSPStatusGood |};
  GetCertificateByShortSerial := fun _ => Err ErrNoRows
|}.

(** An Authority that issues the certificate [demo_cert] for the account. *)
Definition demo_ra_issuing : RegistrationAuthority := {|
  RA_NewCertificate := fun _ regID => Ok (demo_cert regID);
  RA_UpdateRegistration := fun _ upd => Ok upd;
  RA_UpdateAuthorization := fun authz _ _ => Ok authz;
  RA_RevokeCertificate := fun _ => None
|}.

Definition demo_wfe_issuing (sa : StorageGetter) : WebFrontEndImpl := {|
  RA := demo_ra_issuing; SA := sa; lib := demo_lib;
  BaseURL := "http://localhost:4000"; AuthzBase := "http://localhost:4000/acme/authz/";
  CertBase := "http://localhost:4000/acme/cert/"; SubscriberAgreementURL := "terms"
|}.

(** A storage authority like [demo_sa true 7], whose certificate status
    lookups fail. *)
Definition demo_sa_nostatus : StorageGetter := {|
  GetRegistrationByKey := fun k => if String.eqb k "k1" then Ok demo_reg else Err ErrNoRows;
  GetAuthorization := fun _ => Err ErrNoRows;
  GetCertificate := fun s => if String.eqb s "1" then Ok (demo_cert 7) else Err ErrNoRows;
  GetCertificateStatus := fun _ => Err ErrNoRows;
  GetCertificateByShortSerial := fun _ => Err ErrNoRows
|}.

Example demo_new_registration :
  let r := NewRegistration (demo_wfe (demo_sa false 7 OCSPStatusGood)) demo_ext
             (demo_post "/acme/new-reg" "k1") demo_st in
  st_code r.2 = Some StatusCreated /\
  ("Location", "http://localhost:4000/acme/reg/8") ∈ st_header r.2.
Proof. vm_compute. split; [reflexivity|]. repeat constructor. Qed.

Example demo_get_authorization :
  st_body (AuthorizationHandler (demo_wfe demo_sa_authz) demo_ext
             (demo_get "/acme/authz/a1") demo_st).2 = [Bytes "|example.com"].
Proof. vm_compute. reflexivity. Qed.

Example demo_parseID : parseIDFromPath "/acme/reg/12" = "12".
Proof. reflexivity. Qed.
Example demo_parseInt : ParseInt "+12" = Ok 12 /\ ParseInt "-0" = Ok 0.
Proof. split; reflexivity. Qed.
Example demo_short : shortSerial (2 ^ 64 * 255 + 3) = "00000000000000ff".
Proof. vm_compute. reflexivity. Qed.
Example demo_short_neg : Sprintf016x (-255) = "-0000000000000ff".
Proof. vm_compute. reflexivity. Qed.
Example demo_update_status :
  st_code (RegistrationHandler (demo_wfe (demo_sa true 7 OCSPStatusGood)) (demo_post "/acme/reg/7" "k1") demo_st).2
  = Some StatusAccepted.
Proof. vm_compute. reflexivity. Qed.

(** * Properties *)

(** ** Facts about the state monad and [verifyPOST] *)

Lemma set_nonces_same (st : St) : set_nonces (st_nonces st) st = st.
Proof. destruct st; reflexivity. Qed.

(** A request body "parses as a signed envelope with exactly one signature
    that verifies against the key its header embeds". *)
Definition signed_by (wfe : WebFrontEndImpl) (body : string) (key : Key)
    (payload : string) (hdr : JoseHeader) : Prop :=
  exists jws sig,
    ParseSigned (lib wfe) body = Ok jws /\ jws_Signatures jws = [sig] /\
    sh_JsonWebKey (sig_Header sig) = key /\ JWSVerify (lib wfe) jws key = Ok (payload, hdr).

Ltac unfold_M := unfold mbind, M_bind, mret, M_ret in *; cbn beta iota in *.

Lemma ns_Valid_true (n : string) (ns : NonceService) :
  n ∈ ns_valid ns ->
  ns_Valid n ns = (true, {| ns_counter := ns_counter ns; ns_valid := ns_valid ns ∖ {[ n ]} |}).
Proof. intros Hn. unfold ns_Valid. by rewrite decide_True. Qed.

Lemma ns_Valid_false (n : string) (ns : NonceService) :
  n ∉ ns_valid ns -> ns_Valid n ns = (false, ns).
Proof. intros Hn. unfold ns_Valid. by rewrite decide_False. Qed.

(** [verifyPOST] touches nothing but the nonce register, and there it
    consumes at most the nonce of an envelope whose signature verified. *)
Lemma verifyPOST_frame (wfe : WebFrontEndImpl) (req : Request) (rc : bool) (st : St)
    (r : result (string * Key * Registration)) (st' : St) :
  verifyPOST wfe req rc st = (r, st') ->
  st' = st \/
  exists body key payload hdr,
    req_Body req = BodyBytes body /\ signed_by wfe body key payload hdr /\
    st' = set_nonces (ns_Valid (jh_Nonce hdr) (st_nonces st)).2 st.
Proof.
  unfold verifyPOST, nonce_valid. unfold_M.
  destruct (req_Body req) as [|e|body] eqn:Hb; try (intros H; inversion H; auto; fail).
  destruct (ParseSigned (lib wfe) body) as [jws|e] eqn:Hp; try (intros H; inversion H; auto; fail).
  destruct (jws_Signatures jws) as [|sig [|sig2 rest]] eqn:Hs; try (intros H; inversion H; auto; fail).
  destruct (JWSVerify (lib wfe) jws (sh_JsonWebKey (sig_Header sig))) as [[payload hdr]|e] eqn:Hv;
    try (intros H; inversion H; auto; fail).
  destruct (String.eqb (jh_Nonce hdr) "") eqn:Hn; try (intros H; inversion H; auto; fail).
  destruct (ns_Valid (jh_Nonce hdr) (st_nonces st)) as [ok ns] eqn:Hvalid.
  intros H. right. exists body, (sh_JsonWebKey (sig_Header sig)), payload, hdr.
  split; [reflexivity|]. split; [exists jws, sig; auto|].
  rewrite Hvalid. cbn.
  destruct ok; cbn in H;
    [destruct (GetRegistrationByKey (SA wfe) _); [|destruct rc]|]; inversion H; reflexivity.
Qed.

Lemma verifyPOST_frame_calls (wfe : WebFrontEndImpl) (req : Request) (rc : bool) (st : St)
    (r : result (string * Key * Registration)) (st' : St) :
  verifyPOST wfe req rc st = (r, st') -> exists ns, st' = set_nonces ns st.
Proof.
  intros H. destruct (verifyPOST_frame wfe req rc st r st' H) as [->|(? & ? & ? & ? & _ & _ & ->)].
  - exists (st_nonces st). symmetry. apply set_nonces_same.
  - eexists. reflexivity.
Qed.

(** What a successful [verifyPOST] has established. *)
Lemma verifyPOST_Ok_inv (wfe : WebFrontEndImpl) (req : Request) (rc : bool) (st : St)
    (payload : string) (key : Key) (reg : Registration) (st' : St) :
  verifyPOST wfe req rc st = (Ok (payload, key, reg), st') ->
  exists body hdr,
    req_Body req = BodyBytes body /\ signed_by wfe body key payload hdr /\
    jh_Nonce hdr <> "" /\ jh_Nonce hdr ∈ ns_valid (st_nonces st) /\
    st' = set_nonces (ns_Valid (jh_Nonce hdr) (st_nonces st)).2 st /\
    (GetRegistrationByKey (SA wfe) key = Ok reg \/
     (rc = false /\ reg = zero_Registration /\
      exists e, GetRegistrationByKey (SA wfe) key = Err e)).
Proof.
  unfold verifyPOST, nonce_valid. unfold_M.
  destruct (req_Body req) as [|e|body] eqn:Hb; try (intros H; inversion H; fail).
  destruct (ParseSigned (lib wfe) body) as [jws|e] eqn:Hp; try (intros H; inversion H; fail).
  destruct (jws_Signatures jws) as [|sig [|sig2 rest]] eqn:Hs; try (intros H; inversion H; fail).
  destruct (JWSVerify (lib wfe) jws (sh_JsonWebKey (sig_Header sig))) as [[pl hdr]|e] eqn:Hv;
    try (intros H; inversion H; fail).
  destruct (String.eqb (jh_Nonce hdr) "") eqn:Hn; try (intros H; inversion H; fail).
  apply String.eqb_neq in Hn.
  destruct (decide (jh_Nonce hdr ∈ ns_valid (st_nonces st))) as [Hin|Hout].
  2:{ rewrite ns_Valid_false by exact Hout. cbn. intros H; inversion H. }
  rewrite ns_Valid_true by exact Hin. cbn.
  destruct (GetRegistrationByKey (SA wfe) (sh_JsonWebKey (sig_Header sig))) as [r|e] eqn:Hg;
    [|destruct rc]; intros H; inversion H; subst.
  - exists body, hdr. rewrite ns_Valid_true by exact Hin.
    repeat split; auto. exists jws, sig; auto.
  - exists body, hdr. rewrite ns_Valid_true by exact Hin.
    repeat split; auto. exists jws, sig; auto. right. eauto.
Qed.

(** ** Claim C1: signature binding in [verifyPOST] *)



(** ** Claim C2: single use of nonces *)

(** The operations other requests perform on the register concurrently:
    every response issues a nonce, every verification consumes one. *)
Inductive NonceOp := OpIssue | OpConsume (t : string).

Definition nonce_step (op : NonceOp) (ns : NonceService) : NonceService :=
  match op with
  | OpIssue => (ns_Nonce ns).2
  | OpConsume t => (ns_Valid t ns).2
  end.

Fixpoint run_ops (ops : list NonceOp) (ns : NonceService) : NonceService :=
  match ops with
  | [] => ns
  | op :: rest => run_ops rest (nonce_step op ns)
  end.

(** The nonce a request's verified protected header carries, if any. *)
Definition signedNonce (wfe : WebFrontEndImpl) (req : Request) : option string :=
  match req_Body req with
  | BodyBytes body =>
    match ParseSigned (lib wfe) body with
    | Ok jws =>
      match jws_Signatures jws with
      | [sig] =>
        match JWSVerify (lib wfe) jws (sh_JsonWebKey (sig_Header sig)) with
        | Ok (_, hdr) => Some (jh_Nonce hdr)
        | Err _ => None
        end
      | _ => None
      end
    | Err _ => None
    end
  | _ => None
  end.

(** Every valid token was issued under a smaller counter value. *)
Definition ns_wf (ns : NonceService) : Prop :=
  forall t, t ∈ ns_valid ns -> exists m, (m < ns_counter ns)%N /\ t = pretty m.

Lemma ns_wf_new : ns_wf NewNonceService.
Proof. intros t Ht. cbn in Ht. set_solver. Qed.

Lemma ns_wf_step (op : NonceOp) (ns : NonceService) : ns_wf ns -> ns_wf (nonce_step op ns).
Proof.
  intros Hwf t Ht. destruct op as [|u]; cbn in *.
  - apply elem_of_union in Ht as [Ht|Ht].
    + apply elem_of_singleton in Ht. subst. exists (ns_counter ns). split; [lia|reflexivity].
    + destruct (Hwf t Ht) as (m & Hm & ->). exists m. split; [lia|reflexivity].
  - unfold ns_Valid in *. destruct (decide (u ∈ ns_valid ns)); cbn in *.
    + apply Hwf. set_solver.
    + apply Hwf. exact Ht.
Qed.

Lemma ns_wf_run (ops : list NonceOp) (ns : NonceService) : ns_wf ns -> ns_wf (run_ops ops ns).
Proof. revert ns. induction ops; intros ns H; cbn; [exact H|]. apply IHops, ns_wf_step, H. Qed.

Lemma ns_counter_step (op : NonceOp) (ns : NonceService) :
  (ns_counter ns <= ns_counter (nonce_step op ns))%N.
Proof.
  destruct op as [|u]; cbn; [lia|]. unfold ns_Valid. destruct (decide _); cbn; lia.
Qed.

(** A token that is not valid and was issued below the counter never
    becomes valid again. *)
Lemma consumed_stays_invalid (ops : list NonceOp) (ns : NonceService) (m : N) :
  pretty m ∉ ns_valid ns -> (m < ns_counter ns)%N ->
  pretty m ∉ ns_valid (run_ops ops ns).
Proof.
  revert ns. induction ops as [|op ops IH]; intros ns Hout Hlt; cbn; [exact Hout|].
  apply IH.
  - destruct op as [|u]; cbn.
    + intros Hin. apply elem_of_union in Hin as [Hin|Hin]; [|contradiction].
      apply elem_of_singleton in Hin. apply (inj pretty) in Hin. lia.
    + unfold ns_Valid. destruct (decide _); cbn; [set_solver|exact Hout].
  - pose proof (ns_counter_step op ns). lia.
Qed.

(** A valid token stays valid while nobody consumes it. *)
Lemma valid_stays_valid (ops : list NonceOp) (ns : NonceService) (t : string) :
  t ∈ ns_valid ns -> OpConsume t ∉ ops -> t ∈ ns_valid (run_ops ops ns).
Proof.
  revert ns. induction ops as [|op ops IH]; intros ns Hin Hnot; cbn; [exact Hin|].
  apply IH; [|set_solver].
  destruct op as [|u]; cbn; [set_solver|].
  assert (u <> t) by (intros ->; set_solver).
  unfold ns_Valid. destruct (decide _); cbn; set_solver.
Qed.

Lemma signed_by_signedNonce (wfe : WebFrontEndImpl) (req : Request) (body : string)
    (key : Key) (payload : string) (hdr : JoseHeader) :
  req_Body req = BodyBytes body -> signed_by wfe body key payload hdr ->
  signedNonce wfe req = Some (jh_Nonce hdr).
Proof.
  intros Hb (jws & sig & Hp & Hs & Hk & Hv). unfold signedNonce.
  rewrite Hb, Hp, Hs, Hk, Hv. reflexivity.
Qed.

(** The register part of C2: an issued token is consumed successfully the
    first time, which invalidates it; every later consume fails and leaves
    the register unchanged. *)
Lemma nonce_register_single_use (ops0 ops1 ops2 : list NonceOp) (t : string) (ns1 : NonceService) :
  ns_Nonce (run_ops ops0 NewNonceService) = (t, ns1) ->
  OpConsume t ∉ ops1 ->
  let ns2 := run_ops ops1 ns1 in
  (ns_Valid t ns2).1 = true /\ (t ∉ ns_valid (ns_Valid t ns2).2) /\
  ns_Valid t (run_ops ops2 (ns_Valid t ns2).2) = (false, run_ops ops2 (ns_Valid t ns2).2).
Proof.
  intros Hissue Hnot ns2.
  set (ns := run_ops ops0 NewNonceService) in *.
  unfold ns_Nonce in Hissue. injection Hissue as Ht Hns1.
  assert (Hin1 : t ∈ ns_valid ns1) by (subst; cbn; set_solver).
  assert (Hin2 : t ∈ ns_valid ns2) by (apply valid_stays_valid; auto).
  assert (Hc : (ns_counter ns < ns_counter ns2)%N).
  { assert (forall ops n0, (ns_counter n0 <= ns_counter (run_ops ops n0))%N) as Hmono.
    { induction ops as [|op ops IH]; intros n0; cbn; [lia|].
      pose proof (ns_counter_step op n0). specialize (IH (nonce_step op n0)). lia. }
    specialize (Hmono ops1 ns1). subst ns1. cbn in Hmono. unfold ns2. lia. }
  rewrite ns_Valid_true by exact Hin2. cbn.
  assert (Hout : t ∉ ns_valid ns2 ∖ {[ t ]}) by set_solver.
  split; [reflexivity|]. split; [exact Hout|].
  apply ns_Valid_false. rewrite <- Ht.
  apply consumed_stays_invalid; cbn; [rewrite Ht; exact Hout|exact Hc].
Qed.

(** The verifier part of C2: once [verifyPOST] has accepted a request, no
    later request carrying the same signed nonce is accepted, whatever the
    register went through in between. *)
Lemma verifyPOST_nonce_not_reused (wfe wfe' : WebFrontEndImpl) (req1 req2 : Request)
    (rc1 rc2 : bool) (ops0 ops : list NonceOp) (st st2 : St)
    (v1 : string * Key * Registration) (st1 : St) :
  st_nonces st = run_ops ops0 NewNonceService ->
  verifyPOST wfe req1 rc1 st = (Ok v1, st1) ->
  signedNonce wfe' req2 = signedNonce wfe req1 ->
  st_nonces st2 = run_ops ops (st_nonces st1) ->
  exists e, fst (verifyPOST wfe' req2 rc2 st2) = Err e.
Proof.
  intros Hreach Hv1 Hsame Hst2.
  destruct v1 as [[p1 k1] r1].
  destruct (verifyPOST_Ok_inv _ _ _ _ _ _ _ _ Hv1) as (b1 & h1 & Hb1 & Hs1 & _ & Hin1 & Hst1 & _).
  pose proof (ns_wf_run ops0 _ ns_wf_new) as Hwf. rewrite <- Hreach in Hwf.
  destruct (Hwf _ Hin1) as (m & Hm & Hpm).
  assert (Hgone : jh_Nonce h1 ∉ ns_valid (st_nonces st2)).
  { rewrite Hst2, Hst1. cbn. rewrite ns_Valid_true by exact Hin1. cbn. rewrite Hpm.
    apply consumed_stays_invalid; cbn; [rewrite <- Hpm; set_solver|exact Hm]. }
  destruct (verifyPOST wfe' req2 rc2 st2) as [[[[p2 k2] r2]|e] st2'] eqn:Hv2; [|eauto].
  exfalso.
  destruct (verifyPOST_Ok_inv _ _ _ _ _ _ _ _ Hv2) as (b2 & h2 & Hb2 & Hs2 & _ & Hin2 & _).
  rewrite (signed_by_signedNonce _ _ _ _ _ _ Hb2 Hs2),
          (signed_by_signedNonce _ _ _ _ _ _ Hb1 Hs1) in Hsame.
  injection Hsame as Heq. rewrite Heq in Hin2. contradiction.
Qed.


(** C2.  For every nonce the register issues: the first consume of it
    succeeds and invalidates it, and every later consume fails without
    side effect, whatever other issues and consumes happen in between;
    and once [verifyPOST] has accepted a request, no later request
    carrying the same signed nonce is accepted. *)
Theorem nonce_single_use :
  (forall (ops0 ops1 ops2 : list NonceOp) (t : string) (ns1 : NonceService),
     ns_Nonce (run_ops ops0 NewNonceService) = (t, ns1) ->
     OpConsume t ∉ ops1 ->
     let ns2 := run_ops ops1 ns1 in
     (ns_Valid t ns2).1 = true /\ (t ∉ ns_valid (ns_Valid t ns2).2) /\
     ns_Valid t (run_ops ops2 (ns_Valid t ns2).2) = (false, run_ops ops2 (ns_Valid t ns2).2)) /\
  (forall (wfe wfe' : WebFrontEndImpl) (req1 req2 : Request) (rc1 rc2 : bool)
          (ops0 ops : list NonceOp) (st st2 : St) (v1 : string * Key * Registration) (st1 : St),
     st_nonces st = run_ops ops0 NewNonceService ->
     verifyPOST wfe req1 rc1 st = (Ok v1, st1) ->
     signedNonce wfe' req2 = signedNonce wfe req1 ->
     st_nonces st2 = run_ops ops (st_nonces st1) ->
     exists e, fst (verifyPOST wfe' req2 rc2 st2) = Err e).
Proof.
  split; [exact nonce_register_single_use|exact verifyPOST_nonce_not_reused].
Qed.

(** C2 (witness): nonce ["0"] issued by a fresh register survives another
    issue and is consumed once; a request signed with it, accepted once,
    is refused the second time. *)
Lemma nonce_single_use_witness :
  (ns_Valid "0" (run_ops [OpIssue] (ns_Nonce NewNonceService).2)).1 = true /\
  exists e, fst (verifyPOST (demo_wfe (demo_sa true 5 OCSPStatusGood))
                  (demo_post "/acme/new-authz" "k1") true
                  (verifyPOST (demo_wfe (demo_sa true 5 OCSPStatusGood))
                     (demo_post "/acme/new-authz" "k1") true demo_st).2) = Err e.
Proof.
  assert (H1 : ns_Nonce (run_ops [] NewNonceService) = ("0", (ns_Nonce NewNonceService).2))
    by (vm_compute; reflexivity).
  assert (H2 : OpConsume "0" ∉ [OpIssue]) by (rewrite list_elem_of_singleton; discriminate).
  assert (H3 : st_nonces demo_st = run_ops [OpIssue] NewNonceService) by reflexivity.
  assert (H4 : verifyPOST (demo_wfe (demo_sa true 5 OCSPStatusGood))
                 (demo_post "/acme/new-authz" "k1") true demo_st
               = (Ok ("payload", "k1", demo_reg),
                  (verifyPOST (demo_wfe (demo_sa true 5 OCSPStatusGood))
                     (demo_post "/acme/new-authz" "k1") true demo_st).2))
    by (vm_compute; reflexivity).
  split.
  - exact (proj1 (proj1 nonce_single_use [] [OpIssue] [] "0" _ H1 H2)).
  - exact (proj2 nonce_single_use _ _ _ _ true true [OpIssue] [] demo_st _ _ _ H3 H4
             eq_refl eq_refl).
Defined.

(** ** Effects of the response primitives *)

Lemma sendStandardHeaders_frame (st : St) :
  let st0 := (sendStandardHeaders st).2 in
  st_calls st0 = st_calls st /\ st_code st0 = st_code st /\ st_body st0 = st_body st.
Proof. destruct st; repeat split. Qed.

Lemma sendError_effect (details : string) (code : Z) (s : St) :
  let s' := (sendError details code s).2 in
  st_calls s' = st_calls s /\ (st_code s = None -> st_code s' = Some code).
Proof.
  unfold sendError, audit, header_Set, WriteHeader, Write, modify. unfold_M.
  destruct s as [ns h c b cs a p]. cbn.
  destruct (String.eqb (problemTypeForCode code) ServerInternalProblem); cbn;
    (split; [destruct c; reflexivity|intros ->; reflexivity]).
Qed.

Lemma sendAllow_sendError_effect (ms : list string) (details : string) (code : Z) (s : St) :
  let s' := (let '(_, s1) := sendAllow ms s in sendError details code s1).2 in
  st_calls s' = st_calls s /\ (st_code s = None -> st_code s' = Some code).
Proof.
  unfold sendAllow, header_Set, modify. cbn beta iota zeta.
  destruct (sendError_effect details code
              (set_header (filter (fun kv => kv.1 <> "Allow") (st_header s) ++
                           [("Allow", String.concat ", " ms)]) s)) as [H1 H2].
  split; [exact H1|exact H2].
Qed.

Lemma sendVerifyError_effect (e : error) (s : St) :
  let s' := (sendVerifyError e s).2 in
  st_calls s' = st_calls s /\
  (st_code s = None -> st_code s' = Some StatusForbidden \/ st_code s' = Some StatusBadRequest).
Proof.
  unfold sendVerifyError. destruct (is_ErrNoRows e).
  - destruct (sendError_effect "No registration exists matching provided key" StatusForbidden s).
    split; auto.
  - destruct (sendError_effect "Unable to read/verify body" StatusBadRequest s). split; auto.
Qed.

Ltac simpl_h :=
  cbn -[sendError sendAllow sendVerifyError WriteHeader Write verifyPOST
        sendStandardHeaders replyChallenge].

Ltac send_error_tac :=
  match goal with
  | |- context [(sendError ?d ?c ?s).2] =>
      let H1 := fresh "Hcalls" in let H2 := fresh "Hcode" in
      destruct (sendError_effect d c s) as [H1 H2]
  end.

(** ** Claims C3 and C10: revocation *)

(** The certificate a revocation payload designates, when it is the
    stored one byte for byte, together with the stored copy parsed and its
    status: what [RevokeCertificate] has in hand at its authorization
    check. *)
Definition revoke_target (wfe : WebFrontEndImpl) (body : string)
    : option (Certificate * ParsedCertificate * CertificateStatus) :=
  match UnmarshalRevokeRequest (lib wfe) body with
  | Err _ => None
  | Ok der =>
    match ParseCertificate (lib wfe) der with
    | Err _ => None
    | Ok provided =>
      let serial := SerialToString (lib wfe) (pc_SerialNumber provided) in
      match GetCertificate (SA wfe) serial with
      | Err _ => None
      | Ok cert =>
        if negb (String.eqb (cert_DER cert) der) then None else
        match ParseCertificate (lib wfe) (cert_DER cert) with
        | Err _ => None
        | Ok parsed =>
          match GetCertificateStatus (SA wfe) serial with
          | Err _ => None
          | Ok cs => Some (cert, parsed, cs)
          end
        end
      end
    end
  end.

(** [RevokeCertificate] after verification, for a payload designating a
    stored certificate with a good status. *)
Lemma RevokeCertificate_at_check (wfe : WebFrontEndImpl) (req : Request) (st : St)
    (body : string) (key : Key) (reg : Registration) (st1 : St)
    (cert : Certificate) (pc : ParsedCertificate) (cs : CertificateStatus) :
  req_Method req = "POST" ->
  verifyPOST wfe req false (sendStandardHeaders st).2 = (Ok (body, key, reg), st1) ->
  revoke_target wfe body = Some (cert, pc, cs) ->
  cs_Status cs = OCSPStatusGood ->
  RevokeCertificate wfe req st =
    (if negb (KeyDigestEquals (lib wfe) key (pc_PublicKey pc)
              || Z.eqb (reg_ID reg) (cert_RegistrationID cert))
     then sendError "Revocation request must be signed by private key of cert to be revoked"
            StatusForbidden
     else
       record_call (CallRevokeCertificate pc);;
       match RA_RevokeCertificate (RA wfe) pc with
       | Some e => sendError "Failed to revoke certificate" (statusCodeFromError e)
       | None => WriteHeader StatusOK
       end) st1.
Proof.
  intros Hm Hv Ht Hgood.
  unfold RevokeCertificate. unfold_M.
  destruct (sendStandardHeaders st) as [u st0] eqn:Hs. cbn in Hv.
  rewrite Hm. simpl_h. rewrite Hv.
  unfold revoke_target in Ht.
  destruct (UnmarshalRevokeRequest (lib wfe) body) as [der|]; [|discriminate].
  destruct (ParseCertificate (lib wfe) der) as [provided|]; [|discriminate].
  destruct (GetCertificate (SA wfe) _) as [c|]; [|discriminate].
  destruct (negb (String.eqb (cert_DER c) der)); [discriminate|].
  destruct (ParseCertificate (lib wfe) (cert_DER c)) as [parsed|]; [|discriminate].
  destruct (GetCertificateStatus (SA wfe) _) as [cs'|]; [|discriminate].
  injection Ht as -> -> ->. rewrite Hgood. reflexivity.
Qed.

Lemma WriteHeader_calls (c : Z) (s : St) : st_calls (WriteHeader c s).2 = st_calls s.
Proof. unfold WriteHeader, modify. cbn. destruct (st_code s); reflexivity. Qed.

Lemma verifyPOST_calls_code (wfe : WebFrontEndImpl) (req : Request) (rc : bool) (st : St)
    (r : result (string * Key * Registration)) (st' : St) :
  verifyPOST wfe req rc st = (r, st') -> st_calls st' = st_calls st /\ st_code st' = st_code st.
Proof.
  intros H. destruct (verifyPOST_frame_calls _ _ _ _ _ _ H) as [ns ->]. split; reflexivity.
Qed.

(** Only an authorized signer's request for a stored, unrevoked
    certificate reaches the RA. *)
Lemma RevokeCertificate_calls (wfe : WebFrontEndImpl) (req : Request) (st : St) :
  let st' := (RevokeCertificate wfe req st).2 in
  st_calls st' = st_calls st \/
  exists body key reg st1 cert pc cs,
    req_Method req = "POST" /\
    verifyPOST wfe req false (sendStandardHeaders st).2 = (Ok (body, key, reg), st1) /\
    revoke_target wfe body = Some (cert, pc, cs) /\ cs_Status cs = OCSPStatusGood /\
    (KeyDigestEquals (lib wfe) key (pc_PublicKey pc) = true
     \/ reg_ID reg = cert_RegistrationID cert) /\
    st_calls st' = st_calls st ++ [CallRevokeCertificate pc].
Proof.
  cbn zeta.
  destruct (sendStandardHeaders_frame st) as (Hc0 & _).
  destruct (String.eqb (req_Method req) "POST") eqn:Hm.
  2:{ left. unfold RevokeCertificate. unfold_M.
      destruct (sendStandardHeaders st) as [u st0] eqn:Hs. cbn in Hc0. simpl_h.
      rewrite Hm. simpl_h. rewrite <- Hc0. apply sendAllow_sendError_effect. }
  apply String.eqb_eq in Hm.
  destruct (verifyPOST wfe req false (sendStandardHeaders st).2)
    as [[[[body key] reg]|e] st1] eqn:Hv.
  2:{ left. unfold RevokeCertificate. unfold_M.
      destruct (sendStandardHeaders st) as [u st0] eqn:Hs. cbn in Hc0, Hv. try (cbn in Hc1). simpl_h.
      rewrite Hm. simpl_h. rewrite Hv. destruct (verifyPOST_calls_code _ _ _ _ _ _ Hv) as [Hc1 _].
      send_error_tac. congruence. }
  destruct (verifyPOST_calls_code _ _ _ _ _ _ Hv) as [Hc1 _].
  destruct (revoke_target wfe body) as [[[cert pc] cs]|] eqn:Ht.
  - destruct (cs_Status cs) eqn:Hg.
    + rewrite (RevokeCertificate_at_check wfe req st body key reg st1 cert pc cs Hm Hv Ht Hg).
      destruct (KeyDigestEquals (lib wfe) key (pc_PublicKey pc)) eqn:Hk;
        [|destruct (Z.eqb (reg_ID reg) (cert_RegistrationID cert)) eqn:Hid]; simpl_h.
      * right. exists body, key, reg, st1, cert, pc, cs. repeat split; auto.
        unfold_M. unfold record_call, modify. simpl_h.
        destruct (RA_RevokeCertificate (RA wfe) pc);
          [send_error_tac; rewrite Hcalls; cbn; congruence
          |rewrite WriteHeader_calls; cbn; congruence].
      * right. exists body, key, reg, st1, cert, pc, cs. repeat split; auto.
        { right. apply Z.eqb_eq. exact Hid. }
        unfold_M. unfold record_call, modify. simpl_h.
        destruct (RA_RevokeCertificate (RA wfe) pc);
          [send_error_tac; rewrite Hcalls; cbn; congruence
          |rewrite WriteHeader_calls; cbn; congruence].
      * left. send_error_tac. congruence.
    + left. unfold RevokeCertificate. unfold_M.
      destruct (sendStandardHeaders st) as [u st0] eqn:Hs. cbn in Hc0, Hv. try (cbn in Hc1). simpl_h.
      rewrite Hm. simpl_h. rewrite Hv.
      unfold revoke_target in Ht.
      destruct (UnmarshalRevokeRequest (lib wfe) body) as [der|]; [|discriminate].
      destruct (ParseCertificate (lib wfe) der) as [provided|]; [|discriminate].
      destruct (GetCertificate (SA wfe) _) as [c|]; [|discriminate].
      destruct (negb (String.eqb (cert_DER c) der)); [discriminate|].
      destruct (ParseCertificate (lib wfe) (cert_DER c)) as [parsed|]; [|discriminate].
      destruct (GetCertificateStatus (SA wfe) _) as [cs'|]; [|discriminate].
      injection Ht as -> -> ->. rewrite Hg. send_error_tac. congruence.
  - left. unfold RevokeCertificate. unfold_M.
    destruct (sendStandardHeaders st) as [u st0] eqn:Hs. cbn in Hc0, Hv. try (cbn in Hc1). simpl_h.
    rewrite Hm. simpl_h. rewrite Hv.
    unfold revoke_target in Ht.
    destruct (UnmarshalRevokeRequest (lib wfe) body) as [der|];
      [|send_error_tac; congruence].
    destruct (ParseCertificate (lib wfe) der) as [provided|];
      [|send_error_tac; congruence].
    destruct (GetCertificate (SA wfe) _) as [c|]; [|send_error_tac; congruence].
    destruct (negb (String.eqb (cert_DER c) der)); [send_error_tac; congruence|].
    destruct (ParseCertificate (lib wfe) (cert_DER c)) as [parsed|];
      [|send_error_tac; congruence].
    destruct (GetCertificateStatus (SA wfe) _) as [cs'|]; [discriminate|].
    send_error_tac. congruence.
Qed.

(** What [RevokeCertificate] does at its authorization check. *)
Lemma RevokeCertificate_decision (wfe : WebFrontEndImpl) (req : Request) (st : St)
    (body : string) (key : Key) (reg : Registration) (st1 : St)
    (cert : Certificate) (pc : ParsedCertificate) (cs : CertificateStatus) :
  req_Method req = "POST" -> st_code st = None ->
  verifyPOST wfe req false (sendStandardHeaders st).2 = (Ok (body, key, reg), st1) ->
  revoke_target wfe body = Some (cert, pc, cs) -> cs_Status cs = OCSPStatusGood ->
  let st' := (RevokeCertificate wfe req st).2 in
  if KeyDigestEquals (lib wfe) key (pc_PublicKey pc) || Z.eqb (reg_ID reg) (cert_RegistrationID cert)
  then st_calls st' = st_calls st ++ [CallRevokeCertificate pc]
  else st_code st' = Some StatusForbidden /\ st_calls st' = st_calls st.
Proof.
  intros Hm Hnone Hv Ht Hg. cbn zeta.
  destruct (sendStandardHeaders_frame st) as (Hc0 & Hk0 & _).
  destruct (verifyPOST_calls_code _ _ _ _ _ _ Hv) as [Hc1 Hk1].
  rewrite (RevokeCertificate_at_check wfe req st body key reg st1 cert pc cs Hm Hv Ht Hg).
  destruct (KeyDigestEquals (lib wfe) key (pc_PublicKey pc)
            || Z.eqb (reg_ID reg) (cert_RegistrationID cert)); simpl_h.
  - unfold_M. unfold record_call, modify. simpl_h.
    destruct (RA_RevokeCertificate (RA wfe) pc);
      [send_error_tac; rewrite Hcalls; cbn; congruence
      |rewrite WriteHeader_calls; cbn; congruence].
  - send_error_tac. split; [apply Hcode; congruence|congruence].
Qed.

(** A revocation of an already revoked stored certificate is a Conflict,
    whoever signs it. *)
Lemma RevokeCertificate_revoked (wfe : WebFrontEndImpl) (req : Request) (st : St)
    (body : string) (key : Key) (reg : Registration) (st1 : St)
    (cert : Certificate) (pc : ParsedCertificate) (cs : CertificateStatus) :
  req_Method req = "POST" -> st_code st = None ->
  verifyPOST wfe req false (sendStandardHeaders st).2 = (Ok (body, key, reg), st1) ->
  revoke_target wfe body = Some (cert, pc, cs) -> cs_Status cs = OCSPStatusRevoked ->
  st_code (RevokeCertificate wfe req st).2 = Some StatusConflict /\
  st_calls (RevokeCertificate wfe req st).2 = st_calls st.
Proof.
  intros Hm Hnone Hv Ht Hr.
  destruct (sendStandardHeaders_frame st) as (Hc0 & Hk0 & _).
  destruct (verifyPOST_calls_code _ _ _ _ _ _ Hv) as [Hc1 Hk1].
  unfold RevokeCertificate. unfold_M.
  destruct (sendStandardHeaders st) as [u st0] eqn:Hs. cbn in Hv, Hc0, Hk0, Hc1, Hk1.
  rewrite Hm. simpl_h. rewrite Hv.
  unfold revoke_target in Ht.
  destruct (UnmarshalRevokeRequest (lib wfe) body) as [der|]; [|discriminate].
  destruct (ParseCertificate (lib wfe) der) as [provided|]; [|discriminate].
  destruct (GetCertificate (SA wfe) _) as [c|]; [|discriminate].
  destruct (negb (String.eqb (cert_DER c) der)); [discriminate|].
  destruct (ParseCertificate (lib wfe) (cert_DER c)) as [parsed|]; [|discriminate].
  destruct (GetCertificateStatus (SA wfe) _) as [cs'|]; [|discriminate].
  injection Ht as -> -> ->. rewrite Hr. send_error_tac.
  split; [apply Hcode; congruence|congruence].
Qed.

(** A revocation of a stored certificate whose status is unavailable is Not
    Found, whoever signs it. *)
Lemma RevokeCertificate_status_missing (wfe : WebFrontEndImpl) (req : Request) (st : St)
    (body : string) (key : Key) (reg : Registration) (st1 : St) (der : string)
    (provided : ParsedCertificate) (cert : Certificate) (parsed : ParsedCertificate) (e : error) :
  req_Method req = "POST" -> st_code st = None ->
  verifyPOST wfe req false (sendStandardHeaders st).2 = (Ok (body, key, reg), st1) ->
  UnmarshalRevokeRequest (lib wfe) body = Ok der ->
  ParseCertificate (lib wfe) der = Ok provided ->
  GetCertificate (SA wfe) (SerialToString (lib wfe) (pc_SerialNumber provided)) = Ok cert ->
  cert_DER cert = der ->
  ParseCertificate (lib wfe) (cert_DER cert) = Ok parsed ->
  GetCertificateStatus (SA wfe) (SerialToString (lib wfe) (pc_SerialNumber provided)) = Err e ->
  st_code (RevokeCertificate wfe req st).2 = Some StatusNotFound /\
  st_calls (RevokeCertificate wfe req st).2 = st_calls st.
Proof.
  intros Hm Hnone Hv Hu Hp Hg Hd Hp2 Hs2.
  destruct (sendStandardHeaders_frame st) as (Hc0 & Hk0 & _).
  destruct (verifyPOST_calls_code _ _ _ _ _ _ Hv) as [Hc1 Hk1].
  unfold RevokeCertificate. unfold_M.
  destruct (sendStandardHeaders st) as [u st0] eqn:Hs. cbn in Hv, Hc0, Hk0, Hc1, Hk1.
  rewrite Hm. simpl_h. rewrite Hv, Hu, Hp, Hg, Hd, String.eqb_refl. simpl_h.
  rewrite <- Hd, Hp2. simpl_h. rewrite Hs2. send_error_tac.
  split; [apply Hcode; congruence|congruence].
Qed.

(** C3 (amended).  [RevokeCertificate] delegates a revocation to the RA
    only for a verified request designating a stored certificate (same DER,
    parseable, status available and not revoked) whose signer's key matches
    the certificate's public key or whose resolved account id equals the
    certificate's owning account id.  For such a stored, unrevoked
    certificate every other verified requester receives Forbidden and no
    RA call is made; for an already revoked stored certificate every
    verified requester receives Conflict, and when the stored
    certificate's status is unavailable every verified requester receives
    Not Found, with no RA call in either case. *)
Theorem RevokeCertificate_authorization :
  (forall (wfe : WebFrontEndImpl) (req : Request) (st : St),
     let st' := (RevokeCertificate wfe req st).2 in
     st_calls st' = st_calls st \/
     exists body key reg st1 cert pc cs,
       req_Method req = "POST" /\
       verifyPOST wfe req false (sendStandardHeaders st).2 = (Ok (body, key, reg), st1) /\
       revoke_target wfe body = Some (cert, pc, cs) /\ cs_Status cs = OCSPStatusGood /\
       (KeyDigestEquals (lib wfe) key (pc_PublicKey pc) = true
        \/ reg_ID reg = cert_RegistrationID cert) /\
       st_calls st' = st_calls st ++ [CallRevokeCertificate pc]) /\
  (forall (wfe : WebFrontEndImpl) (req : Request) (st : St) (body : string) (key : Key)
          (reg : Registration) (st1 : St) (cert : Certificate) (pc : ParsedCertificate)
          (cs : CertificateStatus),
     req_Method req = "POST" -> st_code st = None ->
     verifyPOST wfe req false (sendStandardHeaders st).2 = (Ok (body, key, reg), st1) ->
     revoke_target wfe body = Some (cert, pc, cs) -> cs_Status cs = OCSPStatusGood ->
     let st' := (RevokeCertificate wfe req st).2 in
     if KeyDigestEquals (lib wfe) key (pc_PublicKey pc)
        || Z.eqb (reg_ID reg) (cert_RegistrationID cert)
     then st_calls st' = st_calls st ++ [CallRevokeCertificate pc]
     else st_code st' = Some StatusForbidden /\ st_calls st' = st_calls st) /\
  (forall (wfe : WebFrontEndImpl) (req : Request) (st : St) (body : string) (key : Key)
          (reg : Registration) (st1 : St) (cert : Certificate) (pc : ParsedCertificate)
          (cs : CertificateStatus),
     req_Method req = "POST" -> st_code st = None ->
     verifyPOST wfe req false (sendStandardHeaders st).2 = (Ok (body, key, reg), st1) ->
     revoke_target wfe body = Some (cert, pc, cs) -> cs_Status cs = OCSPStatusRevoked ->
     st_code (RevokeCertificate wfe req st).2 = Some StatusConflict /\
     st_calls (RevokeCertificate wfe req st).2 = st_calls st) /\
  (forall (wfe : WebFrontEndImpl) (req : Request) (st : St) (body : string) (key : Key)
          (reg : Registration) (st1 : St) (der : string) (provided : ParsedCertificate)
          (cert : Certificate) (parsed : ParsedCertificate) (e : error),
     req_Method req = "POST" -> st_code st = None ->
     verifyPOST wfe req false (sendStandardHeaders st).2 = (Ok (body, key, reg), st1) ->
     UnmarshalRevokeRequest (lib wfe) body = Ok der ->
     ParseCertificate (lib wfe) der = Ok provided ->
     GetCertificate (SA wfe) (SerialToString (lib wfe) (pc_SerialNumber provided)) = Ok cert ->
     cert_DER cert = der ->
     ParseCertificate (lib wfe) (cert_DER cert) = Ok parsed ->
     GetCertificateStatus (SA wfe) (SerialToString (lib wfe) (pc_SerialNumber provided)) = Err e ->
     st_code (RevokeCertificate wfe req st).2 = Some StatusNotFound /\
     st_calls (RevokeCertificate wfe req st).2 = st_calls st).
Proof.
  split; [exact RevokeCertificate_calls|].
  split; [exact RevokeCertificate_decision|].
  split; [exact RevokeCertificate_revoked|exact RevokeCertificate_status_missing].
Qed.

(** C3 (counterexample).  A verified requester that neither holds the
    certificate's key (["k1"] against ["certkey"]) nor owns it (account 7
    against owner 5), revoking an already revoked stored certificate, gets
    Conflict (409), not Forbidden. *)
Lemma RevokeCertificate_unauthorized_gets_conflict :
  let wfe := demo_wfe (demo_sa true 5 OCSPStatusRevoked) in
  let req := demo_post "/acme/revoke-cert" "k1" in
  fst (verifyPOST wfe req false (sendStandardHeaders demo_st).2) = Ok ("payload", "k1", demo_reg) /\
  revoke_target wfe "payload" =
    Some (demo_cert 5, {| pc_SerialNumber := 1; pc_PublicKey := "certkey" |},
          {| cs_Status := OCSPStatusRevoked |}) /\
  KeyDigestEquals (lib wfe) "k1" "certkey" = false /\ reg_ID demo_reg <> 5 /\
  st_code (RevokeCertificate wfe req demo_st).2 = Some StatusConflict.
Proof.
  cbn zeta. repeat split; try (vm_compute; reflexivity). discriminate.
Qed.

(** C3 (witness): the signer ["k1"] resolves to account 7, which owns the
    stored certificate, so the revocation reaches the RA; the same signer
    gets Conflict for a revoked certificate it does not own (owner 5), and
    Not Found when the certificate's status is unavailable. *)
Lemma RevokeCertificate_authorization_witness :
  let req := demo_post "/acme/revoke-cert" "k1" in
  st_calls (RevokeCertificate (demo_wfe (demo_sa true 7 OCSPStatusGood)) req demo_st).2
    = [CallRevokeCertificate {| pc_SerialNumber := 1; pc_PublicKey := "certkey" |}] /\
  st_code (RevokeCertificate (demo_wfe (demo_sa true 5 OCSPStatusRevoked)) req demo_st).2
    = Some StatusConflict /\
  st_code (RevokeCertificate (demo_wfe demo_sa_nostatus) req demo_st).2
    = Some StatusNotFound.
Proof.
  cbn zeta. split; [|split].
  2:{ assert (Hv : verifyPOST (demo_wfe (demo_sa true 5 OCSPStatusRevoked))
                     (demo_post "/acme/revoke-cert" "k1") false (sendStandardHeaders demo_st).2
                   = (Ok ("payload", "k1", demo_reg),
                      (verifyPOST (demo_wfe (demo_sa true 5 OCSPStatusRevoked))
                         (demo_post "/acme/revoke-cert" "k1") false
                         (sendStandardHeaders demo_st).2).2))
        by (vm_compute; reflexivity).
      exact (proj1 (proj1 (proj2 (proj2 RevokeCertificate_authorization))
               (demo_wfe (demo_sa true 5 OCSPStatusRevoked)) (demo_post "/acme/revoke-cert" "k1")
               demo_st "payload" "k1" demo_reg _ (demo_cert 5)
               {| pc_SerialNumber := 1; pc_PublicKey := "certkey" |}
               {| cs_Status := OCSPStatusRevoked |} eq_refl eq_refl Hv (eq_refl _) eq_refl)). }
  2:{ assert (Hv : verifyPOST (demo_wfe demo_sa_nostatus)
                     (demo_post "/acme/revoke-cert" "k1") false (sendStandardHeaders demo_st).2
                   = (Ok ("payload", "k1", demo_reg),
                      (verifyPOST (demo_wfe demo_sa_nostatus)
                         (demo_post "/acme/revoke-cert" "k1") false
                         (sendStandardHeaders demo_st).2).2))
        by (vm_compute; reflexivity).
      exact (proj1 (proj2 (proj2 (proj2 RevokeCertificate_authorization))
               (demo_wfe demo_sa_nostatus) (demo_post "/acme/revoke-cert" "k1")
               demo_st "payload" "k1" demo_reg _ "der1"
               {| pc_SerialNumber := 1; pc_PublicKey := "certkey" |} (demo_cert 7)
               {| pc_SerialNumber := 1; pc_PublicKey := "certkey" |} ErrNoRows
               eq_refl eq_refl Hv eq_refl eq_refl eq_refl eq_refl eq_refl eq_refl)). }
  assert (Hv : verifyPOST (demo_wfe (demo_sa true 7 OCSPStatusGood))
                 (demo_post "/acme/revoke-cert" "k1") false (sendStandardHeaders demo_st).2
               = (Ok ("payload", "k1", demo_reg),
                  (verifyPOST (demo_wfe (demo_sa true 7 OCSPStatusGood))
                     (demo_post "/acme/revoke-cert" "k1") false (sendStandardHeaders demo_st).2).2))
    by (vm_compute; reflexivity).
  exact (proj1 (proj2 RevokeCertificate_authorization) (demo_wfe (demo_sa true 7 OCSPStatusGood))
           (demo_post "/acme/revoke-cert" "k1") demo_st "payload" "k1" demo_reg _ (demo_cert 7)
           {| pc_SerialNumber := 1; pc_PublicKey := "certkey" |} {| cs_Status := OCSPStatusGood |}
           eq_refl eq_refl Hv (eq_refl _) eq_refl).
Defined.

(** C10.  When the signing key maps to no stored account, [verifyPOST]
    (called with [regCheck] false) returns the zero account, whose id is
    0; for a stored, unrevoked certificate the revocation is then
    delegated iff the key matches the certificate's public key or the
    certificate's owning account id is 0, and is Forbidden otherwise. *)
Theorem RevokeCertificate_accountless_signer (wfe : WebFrontEndImpl) (req : Request) (st : St)
    (body : string) (key : Key) (reg : Registration) (st1 : St) (e : error) :
  req_Method req = "POST" -> st_code st = None ->
  GetRegistrationByKey (SA wfe) key = Err e ->
  verifyPOST wfe req false (sendStandardHeaders st).2 = (Ok (body, key, reg), st1) ->
  reg = zero_Registration /\ reg_ID reg = 0 /\
  forall (cert : Certificate) (pc : ParsedCertificate) (cs : CertificateStatus),
    revoke_target wfe body = Some (cert, pc, cs) -> cs_Status cs = OCSPStatusGood ->
    let st' := (RevokeCertificate wfe req st).2 in
    (st_calls st' = st_calls st ++ [CallRevokeCertificate pc] <->
     KeyDigestEquals (lib wfe) key (pc_PublicKey pc) = true \/ cert_RegistrationID cert = 0) /\
    (KeyDigestEquals (lib wfe) key (pc_PublicKey pc) = false -> cert_RegistrationID cert <> 0 ->
     st_code st' = Some StatusForbidden).
Proof.
  intros Hm Hnone Hnoacct Hv.
  destruct (verifyPOST_Ok_inv _ _ _ _ _ _ _ _ Hv) as (b & h & _ & _ & _ & _ & _ & Hreg).
  assert (Hz : reg = zero_Registration).
  { destruct Hreg as [Hreg|(_ & Hz & _)]; [congruence|exact Hz]. }
  split; [exact Hz|]. split; [subst; reflexivity|].
  intros cert pc cs Ht Hg. cbn zeta.
  pose proof (RevokeCertificate_decision wfe req st body key reg st1 cert pc cs Hm Hnone Hv Ht Hg)
    as Hd.
  cbn zeta in Hd. subst reg. cbn [reg_ID zero_Registration] in Hd.
  destruct (KeyDigestEquals (lib wfe) key (pc_PublicKey pc)) eqn:Hk; cbn [orb] in Hd.
  - split; [split; [intros _; left; reflexivity|intros _; exact Hd]|discriminate].
  - destruct (Z.eqb_spec 0 (cert_RegistrationID cert)) as [Ho|Ho].
    + split; [split; [intros _; right; lia|intros _; exact Hd]|intros _ Hne; lia].
    + destruct Hd as [Hcode Hcalls]. split.
      * split; [|intros [Hf|Hf]; [discriminate|lia]].
        intros Heq. rewrite Hcalls in Heq.
        apply (f_equal (@length RACall)) in Heq. rewrite length_app in Heq. cbn in Heq. lia.
      * intros _ _. exact Hcode.
Qed.

(** C10 (witness): no account is known for ["k1"]; the stored certificate
    is owned by account 0, so the revocation reaches the RA. *)
Lemma RevokeCertificate_accountless_signer_witness :
  let wfe := demo_wfe (demo_sa false 0 OCSPStatusGood) in
  let req := demo_post "/acme/revoke-cert" "k1" in
  zero_Registration = zero_Registration /\ reg_ID zero_Registration = 0 /\
  (st_calls (RevokeCertificate wfe req demo_st).2
     = st_calls demo_st ++ [CallRevokeCertificate {| pc_SerialNumber := 1; pc_PublicKey := "certkey" |}]
   <-> KeyDigestEquals (lib wfe) "k1" "certkey" = true \/ cert_RegistrationID (demo_cert 0) = 0).
Proof.
  cbn zeta.
  assert (Hv : verifyPOST (demo_wfe (demo_sa false 0 OCSPStatusGood))
                 (demo_post "/acme/revoke-cert" "k1") false (sendStandardHeaders demo_st).2
               = (Ok ("payload", "k1", zero_Registration),
                  (verifyPOST (demo_wfe (demo_sa false 0 OCSPStatusGood))
                     (demo_post "/acme/revoke-cert" "k1") false (sendStandardHeaders demo_st).2).2))
    by (vm_compute; reflexivity).
  destruct (RevokeCertificate_accountless_signer (demo_wfe (demo_sa false 0 OCSPStatusGood))
              (demo_post "/acme/revoke-cert" "k1") demo_st "payload" "k1" zero_Registration _
              ErrNoRows eq_refl eq_refl eq_refl Hv) as (H1 & H2 & H3).
  split; [exact H1|split; [exact H2|]].
  exact (proj1 (H3 (demo_cert 0) {| pc_SerialNumber := 1; pc_PublicKey := "certkey" |}
                   {| cs_Status := OCSPStatusGood |} eq_refl eq_refl)).
Defined.

(** ** Claims C4 and C6: account update *)

Lemma WriteHeader_Write_effect (c : Z) (ch : Chunk) (s : St) :
  let s' := (let '(_, s1) := WriteHeader c s in Write ch s1).2 in
  st_calls s' = st_calls s /\ st_body s' = st_body s ++ [ch] /\
  (st_code s = None -> st_code s' = Some c).
Proof.
  unfold Write, WriteHeader, modify. unfold_M. destruct s as [ns h k b cs a p].
  destruct k; cbn; repeat split; auto; discriminate.
Qed.

Ltac verify_err_tac :=
  match goal with
  | Hv : verifyPOST _ _ _ _ = (_, ?st1) |- context [(sendVerifyError ?e ?st1).2] =>
      let H1 := fresh "Hcalls" in let H2 := fresh "Hcode" in
      destruct (sendVerifyError_effect e st1) as [H1 H2];
      destruct (verifyPOST_calls_code _ _ _ _ _ _ Hv)
  end.

(** Every RA call [RegistrationHandler] makes is an update of the signer's
    stored account whose key field is that account's key, the other fields
    coming from the payload. *)
Lemma RegistrationHandler_calls (wfe : WebFrontEndImpl) (req : Request) (st : St) :
  let st' := (RegistrationHandler wfe req st).2 in
  st_calls st' = st_calls st \/
  exists body key currReg st1 payloadReg,
    req_Method req = "POST" /\
    verifyPOST wfe req true (sendStandardHeaders st).2 = (Ok (body, key, currReg), st1) /\
    GetRegistrationByKey (SA wfe) key = Ok currReg /\
    ParseInt (parseIDFromPath (req_Path req)) = Ok (reg_ID currReg) /\ 0 < reg_ID currReg /\
    UnmarshalRegistration (lib wfe) body = Ok payloadReg /\
    st_calls st' = st_calls st ++
      [CallUpdateRegistration currReg
         {| reg_ID := reg_ID payloadReg; reg_Key := reg_Key currReg;
            reg_Contact := reg_Contact payloadReg; reg_Agreement := reg_Agreement payloadReg |}].
Proof.
  cbn zeta.
  destruct (sendStandardHeaders_frame st) as (Hc0 & _).
  destruct (String.eqb (req_Method req) "POST") eqn:Hm.
  2:{ left. unfold RegistrationHandler. unfold_M.
      destruct (sendStandardHeaders st) as [u st0] eqn:Hs. cbn in Hc0. simpl_h.
      rewrite Hm. simpl_h. rewrite <- Hc0. apply sendAllow_sendError_effect. }
  apply String.eqb_eq in Hm.
  destruct (verifyPOST wfe req true (sendStandardHeaders st).2)
    as [[[[body key] currReg]|e] st1] eqn:Hv;
  destruct (verifyPOST_calls_code _ _ _ _ _ _ Hv) as [Hc1 _];
  unfold RegistrationHandler; unfold_M;
  destruct (sendStandardHeaders st) as [u st0] eqn:Hs; cbn in Hc0, Hv, Hc1; simpl_h;
  rewrite Hm; simpl_h; rewrite Hv; simpl_h.
  2:{ left. destruct (sendVerifyError_effect e st1). congruence. }
  destruct (ParseInt (parseIDFromPath (req_Path req))) as [id|] eqn:Hid;
    [|left; send_error_tac; congruence].
  destruct (Z.leb_spec id 0); simpl_h; [left; send_error_tac; congruence|].
  destruct (Z.eqb_spec id (reg_ID currReg)) as [Heq|]; simpl_h;
    [|left; send_error_tac; congruence].
  destruct (UnmarshalRegistration (lib wfe) body) as [payloadReg|] eqn:Hu;
    [|left; send_error_tac; congruence].
  destruct (negb (String.eqb (reg_Agreement payloadReg) "")
            && negb (String.eqb (reg_Agreement payloadReg) (SubscriberAgreementURL wfe)));
    simpl_h; [left; send_error_tac; congruence|].
  right. exists body, key, currReg, st1, payloadReg.
  destruct (verifyPOST_Ok_inv _ _ _ _ _ _ _ _ Hv) as (b & h & _ & _ & _ & _ & _ & Hreg).
  destruct Hreg as [Hreg|(Hf & _)]; [|discriminate].
  subst id. repeat split; auto.
  destruct (RA_UpdateRegistration (RA wfe) currReg _) as [updatedReg|e'];
    [destruct (MarshalRegistration (lib wfe) updatedReg)|]; simpl_h;
    try (send_error_tac; rewrite Hcalls; cbn; congruence).
  match goal with |- st_calls (let '(_, _) := WriteHeader ?c ?s in Write ?ch _).2 = _ =>
    destruct (WriteHeader_Write_effect c ch s) as [Hw _] end.
  cbn zeta in Hw. rewrite Hw. cbn. rewrite Hc1, Hc0. reflexivity.
Qed.

(** Claim C4: every account update that [RegistrationHandler] hands to the
    Authority keeps the key of the stored account it updates, where that
    account is the one [verifyPOST] resolved for the verified signer key; the
    key in the client payload plays no part. *)
Theorem RegistrationHandler_keeps_key (wfe : WebFrontEndImpl) (req : Request) (st : St)
    (base upd : Registration) :
  In (CallUpdateRegistration base upd) (st_calls (RegistrationHandler wfe req st).2) ->
  In (CallUpdateRegistration base upd) (st_calls st) \/
  (reg_Key upd = reg_Key base /\
   exists body key st1 payloadReg,
     verifyPOST wfe req true (sendStandardHeaders st).2 = (Ok (body, key, base), st1) /\
     GetRegistrationByKey (SA wfe) key = Ok base /\
     UnmarshalRegistration (lib wfe) body = Ok payloadReg /\
     upd = {| reg_ID := reg_ID payloadReg; reg_Key := reg_Key base;
              reg_Contact := reg_Contact payloadReg;
              reg_Agreement := reg_Agreement payloadReg |}).
Proof.
  intros Hin.
  destruct (RegistrationHandler_calls wfe req st)
    as [Hc|(body & key & currReg & st1 & payloadReg & _ & Hv & Hg & _ & _ & Hu & Hc)];
    cbn zeta in Hc; rewrite Hc in Hin; [left; exact Hin|].
  apply in_app_or in Hin as [Hin|Hin]; [left; exact Hin|right].
  apply list_elem_of_singleton in Hin || (destruct Hin as [Hin|[]]).
  injection Hin as <- <-. split; [reflexivity|].
  exists body, key, st1, payloadReg. auto.
Qed.

Lemma RegistrationHandler_keeps_key_witness :
  let upd := {| reg_ID := 0; reg_Key := "k1"; reg_Contact := []; reg_Agreement := "" |} in
  In (CallUpdateRegistration demo_reg upd)
     (st_calls (RegistrationHandler (demo_wfe (demo_sa true 7 OCSPStatusGood))
                  (demo_post "/acme/reg/7" "k1") demo_st).2) /\
  (In (CallUpdateRegistration demo_reg upd) (st_calls demo_st) \/
   (reg_Key upd = reg_Key demo_reg /\
    exists body key st1 payloadReg,
      verifyPOST (demo_wfe (demo_sa true 7 OCSPStatusGood)) (demo_post "/acme/reg/7" "k1") true
        (sendStandardHeaders demo_st).2 = (Ok (body, key, demo_reg), st1) /\
      GetRegistrationByKey (SA (demo_wfe (demo_sa true 7 OCSPStatusGood))) key = Ok demo_reg /\
      UnmarshalRegistration (lib (demo_wfe (demo_sa true 7 OCSPStatusGood))) body = Ok payloadReg /\
      upd = {| reg_ID := reg_ID payloadReg; reg_Key := reg_Key demo_reg;
               reg_Contact := reg_Contact payloadReg;
               reg_Agreement := reg_Agreement payloadReg |})).
Proof.
  cbv zeta.
  assert (H : In (CallUpdateRegistration demo_reg
             {| reg_ID := 0; reg_Key := "k1"; reg_Contact := []; reg_Agreement := "" |})
     (st_calls (RegistrationHandler (demo_wfe (demo_sa true 7 OCSPStatusGood))
                  (demo_post "/acme/reg/7" "k1") demo_st).2))
    by (vm_compute; left; reflexivity).
  split; [exact H|].
  exact (RegistrationHandler_keeps_key (demo_wfe (demo_sa true 7 OCSPStatusGood))
           (demo_post "/acme/reg/7" "k1") demo_st demo_reg _ H).
Defined.

(** C6 (amended).  For a verified POST to [RegistrationHandler], the front
    end itself checks the trailing path segment before any Authority call:
    a segment that is not an integer, or an integer that is not positive,
    gives Bad Request (400); a positive integer other than the signer's
    account id gives Forbidden (403); in each case no call is made.  A call
    is made only when the segment parses to the signer's (positive)
    account id. *)
Theorem RegistrationHandler_path_check (wfe : WebFrontEndImpl) (req : Request) (st : St)
    (body : string) (key : Key) (currReg : Registration) (st1 : St) :
  req_Method req = "POST" -> st_code st = None ->
  verifyPOST wfe req true (sendStandardHeaders st).2 = (Ok (body, key, currReg), st1) ->
  let st' := (RegistrationHandler wfe req st).2 in
  let idStr := parseIDFromPath (req_Path req) in
  (forall e, ParseInt idStr = Err e ->
     st_code st' = Some StatusBadRequest /\ st_calls st' = st_calls st) /\
  (forall id, ParseInt idStr = Ok id -> id <= 0 ->
     st_code st' = Some StatusBadRequest /\ st_calls st' = st_calls st) /\
  (forall id, ParseInt idStr = Ok id -> 0 < id -> id <> reg_ID currReg ->
     st_code st' = Some StatusForbidden /\ st_calls st' = st_calls st) /\
  (st_calls st' <> st_calls st ->
     ParseInt idStr = Ok (reg_ID currReg) /\ 0 < reg_ID currReg).
Proof.
  intros Hm Hnone Hv. cbn zeta.
  destruct (sendStandardHeaders_frame st) as (Hc0 & Hk0 & _).
  destruct (verifyPOST_calls_code _ _ _ _ _ _ Hv) as [Hc1 Hk1].
  split; [|split; [|split]].
  4:{ intros Hne. destruct (RegistrationHandler_calls wfe req st)
        as [Hc|(body' & key' & currReg' & st1' & payloadReg & _ & Hv' & _ & Hid & Hpos & _)];
      [contradiction|].
      rewrite Hv in Hv'. injection Hv' as _ _ <- _. split; assumption. }
  all: assert (Hm' : String.eqb (req_Method req) "POST" = true) by (apply String.eqb_eq; exact Hm).
  all: unfold RegistrationHandler; unfold_M;
    destruct (sendStandardHeaders st) as [u st0] eqn:Hs; cbn in Hc0, Hk0, Hv, Hc1, Hk1; simpl_h;
    rewrite Hm'; simpl_h; rewrite Hv; simpl_h.
  - intros e He. rewrite He. simpl_h. send_error_tac.
    split; [apply Hcode; congruence|congruence].
  - intros id Hid Hle. rewrite Hid. destruct (Z.leb_spec id 0); [|lia]. simpl_h.
    send_error_tac. split; [apply Hcode; congruence|congruence].
  - intros id Hid Hpos Hne. rewrite Hid. destruct (Z.leb_spec id 0); [lia|].
    destruct (Z.eqb_spec id (reg_ID currReg)); [contradiction|]. simpl_h.
    send_error_tac. split; [apply Hcode; congruence|congruence].
Qed.

(** C6 (counterexample).  A verified request from account 7 to the path
    ["/acme/reg/abc"] (not an integer) or ["/acme/reg/0"] (not positive) is
    rejected with Bad Request (400), not Forbidden. *)
Lemma RegistrationHandler_bad_id_not_forbidden :
  st_code (RegistrationHandler (demo_wfe (demo_sa true 7 OCSPStatusGood))
             (demo_post "/acme/reg/abc" "k1") demo_st).2 = Some StatusBadRequest /\
  st_code (RegistrationHandler (demo_wfe (demo_sa true 7 OCSPStatusGood))
             (demo_post "/acme/reg/0" "k1") demo_st).2 = Some StatusBadRequest.
Proof. split; vm_compute; reflexivity. Qed.

(** C6 (witness): account 7 addressing account 8 is Forbidden, no call. *)
Lemma RegistrationHandler_path_check_witness :
  st_code (RegistrationHandler (demo_wfe (demo_sa true 7 OCSPStatusGood))
             (demo_post "/acme/reg/8" "k1") demo_st).2 = Some StatusForbidden /\
  st_calls (RegistrationHandler (demo_wfe (demo_sa true 7 OCSPStatusGood))
             (demo_post "/acme/reg/8" "k1") demo_st).2 = st_calls demo_st.
Proof.
  assert (Hv : verifyPOST (demo_wfe (demo_sa true 7 OCSPStatusGood))
                 (demo_post "/acme/reg/8" "k1") true (sendStandardHeaders demo_st).2
               = (Ok ("payload", "k1", demo_reg),
                  (verifyPOST (demo_wfe (demo_sa true 7 OCSPStatusGood))
                     (demo_post "/acme/reg/8" "k1") true (sendStandardHeaders demo_st).2).2))
    by (vm_compute; reflexivity).
  destruct (RegistrationHandler_path_check (demo_wfe (demo_sa true 7 OCSPStatusGood))
              (demo_post "/acme/reg/8" "k1") demo_st "payload" "k1" demo_reg _
              eq_refl eq_refl Hv) as (_ & _ & H3 & _).
  apply (H3 8); [vm_compute; reflexivity|lia|cbn; discriminate].
Defined.

(** ** Claims C5 and C7: challenge responses *)

Lemma replyChallenge_effect (wfe : WebFrontEndImpl) (authz : Authorization) (ch : Challenge)
    (s : St) :
  let s' := (replyChallenge wfe authz ch s).2 in
  st_calls s' = st_calls s /\
  match MarshalChallenge (lib wfe) ch with
  | Ok json => st_body s' = st_body s ++ [Bytes json] /\
               (st_code s = None -> st_code s' = Some StatusAccepted)
  | Err _ => st_code s = None -> st_code s' = Some StatusInternalServerError
  end.
Proof.
  cbn zeta. unfold replyChallenge.
  destruct (MarshalChallenge (lib wfe) ch) as [json|e].
  - unfold header_Add, header_Set, WriteHeader, Write, modify. unfold_M.
    destruct s as [ns h k b cs a p]. destruct k; cbn; repeat split; auto; discriminate.
  - destruct (sendError_effect "Failed to marshal challenge" StatusInternalServerError s).
    split; assumption.
Qed.

Lemma go_panic_frame (msg : string) (s : St) :
  st_calls (go_panic msg s).2 = st_calls s /\ st_code (go_panic msg s).2 = st_code s.
Proof. destruct s; split; reflexivity. Qed.

Ltac same_calls_tac :=
  match goal with
  | |- context [(sendError ?d ?c ?s).2] =>
      let H := fresh in destruct (sendError_effect d c s) as [H _]; cbn [st_calls set_calls] in H; congruence
  | |- context [(sendVerifyError ?e ?s).2] =>
      let H := fresh in destruct (sendVerifyError_effect e s) as [H _]; congruence
  | |- context [(replyChallenge ?w ?a ?ch ?s).2] =>
      let H := fresh in destruct (replyChallenge_effect w a ch s) as [H _]; cbn [st_calls set_calls] in H; congruence
  end.

(** Only a POST naming one of the authorization's challenges, signed by a
    key whose account owns the authorization, reaches the RA, with the
    index of that challenge. *)
Lemma challenge_calls (wfe : WebFrontEndImpl) (authz : Authorization) (req : Request) (st : St) :
  let st' := (challenge wfe authz req st).2 in
  st_calls st' = st_calls st \/
  exists idx body key currReg st1 resp,
    req_Method req = "POST" /\
    findChallenge (authz_Challenges authz) (req_Path req) (req_RawQuery req) 0 = Some idx /\
    verifyPOST wfe req true (sendStandardHeaders st).2 = (Ok (body, key, currReg), st1) /\
    reg_ID currReg = authz_RegistrationID authz /\
    UnmarshalChallenge (lib wfe) body = Ok resp /\
    st_calls st' = st_calls st ++ [CallUpdateAuthorization authz idx resp].
Proof.
  cbn zeta.
  destruct (sendStandardHeaders_frame st) as (Hc0 & _).
  destruct (verifyPOST wfe req true (sendStandardHeaders st).2)
    as [[[[body key] currReg]|e] st1] eqn:Hv;
  destruct (verifyPOST_calls_code _ _ _ _ _ _ Hv) as [Hc1 _];
  unfold challenge; unfold_M;
  destruct (sendStandardHeaders st) as [u st0] eqn:Hs; cbn in Hc0, Hv, Hc1; simpl_h.
  all: destruct (String.eqb (req_Method req) "GET") eqn:Hg;
    destruct (String.eqb (req_Method req) "POST") eqn:Hp; simpl_h.
  all: destruct (findChallenge (authz_Challenges authz) (req_Path req) (req_RawQuery req) 0)
    as [idx|] eqn:Hf; simpl_h.
  all: try (left; rewrite <- Hc0; apply sendAllow_sendError_effect).
  all: try (left; same_calls_tac).
  all: try (destruct (authz_Challenges authz !! idx); simpl_h; left; [same_calls_tac|congruence]).
  all: try (rewrite Hv; simpl_h).
  all: try (left; same_calls_tac).
  destruct (String.eqb (reg_Agreement currReg) ""); simpl_h; [left; same_calls_tac|].
  destruct (Z.eqb_spec (reg_ID currReg) (authz_RegistrationID authz)) as [Hid|];
    simpl_h; [|left; same_calls_tac].
  destruct (UnmarshalChallenge (lib wfe) body) as [resp|] eqn:Hu; simpl_h; [|left; same_calls_tac].
  right. exists idx, body, key, currReg, st1, resp.
  repeat split; auto; [apply String.eqb_eq; exact Hp|].
  destruct (RA_UpdateAuthorization (RA wfe) authz idx resp) as [upd|e];
    [destruct (authz_Challenges upd !! idx)|]; simpl_h;
    try same_calls_tac; congruence.
Qed.

(** Claim C5: for a verified POST naming one of an authorization's
    challenges, a signer whose account id differs from the authorization's
    owning account id gets Forbidden (403) and the RA's update is not
    called, so the authorization is left as it is; the challenge response
    reaches the RA only when the two account ids are equal. *)
Theorem challenge_owner_check (wfe : WebFrontEndImpl) (authz : Authorization) (req : Request)
    (st : St) (idx : nat) (body : string) (key : Key) (currReg : Registration) (st1 : St) :
  req_Method req = "POST" -> st_code st = None ->
  findChallenge (authz_Challenges authz) (req_Path req) (req_RawQuery req) 0 = Some idx ->
  verifyPOST wfe req true (sendStandardHeaders st).2 = (Ok (body, key, currReg), st1) ->
  let st' := (challenge wfe authz req st).2 in
  (reg_ID currReg <> authz_RegistrationID authz ->
   st_code st' = Some StatusForbidden /\ st_calls st' = st_calls st) /\
  (st_calls st' <> st_calls st -> reg_ID currReg = authz_RegistrationID authz).
Proof.
  intros Hm Hnone Hf Hv. cbn zeta. split.
  - intros Hne.
    destruct (sendStandardHeaders_frame st) as (Hc0 & Hk0 & _).
    destruct (verifyPOST_calls_code _ _ _ _ _ _ Hv) as [Hc1 Hk1].
    unfold challenge; unfold_M.
    destruct (sendStandardHeaders st) as [u st0] eqn:Hs; cbn in Hc0, Hk0, Hv, Hc1, Hk1.
    rewrite Hm. simpl_h. rewrite Hf. simpl_h. rewrite Hv. simpl_h.
    destruct (String.eqb (reg_Agreement currReg) ""); simpl_h;
      [|destruct (Z.eqb_spec (reg_ID currReg) (authz_RegistrationID authz));
        [contradiction|]; simpl_h];
      send_error_tac; (split; [apply Hcode; congruence|congruence]).
  - intros Hne.
    destruct (challenge_calls wfe authz req st)
      as [Hc|(idx' & body' & key' & currReg' & st1' & resp & _ & _ & Hv' & Hid & _)];
      [contradiction|].
    rewrite Hv in Hv'. injection Hv' as _ _ <- _. exact Hid.
Qed.

(** C5 (witness): account 7 answering a challenge of an authorization owned
    by account 5 is Forbidden and the RA is not called. *)
Lemma challenge_owner_check_witness :
  let req := {| req_Method := "POST"; req_Path := "/acme/authz/a1";
                req_RawQuery := "challenge=0"; req_Body := BodyBytes "k1" |} in
  st_code (challenge (demo_wfe (demo_sa true 7 OCSPStatusGood)) (demo_authz 5) req demo_st).2
    = Some StatusForbidden /\
  st_calls (challenge (demo_wfe (demo_sa true 7 OCSPStatusGood)) (demo_authz 5) req demo_st).2
    = st_calls demo_st.
Proof.
  cbv zeta.
  assert (Hv : verifyPOST (demo_wfe (demo_sa true 7 OCSPStatusGood))
                 {| req_Method := "POST"; req_Path := "/acme/authz/a1";
                    req_RawQuery := "challenge=0"; req_Body := BodyBytes "k1" |}
                 true (sendStandardHeaders demo_st).2
               = (Ok ("payload", "k1", demo_reg),
                  (verifyPOST (demo_wfe (demo_sa true 7 OCSPStatusGood))
                     {| req_Method := "POST"; req_Path := "/acme/authz/a1";
                        req_RawQuery := "challenge=0"; req_Body := BodyBytes "k1" |}
                     true (sendStandardHeaders demo_st).2).2))
    by (vm_compute; reflexivity).
  apply (proj1 (challenge_owner_check (demo_wfe (demo_sa true 7 OCSPStatusGood)) (demo_authz 5)
                  {| req_Method := "POST"; req_Path := "/acme/authz/a1";
                     req_RawQuery := "challenge=0"; req_Body := BodyBytes "k1" |} demo_st 0 "payload" "k1" demo_reg _ eq_refl eq_refl eq_refl Hv)).
  cbn. discriminate.
Defined.

Lemma findChallenge_spec (l : list Challenge) (p q : string) (n i : nat) :
  findChallenge l p q n = Some i ->
  (n <= i)%nat /\
  exists c, l !! (i - n)%nat = Some c /\ chal_URI_Path c = p /\ chal_URI_RawQuery c = q.
Proof.
  revert n. induction l as [|c rest IH]; intros n H; cbn in H; [discriminate|].
  destruct (String.eqb_spec (chal_URI_Path c) p) as [Hp|Hp];
    destruct (String.eqb_spec (chal_URI_RawQuery c) q) as [Hq|Hq]; cbn in H.
  1: injection H as <-; split; [lia|]; exists c; rewrite Nat.sub_diag; auto.
  all: destruct (IH (S n) H) as (Hle & c' & Hl & Hc'); split; [lia|]; exists c';
    replace (i - n)%nat with (S (i - S n)) by lia; cbn; auto.
Qed.

Lemma statusCodeFromError_not_accepted (e : error) : statusCodeFromError e <> StatusAccepted.
Proof. destruct e; cbv; discriminate. Qed.

Lemma verifyPOST_body (wfe : WebFrontEndImpl) (req : Request) (rc : bool) (st : St)
    (r : result (string * Key * Registration)) (st' : St) :
  verifyPOST wfe req rc st = (r, st') -> st_body st' = st_body st.
Proof. intros H. destruct (verifyPOST_frame_calls _ _ _ _ _ _ H) as [ns ->]. reflexivity. Qed.

Ltac not_accepted_tac :=
  intros Hok;
  lazymatch type of Hok with
  | context [(sendError ?d ?c ?s).2] =>
      let Hk := fresh in destruct (sendError_effect d c s) as [_ Hk];
      rewrite Hk in Hok by (cbn [st_code set_calls]; congruence);
      injection Hok as Hok;
      first [exfalso; exact (statusCodeFromError_not_accepted _ Hok) | revert Hok; cbv; discriminate]
  | context [(sendVerifyError ?e ?s).2] =>
      let Hk := fresh in destruct (sendVerifyError_effect e s) as [_ Hk];
      destruct Hk as [Hk|Hk]; [congruence| |]; rewrite Hk in Hok;
      injection Hok as Hok; revert Hok; cbv; discriminate
  | context [(let '(_, s1) := sendAllow ?ms ?s in sendError ?d ?c s1).2] =>
      let Hk := fresh in destruct (sendAllow_sendError_effect ms d c s) as [_ Hk];
      rewrite Hk in Hok by congruence;
      injection Hok as Hok; revert Hok; cbv; discriminate
  end.

(** Claim C7: when a challenge-response POST succeeds (status 202), the
    index [findChallenge] located from the request URI (the position of
    the challenge whose URI is the request's path and query) is the index
    handed to the RA's update, and the body written is the challenge found
    at that same index in the authorization the RA returns. *)
Theorem challenge_index_stable (wfe : WebFrontEndImpl) (authz : Authorization) (req : Request)
    (st : St) :
  req_Method req = "POST" -> st_code st = None ->
  let st' := (challenge wfe authz req st).2 in
  st_code st' = Some StatusAccepted ->
  exists idx c0 resp updated ch json,
    findChallenge (authz_Challenges authz) (req_Path req) (req_RawQuery req) 0 = Some idx /\
    authz_Challenges authz !! idx = Some c0 /\
    chal_URI_Path c0 = req_Path req /\ chal_URI_RawQuery c0 = req_RawQuery req /\
    st_calls st' = st_calls st ++ [CallUpdateAuthorization authz idx resp] /\
    RA_UpdateAuthorization (RA wfe) authz idx resp = Ok updated /\
    authz_Challenges updated !! idx = Some ch /\
    MarshalChallenge (lib wfe) ch = Ok json /\
    st_body st' = st_body st ++ [Bytes json].
Proof.
  intros Hm Hnone. cbn zeta.
  destruct (sendStandardHeaders_frame st) as (Hc0 & Hk0 & Hb0).
  destruct (verifyPOST wfe req true (sendStandardHeaders st).2)
    as [[[[body key] currReg]|e] st1] eqn:Hv;
  destruct (verifyPOST_calls_code _ _ _ _ _ _ Hv) as [Hc1 Hk1];
  pose proof (verifyPOST_body _ _ _ _ _ _ Hv) as Hb1;
  unfold challenge; unfold_M;
  destruct (sendStandardHeaders st) as [u st0] eqn:Hs; cbn in Hc0, Hk0, Hb0, Hv, Hc1, Hk1, Hb1;
  rewrite Hm; simpl_h.
  all: destruct (findChallenge (authz_Challenges authz) (req_Path req) (req_RawQuery req) 0)
    as [idx|] eqn:Hf; simpl_h; [rewrite Hv; simpl_h|not_accepted_tac].
  2: not_accepted_tac.
  destruct (String.eqb (reg_Agreement currReg) ""); simpl_h; [not_accepted_tac|].
  destruct (Z.eqb (reg_ID currReg) (authz_RegistrationID authz)); simpl_h; [|not_accepted_tac].
  destruct (UnmarshalChallenge (lib wfe) body) as [resp|] eqn:Hu; simpl_h; [|not_accepted_tac].
  destruct (RA_UpdateAuthorization (RA wfe) authz idx resp) as [updated|e'] eqn:Hra;
    simpl_h; [|not_accepted_tac].
  destruct (authz_Challenges updated !! idx) as [ch|] eqn:Hch; simpl_h;
    [|intros Hok; destruct st1; cbn in Hok, Hk1; congruence].
  match goal with |- context [(replyChallenge ?w ?a ?c ?s).2] =>
    destruct (replyChallenge_effect w a c s) as [Hcr Hr] end.
  destruct (MarshalChallenge (lib wfe) ch) as [json|] eqn:Hmc;
    [|intros Hok; rewrite Hr in Hok by (cbn; congruence); injection Hok as Hok;
      revert Hok; cbv; discriminate].
  destruct Hr as [Hbr _]. intros _.
  destruct (findChallenge_spec _ _ _ _ _ Hf) as (_ & c0 & Hc0' & Hp & Hq).
  rewrite Nat.sub_0_r in Hc0'.
  exists idx, c0, resp, updated, ch, json.
  cbn [st_calls st_body set_calls] in Hcr, Hbr.
  repeat split; auto; congruence.
Qed.

(** C7 (witness): account 7 answers challenge 0 of its own authorization;
    the RA hands back the authorization and the reply is its challenge 0. *)
Lemma challenge_index_stable_witness :
  exists idx c0 resp updated ch json,
    findChallenge (authz_Challenges (demo_authz 7)) "/acme/authz/a1" "challenge=0" 0 = Some idx /\
    authz_Challenges (demo_authz 7) !! idx = Some c0 /\
    chal_URI_Path c0 = "/acme/authz/a1" /\ chal_URI_RawQuery c0 = "challenge=0" /\
    st_calls (challenge (demo_wfe (demo_sa true 7 OCSPStatusGood)) (demo_authz 7)
                {| req_Method := "POST"; req_Path := "/acme/authz/a1";
                   req_RawQuery := "challenge=0"; req_Body := BodyBytes "k1" |} demo_st).2
      = st_calls demo_st ++ [CallUpdateAuthorization (demo_authz 7) idx resp] /\
    RA_UpdateAuthorization demo_ra (demo_authz 7) idx resp = Ok updated /\
    authz_Challenges updated !! idx = Some ch /\
    MarshalChallenge demo_lib ch = Ok json /\
    st_body (challenge (demo_wfe (demo_sa true 7 OCSPStatusGood)) (demo_authz 7)
                {| req_Method := "POST"; req_Path := "/acme/authz/a1";
                   req_RawQuery := "challenge=0"; req_Body := BodyBytes "k1" |} demo_st).2
      = st_body demo_st ++ [Bytes json].
Proof.
  exact (challenge_index_stable (demo_wfe (demo_sa true 7 OCSPStatusGood)) (demo_authz 7)
           {| req_Method := "POST"; req_Path := "/acme/authz/a1";
              req_RawQuery := "challenge=0"; req_Body := BodyBytes "k1" |} demo_st
           eq_refl eq_refl ltac:(vm_compute; reflexivity)).
Defined.

(** ** Claim C8: problem types *)

(** C8.  [sendError] chooses the problem type from an explicit list of
    codes only (403; 409, 405, 404, 400; 500).  The codes 501 and 412,
    which [statusCodeFromError] gives for [NotSupportedError] and
    [SignatureValidationError], are in none of them: an account update the
    Authority refuses with either error is answered with a problem
    document whose type is empty (dropped from the JSON by [omitempty]),
    not the server-internal type, and nothing is audited. *)
Theorem sendError_unlisted_codes_untyped :
  let run e := (RegistrationHandler (demo_wfe_failing e (demo_sa true 7 OCSPStatusGood))
                  (demo_post "/acme/reg/7" "k1") demo_st).2 in
  problemTypeForCode StatusNotImplemented = "" /\
  problemTypeForCode StatusPreconditionFailed = "" /\
  statusCodeFromError (NotSupportedError "not supported") = StatusNotImplemented /\
  st_code (run (NotSupportedError "not supported")) = Some StatusNotImplemented /\
  st_body (run (NotSupportedError "not supported"))
    = [ProblemDoc {| prob_Type := ""; prob_Detail := "Unable to update registration" |}] /\
  st_audit (run (NotSupportedError "not supported")) = [] /\
  statusCodeFromError (SignatureValidationError "bad signature") = StatusPreconditionFailed /\
  st_code (run (SignatureValidationError "bad signature")) = Some StatusPreconditionFailed /\
  st_body (run (SignatureValidationError "bad signature"))
    = [ProblemDoc {| prob_Type := ""; prob_Detail := "Unable to update registration" |}] /\
  st_audit (run (SignatureValidationError "bad signature")) = [].
Proof. cbv zeta. repeat split; vm_compute; reflexivity. Qed.

(** ** Claim C9: short serials *)

Lemma hex_go_length (f : nat) (n : N) (acc : string) (k : nat) :
  (1 <= k)%nat -> (n < 16 ^ N.of_nat k)%N ->
  (String.length (hex_go f n acc) <= String.length acc + k)%nat.
Proof.
  revert n acc k. induction f as [|f IH]; intros n acc k Hk Hn; cbn [hex_go]; [lia|].
  destruct (N.ltb_spec n 16); [cbn; lia|].
  assert (Hk2 : (2 <= k)%nat).
  { destruct k as [|[|k]]; [lia| |lia]. cbn in Hn. lia. }
  specialize (IH (n / 16)%N (String (hex_digit (n mod 16)) acc) (k - 1)%nat).
  cbn [String.length] in IH. enough ((n / 16 < 16 ^ N.of_nat (k - 1))%N) by (specialize (IH ltac:(lia) H0); lia).
  apply N.Div0.div_lt_upper_bound.
  replace (N.of_nat k) with (N.succ (N.of_nat (k - 1))) in Hn by lia.
  rewrite N.pow_succ_r' in Hn. lia.
Qed.

Lemma hex_digit_hex (d : N) : (d < 16)%N -> is_lower_hex (hex_digit d) = true.
Proof.
  intros Hd. unfold hex_digit.
  assert (H : forall k, (k < 16)%nat ->
            is_lower_hex (match String.get k "0123456789abcdef" with
                          | Some c => c | None => "0"%char end) = true).
  { intros k Hk. do 16 (destruct k as [|k]; [reflexivity|]). lia. }
  apply H. lia.
Qed.

Lemma hex_go_hex (f : nat) (n : N) (acc : string) :
  all_lower_hex acc = true -> all_lower_hex (hex_go f n acc) = true.
Proof.
  revert n acc. induction f as [|f IH]; intros n acc Hacc; cbn [hex_go]; [exact Hacc|].
  assert (Hd : all_lower_hex (String (hex_digit (n mod 16)) acc) = true).
  { cbn [all_lower_hex]. rewrite hex_digit_hex, Hacc; [reflexivity|].
    apply N.mod_lt. discriminate. }
  destruct (n <? 16)%N; [exact Hd|apply IH; exact Hd].
Qed.

Lemma all_lower_hex_app (s1 s2 : string) :
  all_lower_hex (s1 +:+ s2) = all_lower_hex s1 && all_lower_hex s2.
Proof.
  induction s1 as [|c s1 IH]; [reflexivity|].
  simpl. rewrite IH. apply andb_assoc.
Qed.

Lemma zeros_length (k : nat) : String.length (zeros k) = k.
Proof. induction k; cbn; auto. Qed.

Lemma zeros_hex (k : nat) : all_lower_hex (zeros k) = true.
Proof. induction k; cbn; auto. Qed.

Lemma string_length_app (s1 s2 : string) :
  String.length (s1 +:+ s2) = (String.length s1 + String.length s2)%nat.
Proof. induction s1; simpl; auto. Qed.

(** A serial below 2^128 has a short identifier of sixteen lower-case hex
    digits. *)
Lemma shortSerial_shape (S : Z) :
  0 <= S < 2 ^ 128 ->
  String.length (shortSerial S) = 16%nat /\ allHex_Match (shortSerial S) = true.
Proof.
  intros HS. unfold shortSerial, Sprintf016x.
  set (q := Z.shiftr S 64).
  assert (Hq : 0 <= q < 2 ^ 64).
  { unfold q. rewrite Z.shiftr_div_pow2 by lia. split; [apply Z.div_pos; lia|].
    apply Z.div_lt_upper_bound; [lia|]. change (2 ^ 64 * 2 ^ 64) with (2 ^ 128). lia. }
  destruct (Z.ltb_spec q 0); [lia|].
  set (d := hex_N (Z.to_N (Z.abs q))).
  assert (Hd : (String.length d <= 16)%nat).
  { unfold d, hex_N. apply (hex_go_length _ _ "" 16); [lia|].
    rewrite Z.abs_eq by lia. change (16 ^ N.of_nat 16)%N with (Z.to_N (2 ^ 64)).
    apply Z2N.inj_lt; lia. }
  assert (Hlen : String.length (zeros (16 - String.length d) +:+ d) = 16%nat)
    by (rewrite string_length_app, zeros_length; lia).
  assert (Hhex : all_lower_hex (zeros (16 - String.length d) +:+ d) = true)
    by (rewrite all_lower_hex_app, zeros_hex; apply hex_go_hex; reflexivity).
  change (String.length (zeros (16 - String.length d) +:+ d) = 16%nat /\
          allHex_Match (zeros (16 - String.length d) +:+ d) = true).
  split; [exact Hlen|].
  destruct (zeros (16 - String.length d) +:+ d) eqn:E;
    [cbn in Hlen; discriminate|exact Hhex].
Qed.

Lemma HasPrefix_app (pre x : string) : HasPrefix (pre +:+ x) pre = true.
Proof.
  induction pre as [|c pre IH]; [destruct x; reflexivity|].
  simpl. rewrite IH, bool_decide_eq_true_2 by reflexivity. reflexivity.
Qed.

Lemma str_drop_CertPath (x : string) : str_drop (String.length CertPath) (CertPath +:+ x) = x.
Proof. reflexivity. Qed.

(** A GET of a well-formed certificate path answers with what the short
    serial lookup returns. *)
Lemma CertificateHandler_get (wfe : WebFrontEndImpl) (req : Request) (st : St) (x : string) :
  req_Method req = "GET" -> req_Path req = CertPath +:+ x ->
  String.length x = 16%nat -> allHex_Match x = true -> st_code st = None ->
  let st' := (CertificateHandler wfe req st).2 in
  match GetCertificateByShortSerial (SA wfe) x with
  | Ok c => st_code st' = Some StatusOK /\ st_body st' = st_body st ++ [Bytes (cert_DER c)]
  | Err e => st_code st' = Some (if HasPrefix (Error e) "gorp: multiple rows returned"
                                 then StatusConflict else StatusNotFound)
  end.
Proof.
  intros Hm Hp Hl Hh Hnone. cbn zeta.
  destruct (sendStandardHeaders_frame st) as (_ & Hk0 & Hb0).
  unfold CertificateHandler; unfold_M.
  destruct (sendStandardHeaders st) as [u st0] eqn:Hs; cbn in Hk0, Hb0. cbv zeta.
  rewrite Hm, Hp, HasPrefix_app, str_drop_CertPath, Hl, Hh. simpl_h.
  destruct (GetCertificateByShortSerial (SA wfe) x) as [c|e].
  - unfold header_Set, header_Add, modify. cbn beta iota zeta.
    match goal with |- context [(let '(_, s1) := WriteHeader ?c ?s in Write ?ch s1).2] =>
      destruct (WriteHeader_Write_effect c ch s) as (_ & Hb & Hk) end.
    cbn zeta in Hb, Hk. rewrite Hb, Hk by (cbn; congruence). cbn. split; [reflexivity|congruence].
  - destruct (HasPrefix (Error e) "gorp: multiple rows returned");
      send_error_tac; apply Hcode; congruence.
Qed.

Lemma hex_go_acc_length (f : nat) (n : N) (acc : string) :
  (String.length acc <= String.length (hex_go f n acc))%nat.
Proof.
  revert n acc. induction f as [|f IH]; intros n acc; cbn [hex_go]; [lia|].
  destruct (n <? 16)%N; [cbn; lia|].
  specialize (IH (n / 16)%N (String (hex_digit (n mod 16)) acc)). cbn [String.length] in IH. lia.
Qed.

Lemma hex_go_length_ge (f : nat) (n : N) (acc : string) (k : nat) :
  (k < f)%nat -> (16 ^ N.of_nat k <= n)%N ->
  (String.length acc + k < String.length (hex_go f n acc))%nat.
Proof.
  revert n acc k. induction f as [|f IH]; intros n acc k Hf Hn; [lia|]. cbn [hex_go].
  destruct (N.ltb_spec n 16).
  - destruct k as [|k]; [cbn; lia|].
    exfalso. rewrite Nat2N.inj_succ, N.pow_succ_r' in Hn.
    pose proof (N.pow_nonzero 16 (N.of_nat k) ltac:(discriminate)). lia.
  - destruct k as [|k].
    + pose proof (hex_go_acc_length f (n / 16)%N (String (hex_digit (n mod 16)) acc)).
      cbn [String.length] in H0. lia.
    + specialize (IH (n / 16)%N (String (hex_digit (n mod 16)) acc) k ltac:(lia)).
      cbn [String.length] in IH. enough (16 ^ N.of_nat k <= n / 16)%N by (specialize (IH H0); lia).
      apply N.div_le_lower_bound; [lia|]. rewrite Nat2N.inj_succ, N.pow_succ_r' in Hn. lia.
Qed.

(** A serial of [2^128] or more has a short identifier longer than sixteen
    characters. *)
Lemma shortSerial_wide (S : Z) : 2 ^ 128 <= S -> (17 <= String.length (shortSerial S))%nat.
Proof.
  intros HS. unfold shortSerial, Sprintf016x.
  set (q := Z.shiftr S 64).
  assert (Hq : 2 ^ 64 <= q).
  { unfold q. rewrite Z.shiftr_div_pow2 by lia.
    apply Z.div_le_lower_bound; [lia|]. change (2 ^ 64 * 2 ^ 64) with (2 ^ 128). lia. }
  destruct (Z.ltb_spec q 0); [lia|].
  rewrite Z.abs_eq by lia.
  assert (Hd : (16 < String.length (hex_N (Z.to_N q)))%nat).
  { unfold hex_N. apply (hex_go_length_ge _ _ "" 16).
    - destruct (Z.to_N q) as [|p] eqn:E; [lia|]. cbn [N.size_nat].
      assert (Hp : (2 ^ 64 <= Zpos p)).
      { apply (f_equal Z.of_N) in E. rewrite Z2N.id in E by lia. cbn in E. lia. }
      destruct (Z.eq_dec (Zpos p) (2 ^ 64)) as [Heq|Hne].
      + assert (Hp' : p = 18446744073709551616%positive) by lia. subst p.
        assert (H65 : Pos.size_nat 18446744073709551616 = 65%nat) by reflexivity. lia.
      + assert (Hlt : (18446744073709551616 < p)%positive) by lia.
        pose proof (Pos.size_nat_monotone _ _ Hlt) as Hm.
        assert (H65 : Pos.size_nat 18446744073709551616 = 65%nat) by reflexivity. lia.
    - change (16 ^ N.of_nat 16)%N with (Z.to_N (2 ^ 64)). apply Z2N.inj_le; lia. }
  rewrite !string_length_app, zeros_length. cbn [String.length]. lia.
Qed.

(** A GET of a certificate path whose identifier is not sixteen characters
    long is Not Found, whatever the storage authority holds. *)
Lemma CertificateHandler_wrong_length (wfe : WebFrontEndImpl) (req : Request) (st : St) (x : string) :
  req_Method req = "GET" -> req_Path req = CertPath +:+ x ->
  String.length x <> 16%nat -> st_code st = None ->
  st_code (CertificateHandler wfe req st).2 = Some StatusNotFound.
Proof.
  intros Hm Hp Hl Hnone.
  destruct (sendStandardHeaders_frame st) as (_ & Hk0 & _).
  unfold CertificateHandler; unfold_M.
  destruct (sendStandardHeaders st) as [u st0] eqn:Hs; cbn in Hk0. cbv zeta.
  apply Nat.eqb_neq in Hl.
  rewrite Hm, Hp, HasPrefix_app, str_drop_CertPath, Hl. simpl_h.
  send_error_tac. apply Hcode. congruence.
Qed.

(** The round trip for serials below [2^128]. *)
Lemma CertificateHandler_short_serial_in_range (wfe : WebFrontEndImpl)
    (store : list (Z * Certificate)) (S : Z) (c : Certificate) (req : Request) (st : St) :
  (forall id, GetCertificateByShortSerial (SA wfe) id = sa_GetCertificateByShortSerial store id) ->
  0 <= S < 2 ^ 128 -> In (S, c) store ->
  req_Method req = "GET" -> req_Path req = CertPath +:+ shortSerial S -> st_code st = None ->
  let st' := (CertificateHandler wfe req st).2 in
  let matches := filter (fun e => String.eqb (shortSerial e.1) (shortSerial S)) store in
  String.length (shortSerial S) = 16%nat /\ allHex_Match (shortSerial S) = true /\
  ((matches = [(S, c)] /\ st_code st' = Some StatusOK /\
    st_body st' = st_body st ++ [Bytes (cert_DER c)]) \/
   ((2 <= length matches)%nat /\ st_code st' = Some StatusConflict)).
Proof.
  intros Hsa HS Hin Hm Hp Hnone. cbn zeta.
  destruct (shortSerial_shape S HS) as [Hl Hh].
  split; [exact Hl|split; [exact Hh|]].
  pose proof (CertificateHandler_get wfe req st (shortSerial S) Hm Hp Hl Hh Hnone) as Hg.
  cbn zeta in Hg. rewrite Hsa in Hg. unfold sa_GetCertificateByShortSerial in Hg.
  assert (Hf : (S, c) ∈ filter (fun e => String.eqb (shortSerial e.1) (shortSerial S)) store).
  { apply list_elem_of_filter. split; [cbn; rewrite String.eqb_refl; exact I|].
    apply list_elem_of_In. exact Hin. }
  destruct (filter (fun e => String.eqb (shortSerial e.1) (shortSerial S)) store)
    as [|[S1 c1] [|e2 rest]] eqn:Em.
  - inversion Hf.
  - apply list_elem_of_singleton in Hf. injection Hf as -> ->. left. auto.
  - right. split; [cbn; lia|]. rewrite Hg. reflexivity.
Qed.

(** C9 (amended).  For a serial number [S] with [0 <= S < 2^128], the
    short identifier [shortSerial S] (the serial shifted right by 64 bits,
    in [%016x]) is exactly sixteen lower-case hex digits, and with the
    storage authority's short-serial lookup over [store], a GET of
    [CertPath ++ shortSerial S] for a stored certificate [(S, c)] either
    returns [c] (200 with its DER), when it is the only stored certificate
    with that short identifier, or is rejected with Conflict (409), when
    at least two are.  A serial of [2^128] or more has a short identifier
    of seventeen characters or more, and a GET of its URL is Not Found. *)
Theorem CertificateHandler_short_serial_round_trip :
  (forall (wfe : WebFrontEndImpl) (store : list (Z * Certificate)) (S : Z) (c : Certificate)
          (req : Request) (st : St),
     (forall id, GetCertificateByShortSerial (SA wfe) id = sa_GetCertificateByShortSerial store id) ->
     0 <= S < 2 ^ 128 -> In (S, c) store ->
     req_Method req = "GET" -> req_Path req = CertPath +:+ shortSerial S -> st_code st = None ->
     let st' := (CertificateHandler wfe req st).2 in
     let matches := filter (fun e => String.eqb (shortSerial e.1) (shortSerial S)) store in
     String.length (shortSerial S) = 16%nat /\ allHex_Match (shortSerial S) = true /\
     ((matches = [(S, c)] /\ st_code st' = Some StatusOK /\
       st_body st' = st_body st ++ [Bytes (cert_DER c)]) \/
      ((2 <= length matches)%nat /\ st_code st' = Some StatusConflict))) /\
  (forall (wfe : WebFrontEndImpl) (S : Z) (req : Request) (st : St),
     2 ^ 128 <= S ->
     req_Method req = "GET" -> req_Path req = CertPath +:+ shortSerial S -> st_code st = None ->
     (17 <= String.length (shortSerial S))%nat /\
     st_code (CertificateHandler wfe req st).2 = Some StatusNotFound).
Proof.
  split; [exact CertificateHandler_short_serial_in_range|].
  intros wfe S req st HS Hm Hp Hnone.
  pose proof (shortSerial_wide S HS) as Hl. split; [exact Hl|].
  apply (CertificateHandler_wrong_length wfe req st (shortSerial S) Hm Hp); [lia|exact Hnone].
Qed.

(** C9 (counterexample).  The serial [2^128] has the 17-character short
    identifier ["10000000000000000"]; a GET of the URL [NewCertificate]
    would announce for it is Not Found (404), though the certificate is
    stored and is the only one with that short identifier. *)
Lemma shortSerial_wide_not_found :
  shortSerial (2 ^ 128) = "10000000000000000" /\
  String.length (shortSerial (2 ^ 128)) = 17%nat /\
  sa_GetCertificateByShortSerial [(2 ^ 128, demo_cert 7)] (shortSerial (2 ^ 128)) = Ok (demo_cert 7) /\
  st_code (CertificateHandler (demo_wfe (demo_sa_store [(2 ^ 128, demo_cert 7)]))
             (demo_get (CertPath +:+ shortSerial (2 ^ 128))) demo_st).2 = Some StatusNotFound.
Proof. repeat split; vm_compute; reflexivity. Qed.

(** C9 (witness): two certificates whose serials differ only in their low
    64 bits share a short identifier, so the GET is a Conflict; the serial
    [2^128] has a longer identifier, and its URL is Not Found. *)
Lemma CertificateHandler_short_serial_round_trip_witness :
  let store := [(2 ^ 64 * 255 + 3, demo_cert 7); (2 ^ 64 * 255 + 4, demo_cert 8)] in
  (String.length (shortSerial (2 ^ 64 * 255 + 3)) = 16%nat /\
  allHex_Match (shortSerial (2 ^ 64 * 255 + 3)) = true /\
  (((filter (fun e => String.eqb (shortSerial e.1) (shortSerial (2 ^ 64 * 255 + 3))) store
     = [(2 ^ 64 * 255 + 3, demo_cert 7)]) /\
    st_code (CertificateHandler (demo_wfe (demo_sa_store store))
               (demo_get (CertPath +:+ shortSerial (2 ^ 64 * 255 + 3))) demo_st).2
      = Some StatusOK /\
    st_body (CertificateHandler (demo_wfe (demo_sa_store store))
               (demo_get (CertPath +:+ shortSerial (2 ^ 64 * 255 + 3))) demo_st).2
      = st_body demo_st ++ [Bytes (cert_DER (demo_cert 7))]) \/
   ((2 <= length (filter (fun e => String.eqb (shortSerial e.1) (shortSerial (2 ^ 64 * 255 + 3)))
                    store))%nat /\
    st_code (CertificateHandler (demo_wfe (demo_sa_store store))
               (demo_get (CertPath +:+ shortSerial (2 ^ 64 * 255 + 3))) demo_st).2
      = Some StatusConflict))) /\
  (17 <= String.length (shortSerial (2 ^ 128)))%nat /\
  st_code (CertificateHandler (demo_wfe (demo_sa_store [(2 ^ 128, demo_cert 7)]))
             (demo_get (CertPath +:+ shortSerial (2 ^ 128))) demo_st).2 = Some StatusNotFound.
Proof.
  cbv zeta. split.
  2:{ exact (proj2 CertificateHandler_short_serial_round_trip
               (demo_wfe (demo_sa_store [(2 ^ 128, demo_cert 7)])) (2 ^ 128)
               (demo_get (CertPath +:+ shortSerial (2 ^ 128))) demo_st
               ltac:(lia) eq_refl eq_refl eq_refl). }
  exact (proj1 CertificateHandler_short_serial_round_trip
           (demo_wfe (demo_sa_store [(2 ^ 64 * 255 + 3, demo_cert 7); (2 ^ 64 * 255 + 4, demo_cert 8)]))
           [(2 ^ 64 * 255 + 3, demo_cert 7); (2 ^ 64 * 255 + 4, demo_cert 8)]
           (2 ^ 64 * 255 + 3) (demo_cert 7)
           (demo_get (CertPath +:+ shortSerial (2 ^ 64 * 255 + 3))) demo_st
           (fun _ => eq_refl) ltac:(lia) ltac:(left; reflexivity) eq_refl eq_refl eq_refl).
Defined.

(** * Further properties of the front end *)

(** ** [sendError] *)

Lemma problemType_internal (c : Z) :
  String.eqb (problemTypeForCode c) ServerInternalProblem = Z.eqb c StatusInternalServerError.
Proof.
  unfold problemTypeForCode, StatusForbidden, StatusConflict, StatusMethodNotAllowed,
    StatusNotFound, StatusBadRequest, StatusInternalServerError.
  destruct (Z.eqb_spec c 403); [subst; reflexivity|].
  destruct (Z.eqb_spec c 409); [subst; reflexivity|].
  destruct (Z.eqb_spec c 405); [subst; reflexivity|].
  destruct (Z.eqb_spec c 404); [subst; reflexivity|].
  destruct (Z.eqb_spec c 400); [subst; reflexivity|].
  destruct (Z.eqb_spec c 500); [subst; reflexivity|reflexivity].
Qed.

(** The whole state after [sendError]. *)
Lemma sendError_state (d : string) (c : Z) (s : St) :
  (sendError d c s).2 =
  {| st_nonces := st_nonces s;
     st_header := filter (fun kv => kv.1 <> "Content-Type") (st_header s)
                  ++ [("Content-Type", "application/problem+json")];
     st_code := match st_code s with None => Some c | Some k => Some k end;
     st_body := st_body s ++ [ProblemDoc {| prob_Type := problemTypeForCode c; prob_Detail := d |}];
     st_calls := st_calls s;
     st_audit := st_audit s ++ (if Z.eqb c StatusInternalServerError
                                then ["Internal error - " +:+ d] else []);
     st_panic := st_panic s |}.
Proof.
  unfold sendError, audit, header_Set, WriteHeader, Write, modify. unfold_M.
  cbn [prob_Type]. rewrite problemType_internal.
  destruct s as [ns h k b cs a p].
  destruct (Z.eqb c StatusInternalServerError); destruct k; cbn; rewrite ?app_nil_r; reflexivity.
Qed.

(** [sendAllow] then [sendError]: the state after the method gate. *)
Lemma sendAllow_sendError_state (ms : list string) (d : string) (c : Z) (s : St) :
  let s' := (let '(_, s1) := sendAllow ms s in sendError d c s1).2 in
  st_nonces s' = st_nonces s /\ st_calls s' = st_calls s /\ st_panic s' = st_panic s /\
  st_code s' = match st_code s with None => Some c | Some k => Some k end /\
  ("Allow", String.concat ", " ms) ∈ st_header s'.
Proof.
  unfold sendAllow, header_Set, modify. cbn beta iota zeta.
  rewrite sendError_state. cbn. repeat split.
  apply elem_of_app; left. apply list_elem_of_filter. split; [cbn; discriminate|].
  apply elem_of_app; right. apply list_elem_of_singleton. reflexivity.
Qed.

(** ** Path parsing and the account URL *)

(** No newline in the string. *)
Fixpoint no_newline (s : string) : bool :=
  match s with
  | EmptyString => true
  | String c rest => negb (bool_decide (c = "010"%char)) && no_newline rest
  end.

(** No ['/'] and no newline in the string. *)
Fixpoint no_slash_newline (s : string) : bool :=
  match s with
  | EmptyString => true
  | String c rest =>
    negb (bool_decide (c = "010"%char)) && negb (bool_decide (c = "/"%char))
    && no_slash_newline rest
  end.

Lemma slash_prefix_len_app (pre s : string) (pos : nat) (best : option nat) :
  no_newline pre = true ->
  slash_prefix_len (pre +:+ s) pos best =
  slash_prefix_len s (pos + String.length pre) (slash_prefix_len pre pos best).
Proof.
  revert pos best. induction pre as [|c pre IH]; intros pos best Hn.
  - simpl. rewrite Nat.add_0_r. reflexivity.
  - simpl in Hn |- *. destruct (bool_decide (c = "010"%char)); cbn in Hn; [discriminate|].
    rewrite IH by exact Hn. f_equal. lia.
Qed.

Lemma slash_prefix_len_none (s : string) (pos : nat) (best : option nat) :
  no_slash_newline s = true -> slash_prefix_len s pos best = best.
Proof.
  revert pos. induction s as [|c s IH]; intros pos Hn; cbn in *; [reflexivity|].
  destruct (bool_decide (c = "010"%char)); cbn in Hn; [discriminate|].
  destruct (bool_decide (c = "/"%char)); cbn in Hn; [discriminate|].
  apply IH, Hn.
Qed.

Lemma str_drop_app (pre x : string) : str_drop (String.length pre) (pre +:+ x) = x.
Proof. induction pre as [|c pre IH]; [reflexivity|exact IH]. Qed.

Lemma string_app_assoc (a b c : string) : a +:+ (b +:+ c) = (a +:+ b) +:+ c.
Proof. induction a as [|x a IH]; [reflexivity|exact (f_equal (String x) IH)]. Qed.

Lemma parseIDFromPath_last (pre id : string) :
  no_newline pre = true -> no_slash_newline id = true ->
  parseIDFromPath (pre +:+ String "/" id) = id.
Proof.
  intros Hp Hi. unfold parseIDFromPath.
  rewrite slash_prefix_len_app by exact Hp. cbn.
  rewrite (slash_prefix_len_none id) by exact Hi.
  replace (S (String.length pre)) with (String.length (pre +:+ "/")).
  2:{ rewrite string_length_app. cbn. lia. }
  replace (pre +:+ String "/" id) with ((pre +:+ "/") +:+ id).
  2:{ rewrite <- string_app_assoc. reflexivity. }
  apply str_drop_app.
Qed.

(** The value of the digits [pretty_N_go] prepends. *)
Lemma pretty_N_go_value (x : N) (s : string) (acc : Z) :
  exists k : nat,
    digits_value (pretty_N_go x s) acc = digits_value s (acc * 10 ^ Z.of_nat k + Z.of_N x).
Proof.
  revert s acc. induction (N.lt_wf_0 x) as [x _ IH]; intros s acc.
  destruct (decide (x = 0%N)) as [->|Hx].
  - exists 0%nat. rewrite pretty_N_go_0. cbn. f_equal. lia.
  - rewrite pretty_N_go_step by lia.
    destruct (IH (x / 10)%N ltac:(apply N.div_lt; lia)
                (String (pretty_N_char (x mod 10)) s) acc) as [k Hk].
    rewrite Hk. cbn [digits_value].
    assert (Hd : digit_value (pretty_N_char (x mod 10)) = Some (Z.of_N (x mod 10))).
    { assert (x mod 10 < 10)%N as Hlt by (apply N.mod_lt; lia).
      destruct (x mod 10)%N as [|p]; [reflexivity|].
      do 4 (destruct p as [p|p|]; try (exfalso; lia); try reflexivity). }
    rewrite Hd. exists (S k). f_equal.
    rewrite Nat2Z.inj_succ, Z.pow_succ_r by lia.
    pose proof (N.div_mod x 10 ltac:(lia)) as Hdm.
    apply (f_equal Z.of_N) in Hdm. rewrite N2Z.inj_add, N2Z.inj_mul in Hdm.
    cbn [Z.of_N] in Hdm. nia.
Qed.

Lemma digits_value_no_slash (s : string) (acc v : Z) :
  digits_value s acc = Some v -> no_slash_newline s = true.
Proof.
  revert acc. induction s as [|c s IH]; intros acc H; [reflexivity|].
  cbn in H. destruct (digit_value c) as [d|] eqn:Hc; [|discriminate].
  cbn. destruct (decide (c = "010"%char)) as [->|Hn]; [discriminate|].
  destruct (decide (c = "/"%char)) as [->|Hs]; [discriminate|].
  rewrite !bool_decide_false by assumption. exact (IH _ H).
Qed.

Lemma pretty_N_go_digits (x : N) :
  x <> 0%N -> pretty_N_go x "" <> "" /\ digits_value (pretty_N_go x "") 0 = Some (Z.of_N x).
Proof.
  intros Hx. destruct (pretty_N_go_value x "" 0) as [k Hk].
  split.
  - intros He. rewrite He in Hk. cbn in Hk. injection Hk as Hk. lia.
  - rewrite Hk. cbn [digits_value]. f_equal; lia.
Qed.

Lemma digit_value_range (c : Ascii.ascii) (d : Z) : digit_value c = Some d -> 0 <= d <= 9.
Proof.
  unfold digit_value. destruct ((48 <=? _) && (_ <=? 57)) eqn:Hb; [|discriminate].
  apply andb_prop in Hb as [H1 H2]. apply Z.leb_le in H1, H2. intros H; injection H as <-. lia.
Qed.

(** [ParseInt] of a non-empty run of digits whose value is in range. *)
Lemma ParseInt_digits (s : string) (v : Z) :
  s <> "" -> digits_value s 0 = Some v -> v < 2 ^ 63 -> ParseInt s = Ok v.
Proof.
  intros Hne Hd Hv. destruct s as [|c rest]; [contradiction|].
  assert (0 <= v).
  { assert (Hpos : forall t a w, 0 <= a -> digits_value t a = Some w -> 0 <= w).
    { induction t as [|c' t IHt]; intros a w Ha Ht; cbn in Ht; [injection Ht; lia|].
      destruct (digit_value c') as [d'|] eqn:Hc'; [|discriminate].
      apply digit_value_range in Hc'. eapply IHt; [|exact Ht]; lia. }
    eapply Hpos; [|exact Hd]; lia. }
  destruct c as [[] [] [] [] [] [] [] []];
    try (cbn in Hd; discriminate);
    unfold ParseInt, parse_unsigned; cbv beta iota zeta; rewrite Hd;
    rewrite (proj2 (Z.leb_le _ _)), (proj2 (Z.ltb_lt _ _)) by lia; reflexivity.
Qed.

(** the account URL [NewRegistration] hands out ([RegBase] followed by
    the decimal id, [fmt.Sprintf("%s%d", ...)]) is read back by
    [parseIDFromPath] and [strconv.ParseInt] as the same id, for every
    int64 id and every newline-free base ending in ['/']. *)
Theorem account_url_round_trip (pre : string) (id : Z) :
  no_newline pre = true -> - 2 ^ 63 <= id < 2 ^ 63 ->
  ParseInt (parseIDFromPath (pre +:+ "/" +:+ pretty id)) = Ok id.
Proof.
  intros Hpre Hid. change ("/" +:+ pretty id) with (String "/" (pretty id)).
  destruct id as [|p|p].
  - rewrite parseIDFromPath_last by (exact Hpre || reflexivity). reflexivity.
  - assert (E : pretty (Zpos p) = pretty_N_go (Npos p) "") by reflexivity.
    destruct (pretty_N_go_digits (Npos p) ltac:(discriminate)) as [Hne Hd].
    rewrite E, parseIDFromPath_last by (exact Hpre || exact (digits_value_no_slash _ _ _ Hd)).
    apply ParseInt_digits; [exact Hne|exact Hd|lia].
  - assert (E : pretty (Zneg p) = String "-" (pretty_N_go (Npos p) "")) by reflexivity.
    destruct (pretty_N_go_digits (Npos p) ltac:(discriminate)) as [Hne Hd].
    rewrite E, parseIDFromPath_last
      by (exact Hpre || (cbn [no_slash_newline]; rewrite (digits_value_no_slash _ _ _ Hd); reflexivity)).
    destruct (pretty_N_go (Npos p) "") as [|c rest] eqn:Ep; [contradiction|].
    unfold ParseInt, parse_unsigned; cbv beta iota zeta. rewrite Hd.
    cbn [Z.of_N].
    rewrite (proj2 (Z.leb_le _ _)), (proj2 (Z.ltb_lt _ _)) by lia. reflexivity.
Qed.

Lemma account_url_round_trip_witness :
  no_newline "http://localhost:4000/acme/reg" = true /\ - 2 ^ 63 <= 42 < 2 ^ 63 /\
  ParseInt (parseIDFromPath ("http://localhost:4000/acme/reg" +:+ "/" +:+ pretty 42)) = Ok 42.
Proof.
  split; [reflexivity|]. split; [lia|].
  apply account_url_round_trip; [reflexivity|lia].
Defined.

(** ** Method gates, account and authorization creation, and the other handlers *)

(** A refused request method: 405, the [Allow] header naming the accepted
    methods, no RA call, no nonce consumed, no panic. *)
Definition method_refused (st st' : St) (allow : string) : Prop :=
  st_code st' = Some StatusMethodNotAllowed /\ ("Allow", allow) ∈ st_header st' /\
  st_calls st' = st_calls st /\ st_nonces st' = (ns_Nonce (st_nonces st)).2 /\
  st_panic st' = st_panic st.

Lemma sendStandardHeaders_nonces (st : St) :
  st_nonces (sendStandardHeaders st).2 = (ns_Nonce (st_nonces st)).2 /\
  st_panic (sendStandardHeaders st).2 = st_panic st.
Proof.
  unfold sendStandardHeaders, nonce_issue, header_Set, modify. unfold_M.
  destruct (ns_Nonce (st_nonces st)). split; reflexivity.
Qed.

Lemma gate_refused (ms : list string) (d : string) (st st0 st1 : St) (u u1 : unit) :
  st_code st = None -> sendStandardHeaders st = (u, st0) -> sendAllow ms st0 = (u1, st1) ->
  method_refused st (sendError d StatusMethodNotAllowed st1).2 (String.concat ", " ms).
Proof.
  intros Hc Hs Ha.
  destruct (sendAllow_sendError_state ms d StatusMethodNotAllowed st0) as (Hn & Hk & Hp & Hcode & Hal).
  rewrite Ha in Hn, Hk, Hp, Hcode, Hal.
  destruct (sendStandardHeaders_frame st) as (Hc0 & Hk0 & _). rewrite Hs in Hc0, Hk0. cbn in Hc0, Hk0.
  destruct (sendStandardHeaders_nonces st) as [Hn0 Hp0]. rewrite Hs in Hn0, Hp0. cbn [snd] in Hn0, Hp0.
  split; [rewrite Hcode, Hk0, Hc; reflexivity|].
  split; [exact Hal|]. split; [congruence|].
  split; congruence.
Qed.

Ltac gate_tac Hm :=
  match goal with
  | |- context [sendStandardHeaders ?st] =>
      let u := fresh "u" in let st0 := fresh "st0" in let Hs := fresh "Hs" in
      destruct (sendStandardHeaders st) as [u st0] eqn:Hs
  end;
  simpl_h; rewrite Hm; simpl_h;
  match goal with
  | |- context [sendAllow ?ms ?s0] =>
      let u1 := fresh "u" in let st1 := fresh "st1" in let Ha := fresh "Ha" in
      destruct (sendAllow ms s0) as [u1 st1] eqn:Ha
  end;
  cbn beta iota.

(** The POST-only handlers [Registration], [NewCertificate],
    [RevokeCertificate], [NewRegistration] and [NewAuthorization] answer
    any other method with 405 Method Not Allowed and [Allow: POST], before
    reading the body: no call reaches the Authority, the nonce store only
    gains the fresh nonce of the standard headers, and nothing panics. *)
Theorem post_only_method_gate (wfe : WebFrontEndImpl) (ext : FrontEndExt) (req : Request) (st : St) :
  req_Method req <> "POST" -> st_code st = None ->
  method_refused st (RegistrationHandler wfe req st).2 "POST" /\
  method_refused st (NewCertificate wfe req st).2 "POST" /\
  method_refused st (RevokeCertificate wfe req st).2 "POST" /\
  (NewRegistration wfe ext req st).1 = [] /\
  method_refused st (NewRegistration wfe ext req st).2 "POST" /\
  (NewAuthorization wfe ext req st).1 = [] /\
  method_refused st (NewAuthorization wfe ext req st).2 "POST".
Proof.
  intros Hm Hc. apply String.eqb_neq in Hm.
  refine (conj _ (conj _ (conj _ (conj _ (conj _ (conj _ _)))))).
  - unfold RegistrationHandler; unfold_M. gate_tac Hm. exact (gate_refused ["POST"] _ _ _ _ _ _ Hc Hs Ha).
  - unfold NewCertificate; unfold_M. gate_tac Hm. exact (gate_refused ["POST"] _ _ _ _ _ _ Hc Hs Ha).
  - unfold RevokeCertificate; unfold_M. gate_tac Hm. exact (gate_refused ["POST"] _ _ _ _ _ _ Hc Hs Ha).
  - unfold NewRegistration; unfold_M. gate_tac Hm. destruct (sendError _ _ _); reflexivity.
  - unfold NewRegistration; unfold_M. gate_tac Hm.
    destruct (sendError _ _ st1) as [u2 st2] eqn:He. cbn.
    replace st2 with (sendError "Method not allowed" StatusMethodNotAllowed st1).2 by (rewrite He; reflexivity).
    exact (gate_refused ["POST"] _ _ _ _ _ _ Hc Hs Ha).
  - unfold NewAuthorization; unfold_M. gate_tac Hm. destruct (sendError _ _ _); reflexivity.
  - unfold NewAuthorization; unfold_M. gate_tac Hm.
    destruct (sendError _ _ st1) as [u2 st2] eqn:He. cbn.
    replace st2 with (sendError "Method not allowed" StatusMethodNotAllowed st1).2 by (rewrite He; reflexivity).
    exact (gate_refused ["POST"] _ _ _ _ _ _ Hc Hs Ha).
Qed.

Ltac simpl_x :=
  cbn -[sendError sendAllow sendVerifyError WriteHeader Write verifyPOST
        sendStandardHeaders replyChallenge challenge parseIDFromPath].

(** [challenge], [Certificate] and [Authorization] answer a method other
    than GET and POST with 405 and [Allow: GET, POST], with no Authority
    call, no nonce redeemed and no panic. *)
Theorem get_post_method_gate (wfe : WebFrontEndImpl) (ext : FrontEndExt) (authz : Authorization)
    (req : Request) (st : St) :
  req_Method req <> "GET" -> req_Method req <> "POST" -> st_code st = None ->
  method_refused st (challenge wfe authz req st).2 "GET, POST" /\
  method_refused st (CertificateHandler wfe req st).2 "GET, POST" /\
  method_refused st (AuthorizationHandler wfe ext req st).2 "GET, POST".
Proof.
  intros Hg Hp Hc. apply String.eqb_neq in Hg, Hp.
  refine (conj _ (conj _ _)).
  - unfold challenge; unfold_M.
    destruct (sendStandardHeaders st) as [u st0] eqn:Hs. simpl_x. rewrite Hg, Hp. simpl_x.
    destruct (sendAllow ["GET"; "POST"] st0) as [u1 st1] eqn:Ha.
    exact (gate_refused ["GET"; "POST"] _ _ _ _ _ _ Hc Hs Ha).
  - unfold CertificateHandler; unfold_M.
    destruct (sendStandardHeaders st) as [u st0] eqn:Hs. simpl_x. rewrite Hg, Hp. simpl_x.
    destruct (sendAllow ["GET"; "POST"] st0) as [u1 st1] eqn:Ha.
    exact (gate_refused ["GET"; "POST"] _ _ _ _ _ _ Hc Hs Ha).
  - unfold AuthorizationHandler; unfold_M.
    destruct (sendStandardHeaders st) as [u st0] eqn:Hs. simpl_x. rewrite Hg, Hp. simpl_x.
    destruct (sendAllow ["GET"; "POST"] st0) as [u1 st1] eqn:Ha.
    exact (gate_refused ["GET"; "POST"] _ _ _ _ _ _ Hc Hs Ha).
Qed.

(** [Authorization] on GET or POST: an authorization the storage
    authority does not find gives 404 with no Authority call; a found one
    with a non-empty query string is handed to [challenge] unchanged; a
    found one asked for by POST without a query string gives 405. *)
Theorem AuthorizationHandler_lookup (wfe : WebFrontEndImpl) (ext : FrontEndExt) (req : Request)
    (st : St) :
  (req_Method req = "GET" \/ req_Method req = "POST") -> st_code st = None ->
  let st' := (AuthorizationHandler wfe ext req st).2 in
  (forall e, GetAuthorization (SA wfe) (parseIDFromPath (req_Path req)) = Err e ->
   st_code st' = Some StatusNotFound /\ st_calls st' = st_calls st /\
   st_nonces st' = (ns_Nonce (st_nonces st)).2) /\
  (forall authz, GetAuthorization (SA wfe) (parseIDFromPath (req_Path req)) = Ok authz ->
   req_RawQuery req <> "" ->
   (AuthorizationHandler wfe ext req st) = challenge wfe authz req (sendStandardHeaders st).2) /\
  (forall authz, GetAuthorization (SA wfe) (parseIDFromPath (req_Path req)) = Ok authz ->
   req_Method req = "POST" -> req_RawQuery req = "" -> method_refused st st' "GET, POST").
Proof.
  intros Hm Hc. cbv zeta.
  assert (Hgate : negb (String.eqb (req_Method req) "GET") && negb (String.eqb (req_Method req) "POST") = false)
    by (destruct Hm as [-> | ->]; reflexivity).
  destruct (sendStandardHeaders_frame st) as (Hc0 & Hk0 & _).
  destruct (sendStandardHeaders_nonces st) as [Hn0 Hp0].
  refine (conj _ (conj _ _)).
  - intros e He. unfold AuthorizationHandler; unfold_M.
    destruct (sendStandardHeaders st) as [u st0] eqn:Hs. cbn in Hc0, Hk0, Hn0. simpl_x.
    rewrite Hgate. simpl_x. rewrite He. simpl_x.
    rewrite !sendError_state. cbn. rewrite Hk0, Hc. auto.
  - intros authz Ha Hq. apply String.eqb_neq in Hq. unfold AuthorizationHandler; unfold_M.
    destruct (sendStandardHeaders st) as [u st0] eqn:Hs. simpl_x.
    rewrite Hgate. simpl_x. rewrite Ha. simpl_x. rewrite Hq. reflexivity.
  - intros authz Ha Hp Hq. unfold AuthorizationHandler; unfold_M.
    destruct (sendStandardHeaders st) as [u st0] eqn:Hs. simpl_x.
    rewrite Hgate. simpl_x. rewrite Ha. simpl_x. rewrite Hq, Hp. simpl_x.
    destruct (sendAllow ["GET"; "POST"] st0) as [u1 st1] eqn:Hal.
    exact (gate_refused ["GET"; "POST"] _ _ _ _ _ _ Hc Hs Hal).
Qed.

Lemma hdr_filter_keep (k v k' : string) (h : list (string * string)) :
  k <> k' -> (k, v) ∈ h -> (k, v) ∈ filter (fun kv => kv.1 <> k') h.
Proof. intros Hk Hin. apply list_elem_of_filter. split; [exact Hk|exact Hin]. Qed.

Lemma hdr_last (kv : string * string) (h : list (string * string)) : kv ∈ h ++ [kv].
Proof. apply elem_of_app. right. apply list_elem_of_singleton. reflexivity. Qed.

Lemma hdr_app_l (kv : string * string) (h h' : list (string * string)) : kv ∈ h -> kv ∈ h ++ h'.
Proof. intros H. apply elem_of_app. left. exact H. Qed.

(** [Authorization] on a GET without query for a stored authorization
    answers 200 with the JSON of the authorization whose ID and account are
    blanked, a [next] link to the new-certificate URL and a JSON content
    type, without calling the Authority. *)
Theorem AuthorizationHandler_get (wfe : WebFrontEndImpl) (ext : FrontEndExt) (req : Request)
    (st : St) (authz : Authorization) (json : string) :
  req_Method req = "GET" -> req_RawQuery req = "" -> st_code st = None ->
  GetAuthorization (SA wfe) (parseIDFromPath (req_Path req)) = Ok authz ->
  MarshalAuthorization ext
    {| authz_ID := ""; authz_Identifier := authz_Identifier authz; authz_RegistrationID := 0;
       authz_Status := authz_Status authz; authz_Challenges := authz_Challenges authz |} = Ok json ->
  let st' := (AuthorizationHandler wfe ext req st).2 in
  st_code st' = Some StatusOK /\ st_body st' = st_body st ++ [Bytes json] /\
  ("Link", link (NewCert ext) "next") ∈ st_header st' /\
  ("Content-Type", "application/json") ∈ st_header st' /\
  st_calls st' = st_calls st /\ st_nonces st' = (ns_Nonce (st_nonces st)).2.
Proof.
  intros Hm Hq Hc Ha Hj. cbv zeta.
  destruct (sendStandardHeaders_frame st) as (Hc0 & Hk0 & Hb0).
  destruct (sendStandardHeaders_nonces st) as [Hn0 Hp0].
  unfold AuthorizationHandler; unfold_M.
  destruct (sendStandardHeaders st) as [u st0] eqn:Hs. cbn in Hc0, Hk0, Hb0, Hn0. simpl_x.
  rewrite Hm. simpl_x. rewrite Ha. simpl_x. rewrite Hq. simpl_x. rewrite (Hj : MarshalAuthorization ext (blank_authz authz) = Ok json).
  unfold header_Add, header_Set, Write, WriteHeader, modify. unfold_M.
  destruct st0 as [ns h k b cs a p]. cbn in *. rewrite Hc in Hk0. subst k. cbn.
  repeat split; try congruence.
  - apply hdr_app_l, hdr_filter_keep; [discriminate|apply hdr_last].
  - apply hdr_last.
Qed.

Lemma fst_let_pair {A : Type} (e : A * St) (l : list RACallExt) :
  (let '(_, s) := e in (l, s)).1 = l.
Proof. destruct e; reflexivity. Qed.

Ltac no_call_tac :=
  match goal with
  | |- context [(let '(_, s) := ?e in (?l, s)).1] => rewrite (fst_let_pair e l)
  end.

(** [NewRegistration] asks the Authority for an account at most once, and
    only for a POST whose body is signed by a key with no account yet and
    whose agreement field is empty or the current agreement URL; the
    account it asks for carries the signing key. *)
Theorem NewRegistration_calls (wfe : WebFrontEndImpl) (ext : FrontEndExt) (req : Request) (st : St) :
  (NewRegistration wfe ext req st).1 = [] \/
  exists raw hdr payload key init,
    req_Method req = "POST" /\ req_Body req = BodyBytes raw /\ signed_by wfe raw key payload hdr /\
    (exists e, GetRegistrationByKey (SA wfe) key = Err e) /\
    UnmarshalRegistration (lib wfe) payload = Ok init /\
    (reg_Agreement init = "" \/ reg_Agreement init = SubscriberAgreementURL wfe) /\
    (NewRegistration wfe ext req st).1 =
      [CallNewRegistration {| reg_ID := reg_ID init; reg_Key := key;
                              reg_Contact := reg_Contact init; reg_Agreement := reg_Agreement init |}].
Proof.
  destruct (String.eqb (req_Method req) "POST") eqn:Hm.
  2:{ left. unfold NewRegistration; unfold_M.
      destruct (sendStandardHeaders st) as [u st0] eqn:Hs. simpl_x. rewrite Hm. simpl_x.
      destruct (sendAllow _ _). no_call_tac. reflexivity. }
  apply String.eqb_eq in Hm.
  destruct (verifyPOST wfe req false (sendStandardHeaders st).2)
    as [[[[payload key] r0]|e] st1] eqn:Hv;
  unfold NewRegistration; unfold_M;
  destruct (sendStandardHeaders st) as [u st0] eqn:Hs; cbn in Hv; simpl_x;
  rewrite Hm; simpl_x; rewrite Hv; simpl_x.
  2:{ left. no_call_tac. reflexivity. }
  destruct (GetRegistrationByKey (SA wfe) key) as [r|e] eqn:Hg; simpl_x;
    [left; no_call_tac; reflexivity|].
  destruct (UnmarshalRegistration (lib wfe) payload) as [init|e'] eqn:Hu; simpl_x;
    [|left; no_call_tac; reflexivity].
  destruct (String.eqb_spec (reg_Agreement init) "") as [He|He];
    destruct (String.eqb_spec (reg_Agreement init) (SubscriberAgreementURL wfe)) as [Ha|Ha];
    simpl_x; try (left; no_call_tac; reflexivity).
  all: right; destruct (verifyPOST_Ok_inv _ _ _ _ _ _ _ _ Hv) as (raw & hdr & Hb & Hsig & _);
    exists raw, hdr, payload, key, init; repeat split; eauto; no_call_tac; reflexivity.
Qed.

Lemma snd_let_pair {A : Type} (e : A * St) (l : list RACallExt) :
  (let '(_, s) := e in (l, s)).2 = e.2.
Proof. destruct e; reflexivity. Qed.

Lemma statusCodeFromError_error (e : error) : 400 <= statusCodeFromError e.
Proof. destruct e; cbv; discriminate. Qed.

(** A [sendError] on a response with no status yet cannot produce a 2xx. *)
Ltac refute_code H :=
  rewrite ?snd_let_pair, sendError_state in H; cbn [st_code] in H;
  match type of H with
  | context [match ?k with None => _ | Some _ => _ end] =>
      let Hk := fresh in assert (Hk : k = None) by congruence; rewrite Hk in H
  end;
  injection H as H;
  first [ discriminate H
        | revert H; cbv; discriminate
        | match type of H with statusCodeFromError ?e = _ =>
            pose proof (statusCodeFromError_error e);
            unfold StatusOK, StatusCreated, StatusAccepted in H; lia end ].

(** [NewRegistration] refuses a verified POST whose signing key already
    has an account with 409 Conflict, without calling the Authority. *)
Theorem NewRegistration_key_in_use (wfe : WebFrontEndImpl) (ext : FrontEndExt) (req : Request)
    (st : St) (payload : string) (key : Key) (r0 reg : Registration) (st1 : St) :
  req_Method req = "POST" -> st_code st = None ->
  verifyPOST wfe req false (sendStandardHeaders st).2 = (Ok (payload, key, r0), st1) ->
  GetRegistrationByKey (SA wfe) key = Ok reg ->
  (NewRegistration wfe ext req st).1 = [] /\
  st_code (NewRegistration wfe ext req st).2 = Some StatusConflict /\
  st_calls (NewRegistration wfe ext req st).2 = st_calls st.
Proof.
  intros Hm Hc Hv Hg. apply String.eqb_eq in Hm.
  destruct (sendStandardHeaders_frame st) as (Hc0 & Hk0 & _).
  destruct (verifyPOST_calls_code _ _ _ _ _ _ Hv) as [Hc1 Hk1].
  unfold NewRegistration; unfold_M.
  destruct (sendStandardHeaders st) as [u st0] eqn:Hs. cbn in Hv, Hc0, Hk0, Hc1, Hk1. simpl_x.
  rewrite Hm. simpl_x. rewrite Hv. simpl_x. rewrite Hg. simpl_x.
  rewrite fst_let_pair, snd_let_pair, sendError_state. cbn.
  rewrite Hk1, Hk0, Hc. split; [reflexivity|]. split; [reflexivity|]. congruence.
Qed.

(** A 201 from [NewRegistration] comes from the single Authority call
    succeeding and the account marshalling: the JSON is the body, the
    [Location] is the account base URL followed by the decimal account ID,
    and the headers link to the new-authorization URL and, if there is one,
    to the subscriber agreement. *)
Theorem NewRegistration_created (wfe : WebFrontEndImpl) (ext : FrontEndExt) (req : Request)
    (st : St) :
  st_code st = None ->
  st_code (NewRegistration wfe ext req st).2 = Some StatusCreated ->
  let st' := (NewRegistration wfe ext req st).2 in
  exists init reg json,
    (NewRegistration wfe ext req st).1 = [CallNewRegistration init] /\
    RA_NewRegistration ext init = Ok reg /\ MarshalRegistration (lib wfe) reg = Ok json /\
    st_body st' = st_body st ++ [Bytes json] /\
    ("Location", RegBase ext +:+ pretty (reg_ID reg)) ∈ st_header st' /\
    ("Content-Type", "application/json") ∈ st_header st' /\
    ("Link", link (NewAuthz ext) "next") ∈ st_header st' /\
    (SubscriberAgreementURL wfe <> "" ->
     ("Link", link (SubscriberAgreementURL wfe) "terms-of-service") ∈ st_header st').
Proof.
  intros Hc H201. cbv zeta. revert H201.
  destruct (sendStandardHeaders_frame st) as (Hc0 & Hk0 & Hb0).
  destruct (String.eqb (req_Method req) "POST") eqn:Hm.
  2:{ unfold NewRegistration; unfold_M.
      destruct (sendStandardHeaders st) as [u st0] eqn:Hs. cbn in Hk0. simpl_x. rewrite Hm. simpl_x.
      destruct (sendAllow _ _) as [u1 st1] eqn:Ha. intros H.
      destruct (sendAllow_sendError_state ["POST"] "Method not allowed" StatusMethodNotAllowed st0)
        as (_ & _ & _ & Hk & _).
      rewrite Ha in Hk. rewrite snd_let_pair, Hk, Hk0, Hc in H. discriminate. }
  destruct (verifyPOST wfe req false (sendStandardHeaders st).2)
    as [[[[payload key] r0]|e] st1] eqn:Hv;
  destruct (verifyPOST_calls_code _ _ _ _ _ _ Hv) as [Hc1 Hk1];
  pose proof (verifyPOST_body _ _ _ _ _ _ Hv) as Hb1;
  unfold NewRegistration; unfold_M;
  destruct (sendStandardHeaders st) as [u st0] eqn:Hs; cbn in Hv, Hc0, Hk0, Hb0, Hc1, Hk1, Hb1; simpl_x;
  rewrite Hm; simpl_x; rewrite Hv; simpl_x.
  2:{ intros H. refute_code H. }
  destruct (GetRegistrationByKey (SA wfe) key) as [r|e] eqn:Hg; simpl_x; [intros H; refute_code H|].
  destruct (UnmarshalRegistration (lib wfe) payload) as [init|e'] eqn:Hu; simpl_x;
    [|intros H; refute_code H].
  destruct (negb (String.eqb (reg_Agreement init) "")
            && negb (String.eqb (reg_Agreement init) (SubscriberAgreementURL wfe)));
    simpl_x; [intros H; refute_code H|].
  set (init' := {| reg_ID := reg_ID init; reg_Key := key; reg_Contact := reg_Contact init;
                   reg_Agreement := reg_Agreement init |}).
  destruct (RA_NewRegistration ext init') as [reg|e2] eqn:Hra; simpl_x; [|intros H; refute_code H].
  destruct (MarshalRegistration (lib wfe) reg) as [json|e3] eqn:Hj; simpl_x; [|intros H; refute_code H].
  intros _. exists init', reg, json.
  rewrite fst_let_pair, snd_let_pair.
  unfold header_Add, header_Set, Write, WriteHeader, modify. unfold_M.
  destruct st1 as [ns h k b cs a p]. cbn in *. rewrite Hk0, Hc in Hk1. subst k b.
  destruct (String.eqb_spec (SubscriberAgreementURL wfe) "") as [Hsa|Hsa]; cbn.
  - split; [reflexivity|]. split; [exact Hra|]. split; [exact Hj|].
    split; [rewrite Hb0; reflexivity|].
    split; [apply hdr_app_l, hdr_app_l, hdr_filter_keep; [discriminate|apply hdr_last]|].
    split; [apply hdr_app_l, hdr_last|]. split; [apply hdr_last|]. intros; contradiction.
  - split; [reflexivity|]. split; [exact Hra|]. split; [exact Hj|].
    split; [rewrite Hb0; reflexivity|].
    split; [apply hdr_app_l, hdr_app_l, hdr_app_l, hdr_filter_keep; [discriminate|apply hdr_last]|].
    split; [apply hdr_app_l, hdr_app_l, hdr_last|]. split; [apply hdr_app_l, hdr_last|].
    intros _. apply hdr_last.
Qed.

(** [NewAuthorization] asks the Authority for an authorization at most
    once, only for a POST signed by the key of an account that has agreed to
    the subscriber agreement, and for that account's ID. *)
Theorem NewAuthorization_calls (wfe : WebFrontEndImpl) (ext : FrontEndExt) (req : Request) (st : St) :
  (NewAuthorization wfe ext req st).1 = [] \/
  exists raw hdr payload key currReg init,
    req_Method req = "POST" /\ req_Body req = BodyBytes raw /\ signed_by wfe raw key payload hdr /\
    GetRegistrationByKey (SA wfe) key = Ok currReg /\ reg_Agreement currReg <> "" /\
    UnmarshalAuthorization ext payload = Ok init /\
    (NewAuthorization wfe ext req st).1 = [CallNewAuthorization init (reg_ID currReg)].
Proof.
  destruct (String.eqb (req_Method req) "POST") eqn:Hm.
  2:{ left. unfold NewAuthorization; unfold_M.
      destruct (sendStandardHeaders st) as [u st0] eqn:Hs. simpl_x. rewrite Hm. simpl_x.
      destruct (sendAllow _ _). no_call_tac. reflexivity. }
  apply String.eqb_eq in Hm.
  destruct (verifyPOST wfe req true (sendStandardHeaders st).2)
    as [[[[payload key] currReg]|e] st1] eqn:Hv;
  unfold NewAuthorization; unfold_M;
  destruct (sendStandardHeaders st) as [u st0] eqn:Hs; cbn in Hv; simpl_x;
  rewrite Hm; simpl_x; rewrite Hv; simpl_x.
  2:{ left. no_call_tac. reflexivity. }
  destruct (String.eqb_spec (reg_Agreement currReg) "") as [Ha|Ha]; simpl_x;
    [left; no_call_tac; reflexivity|].
  destruct (UnmarshalAuthorization ext payload) as [init|e'] eqn:Hu; simpl_x;
    [|left; no_call_tac; reflexivity].
  right. destruct (verifyPOST_Ok_inv _ _ _ _ _ _ _ _ Hv) as (raw & hdr & Hb & Hsig & _ & _ & _ & Hreg).
  destruct Hreg as [Hreg|(Hf & _)]; [|discriminate].
  exists raw, hdr, payload, key, currReg, init. repeat split; auto. no_call_tac. reflexivity.
Qed.

(** A 201 from [NewAuthorization] comes from the Authority call
    succeeding: the body is the JSON of the new authorization with its ID
    and account blanked, the [Location] is the authorization base URL
    followed by its ID, and a [next] link points to the new-certificate
    URL. *)
Theorem NewAuthorization_created (wfe : WebFrontEndImpl) (ext : FrontEndExt) (req : Request)
    (st : St) :
  st_code st = None ->
  st_code (NewAuthorization wfe ext req st).2 = Some StatusCreated ->
  let st' := (NewAuthorization wfe ext req st).2 in
  exists init regID authz json,
    (NewAuthorization wfe ext req st).1 = [CallNewAuthorization init regID] /\
    RA_NewAuthorization ext init regID = Ok authz /\
    MarshalAuthorization ext
      {| authz_ID := ""; authz_Identifier := authz_Identifier authz; authz_RegistrationID := 0;
         authz_Status := authz_Status authz; authz_Challenges := authz_Challenges authz |} = Ok json /\
    st_body st' = st_body st ++ [Bytes json] /\
    ("Location", AuthzBase wfe +:+ authz_ID authz) ∈ st_header st' /\
    ("Link", link (NewCert ext) "next") ∈ st_header st' /\
    ("Content-Type", "application/json") ∈ st_header st'.
Proof.
  intros Hc H201. cbv zeta. revert H201.
  destruct (sendStandardHeaders_frame st) as (Hc0 & Hk0 & Hb0).
  destruct (String.eqb (req_Method req) "POST") eqn:Hm.
  2:{ unfold NewAuthorization; unfold_M.
      destruct (sendStandardHeaders st) as [u st0] eqn:Hs. cbn in Hk0. simpl_x. rewrite Hm. simpl_x.
      destruct (sendAllow _ _) as [u1 st1] eqn:Ha. intros H.
      destruct (sendAllow_sendError_state ["POST"] "Method not allowed" StatusMethodNotAllowed st0)
        as (_ & _ & _ & Hk & _).
      rewrite Ha in Hk. rewrite snd_let_pair, Hk, Hk0, Hc in H. discriminate. }
  destruct (verifyPOST wfe req true (sendStandardHeaders st).2)
    as [[[[payload key] currReg]|e] st1] eqn:Hv;
  destruct (verifyPOST_calls_code _ _ _ _ _ _ Hv) as [Hc1 Hk1];
  pose proof (verifyPOST_body _ _ _ _ _ _ Hv) as Hb1;
  unfold NewAuthorization; unfold_M;
  destruct (sendStandardHeaders st) as [u st0] eqn:Hs; cbn in Hv, Hc0, Hk0, Hb0, Hc1, Hk1, Hb1; simpl_x;
  rewrite Hm; simpl_x; rewrite Hv; simpl_x.
  2:{ intros H. rewrite snd_let_pair in H. unfold sendVerifyError in H.
      destruct (is_ErrNoRows e); refute_code H. }
  destruct (String.eqb (reg_Agreement currReg) ""); simpl_x; [intros H; refute_code H|].
  destruct (UnmarshalAuthorization ext payload) as [init|e'] eqn:Hu; simpl_x;
    [|intros H; refute_code H].
  destruct (RA_NewAuthorization ext init (reg_ID currReg)) as [authz|e2] eqn:Hra; simpl_x;
    [|intros H; refute_code H].
  destruct (MarshalAuthorization ext (blank_authz authz)) as [json|e3] eqn:Hj; simpl_x;
    [|intros H; refute_code H].
  intros _. exists init, (reg_ID currReg), authz, json.
  rewrite fst_let_pair, snd_let_pair.
  unfold header_Add, header_Set, Write, WriteHeader, modify. unfold_M.
  destruct st1 as [ns h k b cs a p]. cbn in *. rewrite Hk0, Hc in Hk1. subst k b.
  split; [reflexivity|]. split; [exact Hra|]. split; [exact Hj|].
  split; [rewrite Hb0; reflexivity|].
  split; [apply hdr_app_l, hdr_filter_keep; [discriminate|apply hdr_app_l, hdr_last]|].
  split; [apply hdr_app_l, hdr_filter_keep; [discriminate|apply hdr_last]|].
  apply hdr_last.
Qed.

Lemma replyChallenge_frame (wfe : WebFrontEndImpl) (authz : Authorization) (ch : Challenge) (s : St) :
  st_nonces (replyChallenge wfe authz ch s).2 = st_nonces s /\
  st_panic (replyChallenge wfe authz ch s).2 = st_panic s.
Proof.
  unfold replyChallenge. destruct (MarshalChallenge (lib wfe) ch) as [json|e].
  - unfold header_Add, header_Set, WriteHeader, Write, modify. unfold_M.
    destruct s as [ns h k b cs a p]. destruct k; split; reflexivity.
  - rewrite sendError_state. split; reflexivity.
Qed.

(** [challenge] on GET never calls the Authority, redeems no nonce and
    never panics; it answers 404 when no challenge of the authorization
    has the request's path and query, and otherwise 202 with the JSON of
    the first matching challenge. *)
Theorem challenge_get (wfe : WebFrontEndImpl) (authz : Authorization) (req : Request) (st : St) :
  req_Method req = "GET" -> st_code st = None ->
  let st' := (challenge wfe authz req st).2 in
  st_calls st' = st_calls st /\ st_panic st' = st_panic st /\
  st_nonces st' = (ns_Nonce (st_nonces st)).2 /\
  (findChallenge (authz_Challenges authz) (req_Path req) (req_RawQuery req) 0 = None ->
   st_code st' = Some StatusNotFound) /\
  (forall idx, findChallenge (authz_Challenges authz) (req_Path req) (req_RawQuery req) 0 = Some idx ->
   exists ch, authz_Challenges authz !! idx = Some ch /\
     chal_URI_Path ch = req_Path req /\ chal_URI_RawQuery ch = req_RawQuery req /\
     forall json, MarshalChallenge (lib wfe) ch = Ok json ->
       st_code st' = Some StatusAccepted /\ st_body st' = st_body st ++ [Bytes json]).
Proof.
  intros Hm Hc. cbv zeta.
  destruct (sendStandardHeaders_frame st) as (Hc0 & Hk0 & Hb0).
  destruct (sendStandardHeaders_nonces st) as [Hn0 Hp0].
  unfold challenge; unfold_M.
  destruct (sendStandardHeaders st) as [u st0] eqn:Hs. cbn in Hc0, Hk0, Hb0, Hn0, Hp0. simpl_x.
  rewrite Hm. simpl_x.
  destruct (findChallenge (authz_Challenges authz) (req_Path req) (req_RawQuery req) 0)
    as [idx|] eqn:Hf; simpl_x.
  - destruct (findChallenge_spec _ _ _ _ _ Hf) as (_ & ch & Hl & Hpath & Hq).
    rewrite Nat.sub_0_r in Hl. rewrite Hl. simpl_x.
    destruct (replyChallenge_effect wfe authz ch st0) as [Hcl Hrest].
    destruct (replyChallenge_frame wfe authz ch st0) as [Hn Hp].
    split; [congruence|]. split; [congruence|]. split; [congruence|].
    split; [discriminate|].
    intros idx' Hidx. injection Hidx as <-. exists ch. split; [exact Hl|].
    split; [exact Hpath|]. split; [exact Hq|].
    intros json Hj. rewrite Hj in Hrest. destruct Hrest as [Hb Hk].
    split; [apply Hk; congruence|congruence].
  - rewrite sendError_state. cbn. rewrite Hk0, Hc.
    split; [congruence|]. split; [congruence|]. split; [congruence|].
    split; [reflexivity|discriminate].
Qed.

(** The only panic of [challenge] is the index out of range of a POST
    whose Authority answer has fewer challenges than the index of the
    challenge that was found. *)
Theorem challenge_panic (wfe : WebFrontEndImpl) (authz : Authorization) (req : Request) (st : St) :
  let st' := (challenge wfe authz req st).2 in
  st_panic st' = st_panic st \/
  exists idx resp upd,
    req_Method req = "POST" /\
    findChallenge (authz_Challenges authz) (req_Path req) (req_RawQuery req) 0 = Some idx /\
    RA_UpdateAuthorization (RA wfe) authz idx resp = Ok upd /\
    (length (authz_Challenges upd) <= idx)%nat /\
    st_panic st' = Some "index out of range".
Proof.
  cbv zeta.
  destruct (sendStandardHeaders_nonces st) as [_ Hp0].
  destruct (String.eqb (req_Method req) "GET") eqn:Hg;
    destruct (String.eqb (req_Method req) "POST") eqn:Hpo.
  1: apply String.eqb_eq in Hg, Hpo; congruence.
  - left. unfold challenge; unfold_M.
    destruct (sendStandardHeaders st) as [u st0] eqn:Hs. cbn in Hp0. simpl_x. rewrite Hg, Hpo. simpl_x.
    destruct (findChallenge (authz_Challenges authz) (req_Path req) (req_RawQuery req) 0)
      as [idx|] eqn:Hf; simpl_x; [|rewrite sendError_state; exact Hp0].
    destruct (findChallenge_spec _ _ _ _ _ Hf) as (_ & ch & Hl & _).
    rewrite Nat.sub_0_r in Hl. rewrite Hl. simpl_x.
    destruct (replyChallenge_frame wfe authz ch st0) as [_ Hp]. congruence.
  - apply String.eqb_eq in Hpo.
    destruct (verifyPOST wfe req true (sendStandardHeaders st).2)
      as [[[[payload key] currReg]|e] st1] eqn:Hv;
    destruct (verifyPOST_frame_calls _ _ _ _ _ _ Hv) as [ns Hst1];
    unfold challenge; unfold_M;
    destruct (sendStandardHeaders st) as [u st0] eqn:Hs; cbn in Hv, Hp0, Hst1; subst st1; simpl_x;
    rewrite Hg; simpl_x; rewrite (proj2 (String.eqb_eq _ _) Hpo); simpl_x.
    all: destruct (findChallenge (authz_Challenges authz) (req_Path req) (req_RawQuery req) 0)
      as [idx|] eqn:Hf; simpl_x; [|left; rewrite sendError_state; exact Hp0].
    all: rewrite Hv; simpl_x.
    2: { left. unfold sendVerifyError. destruct (is_ErrNoRows e); rewrite sendError_state; exact Hp0. }
    destruct (String.eqb (reg_Agreement currReg) ""); simpl_x;
      [left; rewrite sendError_state; exact Hp0|].
    destruct (negb (Z.eqb (reg_ID currReg) (authz_RegistrationID authz))); simpl_x;
      [left; rewrite sendError_state; exact Hp0|].
    destruct (UnmarshalChallenge (lib wfe) payload) as [resp|] eqn:Hu; simpl_x;
      [|left; rewrite sendError_state; exact Hp0].
    destruct (RA_UpdateAuthorization (RA wfe) authz idx resp) as [upd|e'] eqn:Hra; simpl_x;
      [|left; rewrite sendError_state; exact Hp0].
    destruct (authz_Challenges upd !! idx) as [ch|] eqn:Hl; simpl_x.
    + left. match goal with |- context [replyChallenge ?w ?a ?c ?s] =>
                destruct (replyChallenge_frame w a c s) as [_ Hp] end.
      rewrite Hp. destruct st0; exact Hp0.
    + right. exists idx, resp, upd. repeat split; auto.
      apply lookup_ge_None_1 in Hl. exact Hl.
  - left. unfold challenge; unfold_M.
    destruct (sendStandardHeaders st) as [u st0] eqn:Hs. cbn in Hp0. simpl_x. rewrite Hg, Hpo. simpl_x.
    destruct (sendAllow_sendError_state ["GET"; "POST"] "Method not allowed" StatusMethodNotAllowed st0)
      as (_ & _ & Hp & _).
    congruence.
Qed.

(** [NewCertificate] asks the Authority for a certificate at most once, and
    only for a POST signed by the key of an account that has agreed to the
    subscriber agreement, with the account's ID and the request that the
    body decodes to. *)
Theorem NewCertificate_calls (wfe : WebFrontEndImpl) (req : Request) (st : St) :
  let st' := (NewCertificate wfe req st).2 in
  st_calls st' = st_calls st \/
  exists raw hdr payload key reg csr,
    req_Method req = "POST" /\ req_Body req = BodyBytes raw /\ signed_by wfe raw key payload hdr /\
    GetRegistrationByKey (SA wfe) key = Ok reg /\ reg_Agreement reg <> "" /\
    UnmarshalCertificateRequest (lib wfe) payload = Ok csr /\
    st_calls st' = st_calls st ++ [CallNewCertificate csr (reg_ID reg)].
Proof.
  cbv zeta.
  destruct (sendStandardHeaders_frame st) as (Hc0 & _).
  destruct (String.eqb (req_Method req) "POST") eqn:Hm.
  2:{ left. unfold NewCertificate; unfold_M.
      destruct (sendStandardHeaders st) as [u st0] eqn:Hs. cbn in Hc0. simpl_x.
      rewrite Hm. simpl_x. rewrite <- Hc0. apply sendAllow_sendError_effect. }
  apply String.eqb_eq in Hm.
  destruct (verifyPOST wfe req true (sendStandardHeaders st).2)
    as [[[[payload key] reg]|e] st1] eqn:Hv;
  destruct (verifyPOST_calls_code _ _ _ _ _ _ Hv) as [Hc1 _];
  unfold NewCertificate; unfold_M;
  destruct (sendStandardHeaders st) as [u st0] eqn:Hs; cbn in Hc0, Hv, Hc1; simpl_x;
  rewrite Hm; simpl_x; rewrite Hv; simpl_x.
  2:{ left. destruct (sendVerifyError_effect e st1). congruence. }
  destruct (String.eqb_spec (reg_Agreement reg) "") as [Ha|Ha]; simpl_x;
    [left; rewrite sendError_state; cbn; congruence|].
  destruct (UnmarshalCertificateRequest (lib wfe) payload) as [csr|e'] eqn:Hu; simpl_x;
    [|left; rewrite sendError_state; cbn; congruence].
  right. destruct (verifyPOST_Ok_inv _ _ _ _ _ _ _ _ Hv) as (raw & hdr & Hb & Hsig & _ & _ & _ & Hreg).
  destruct Hreg as [Hreg|(Hf & _)]; [|discriminate].
  exists raw, hdr, payload, key, reg, csr. repeat split; auto.
  destruct (RA_NewCertificate (RA wfe) csr (reg_ID reg)) as [cert|e2];
    [destruct (ParseCertificate (lib wfe) (cert_DER cert))|]; simpl_x;
    try (rewrite sendError_state; cbn; congruence).
  match goal with |- st_calls (let '(_, _) := WriteHeader ?c ?s in Write ?ch _).2 = _ =>
    destruct (WriteHeader_Write_effect c ch s) as [Hw _] end.
  cbn zeta in Hw. rewrite Hw. cbn. rewrite Hc1, Hc0. reflexivity.
Qed.

(** A 201 from [NewCertificate] comes from the Authority issuing a
    certificate that parses: its DER is the body, the [Location] is the
    certificate base URL followed by the short serial, an [up] link points
    to the issuer, and the content type is [application/pkix-cert]. *)
Theorem NewCertificate_created (wfe : WebFrontEndImpl) (req : Request) (st : St) :
  st_code st = None ->
  st_code (NewCertificate wfe req st).2 = Some StatusCreated ->
  let st' := (NewCertificate wfe req st).2 in
  exists csr regID cert pc,
    st_calls st' = st_calls st ++ [CallNewCertificate csr regID] /\
    RA_NewCertificate (RA wfe) csr regID = Ok cert /\
    ParseCertificate (lib wfe) (cert_DER cert) = Ok pc /\
    st_body st' = st_body st ++ [Bytes (cert_DER cert)] /\
    ("Location", CertBase wfe +:+ shortSerial (pc_SerialNumber pc)) ∈ st_header st' /\
    ("Link", link (BaseURL wfe +:+ IssuerPath) "up") ∈ st_header st' /\
    ("Content-Type", "application/pkix-cert") ∈ st_header st'.
Proof.
  intros Hc H201. cbv zeta. revert H201.
  destruct (sendStandardHeaders_frame st) as (Hc0 & Hk0 & Hb0).
  destruct (String.eqb (req_Method req) "POST") eqn:Hm.
  2:{ unfold NewCertificate; unfold_M.
      destruct (sendStandardHeaders st) as [u st0] eqn:Hs. cbn in Hk0. simpl_x. rewrite Hm. simpl_x.
      intros H.
      destruct (sendAllow_sendError_state ["POST"] "Method not allowed" StatusMethodNotAllowed st0)
        as (_ & _ & _ & Hk & _).
      rewrite Hk, Hk0, Hc in H. discriminate. }
  destruct (verifyPOST wfe req true (sendStandardHeaders st).2)
    as [[[[payload key] reg]|e] st1] eqn:Hv;
  destruct (verifyPOST_calls_code _ _ _ _ _ _ Hv) as [Hc1 Hk1];
  pose proof (verifyPOST_body _ _ _ _ _ _ Hv) as Hb1;
  unfold NewCertificate; unfold_M;
  destruct (sendStandardHeaders st) as [u st0] eqn:Hs; cbn in Hv, Hc0, Hk0, Hb0, Hc1, Hk1, Hb1; simpl_x;
  rewrite Hm; simpl_x; rewrite Hv; simpl_x.
  2:{ intros H. unfold sendVerifyError in H. destruct (is_ErrNoRows e); refute_code H. }
  destruct (String.eqb (reg_Agreement reg) ""); simpl_x; [intros H; refute_code H|].
  destruct (UnmarshalCertificateRequest (lib wfe) payload) as [csr|e'] eqn:Hu; simpl_x;
    [|intros H; refute_code H].
  destruct (RA_NewCertificate (RA wfe) csr (reg_ID reg)) as [cert|e2] eqn:Hra; simpl_x.
  2:{ intros H. rewrite sendError_state in H. cbn in H. rewrite Hk1, Hk0, Hc in H.
      injection H as H. pose proof (statusCodeFromError_error e2).
      unfold StatusCreated in H. lia. }
  destruct (ParseCertificate (lib wfe) (cert_DER cert)) as [pc|e3] eqn:Hp; simpl_x.
  2:{ intros H. rewrite sendError_state in H. cbn in H. rewrite Hk1, Hk0, Hc in H. discriminate. }
  intros _. exists csr, (reg_ID reg), cert, pc.
  unfold header_Add, header_Set, Write, WriteHeader, modify. unfold_M.
  destruct st1 as [ns h k b cs a p]. cbn in *. rewrite Hk0, Hc in Hk1. subst k b cs.
  split; [rewrite Hc0; reflexivity|]. split; [exact Hra|]. split; [exact Hp|].
  split; [rewrite Hb0; reflexivity|].
  split; [apply hdr_app_l, hdr_filter_keep; [discriminate|apply hdr_app_l, hdr_last]|].
  split; [apply hdr_app_l, hdr_filter_keep; [discriminate|apply hdr_last]|].
  apply hdr_last.
Qed.

Lemma HasPrefix_spec (s pre : string) :
  HasPrefix s pre = true -> s = pre +:+ str_drop (String.length pre) s.
Proof.
  revert s. induction pre as [|c pre IH]; intros s H; [reflexivity|].
  destruct s as [|d s]; cbn in H; [discriminate|].
  apply andb_prop in H as [Hc H]. apply bool_decide_eq_true_1 in Hc. subst d.
  exact (f_equal (String c) (IH s H)).
Qed.

Ltac simpl_c :=
  cbn -[sendError sendAllow WriteHeader Write sendStandardHeaders str_drop HasPrefix
        allHex_Match String.length].

(** A 200 from [Certificate] answers a GET for the certificate path
    followed by 16 hexadecimal characters that the storage authority finds
    by that short serial: the body is the certificate's DER, and nothing is
    asked of the Authority. *)
Theorem CertificateHandler_ok (wfe : WebFrontEndImpl) (req : Request) (st : St) :
  st_code st = None -> st_code (CertificateHandler wfe req st).2 = Some StatusOK ->
  let st' := (CertificateHandler wfe req st).2 in
  exists serial cert,
    req_Method req = "GET" /\ req_Path req = CertPath +:+ serial /\
    String.length serial = 16%nat /\ allHex_Match serial = true /\
    GetCertificateByShortSerial (SA wfe) serial = Ok cert /\
    st_body st' = st_body st ++ [Bytes (cert_DER cert)] /\
    st_calls st' = st_calls st /\ st_nonces st' = (ns_Nonce (st_nonces st)).2.
Proof.
  intros Hc H200. cbv zeta. revert H200.
  destruct (sendStandardHeaders_frame st) as (Hc0 & Hk0 & Hb0).
  destruct (sendStandardHeaders_nonces st) as [Hn0 _].
  unfold CertificateHandler; unfold_M.
  destruct (sendStandardHeaders st) as [u st0] eqn:Hs. cbn in Hc0, Hk0, Hb0, Hn0. simpl_c.
  destruct (String.eqb (req_Method req) "GET") eqn:Hg;
    destruct (String.eqb (req_Method req) "POST") eqn:Hp; simpl_c.
  3:{ intros H. rewrite sendError_state in H. cbn in H. rewrite Hk0, Hc in H. discriminate. }
  3:{ intros H.
      destruct (sendAllow_sendError_state ["GET"; "POST"] "Method not allowed" StatusMethodNotAllowed st0)
        as (_ & _ & _ & Hk & _).
      rewrite Hk, Hk0, Hc in H. discriminate. }
  all: apply String.eqb_eq in Hg.
  all: destruct (HasPrefix (req_Path req) CertPath) eqn:Hpre; simpl_c;
    [|intros H; rewrite sendError_state in H; cbn in H; rewrite Hk0, Hc in H; discriminate].
  all: destruct (negb (Nat.eqb (String.length (str_drop (String.length CertPath) (req_Path req))) 16)
                 || negb (allHex_Match (str_drop (String.length CertPath) (req_Path req)))) eqn:Hx;
    simpl_c; [intros H; rewrite sendError_state in H; cbn in H; rewrite Hk0, Hc in H; discriminate|].
  all: apply orb_false_elim in Hx as [Hl Hh].
  all: apply negb_false_iff in Hl, Hh; apply Nat.eqb_eq in Hl.
  all: destruct (GetCertificateByShortSerial (SA wfe) (str_drop (String.length CertPath) (req_Path req)))
         as [cert|e] eqn:Hget; simpl_c.
  2,4: destruct (HasPrefix (Error e) "gorp: multiple rows returned"); simpl_c; intros H;
       rewrite sendError_state in H; cbn in H; rewrite Hk0, Hc in H; discriminate.
  all: intros _; exists (str_drop (String.length CertPath) (req_Path req)), cert.
  all: split; [exact Hg|]; split; [apply HasPrefix_spec, Hpre|].
  all: split; [exact Hl|]; split; [exact Hh|]; split; [exact Hget|].
  all: unfold header_Add, header_Set, Write, WriteHeader, modify; unfold_M.
  all: destruct st0 as [ns h k b cs a p]; cbn in *; rewrite Hk0, Hc; cbn.
  all: split; [congruence|]; split; congruence.
Qed.

(** A 202 from [Registration] comes from a POST signed by a key whose
    stored account is the one named by the path, and from one Authority
    update of that account, with the account's own key and an agreement
    field that is empty or the current agreement URL; the body is the JSON
    of the updated account. *)
Theorem RegistrationHandler_updated (wfe : WebFrontEndImpl) (req : Request) (st : St) :
  st_code st = None -> st_code (RegistrationHandler wfe req st).2 = Some StatusAccepted ->
  let st' := (RegistrationHandler wfe req st).2 in
  exists raw hdr payload key currReg update upd json,
    req_Method req = "POST" /\ req_Body req = BodyBytes raw /\
    signed_by wfe raw key payload hdr /\ GetRegistrationByKey (SA wfe) key = Ok currReg /\
    ParseInt (parseIDFromPath (req_Path req)) = Ok (reg_ID currReg) /\
    st_calls st' = st_calls st ++ [CallUpdateRegistration currReg update] /\
    reg_Key update = reg_Key currReg /\
    (reg_Agreement update = "" \/ reg_Agreement update = SubscriberAgreementURL wfe) /\
    RA_UpdateRegistration (RA wfe) currReg update = Ok upd /\
    MarshalRegistration (lib wfe) upd = Ok json /\
    st_body st' = st_body st ++ [Bytes json] /\
    ("Content-Type", "application/json") ∈ st_header st'.
Proof.
  intros Hc H202. cbv zeta. revert H202.
  destruct (sendStandardHeaders_frame st) as (Hc0 & Hk0 & Hb0).
  destruct (String.eqb (req_Method req) "POST") eqn:Hm.
  2:{ unfold RegistrationHandler; unfold_M.
      destruct (sendStandardHeaders st) as [u st0] eqn:Hs. cbn in Hk0. simpl_x. rewrite Hm. simpl_x.
      intros H.
      destruct (sendAllow_sendError_state ["POST"] "Method not allowed" StatusMethodNotAllowed st0)
        as (_ & _ & _ & Hk & _).
      rewrite Hk, Hk0, Hc in H. discriminate. }
  destruct (verifyPOST wfe req true (sendStandardHeaders st).2)
    as [[[[payload key] currReg]|e] st1] eqn:Hv;
  destruct (verifyPOST_calls_code _ _ _ _ _ _ Hv) as [Hc1 Hk1];
  pose proof (verifyPOST_body _ _ _ _ _ _ Hv) as Hb1;
  unfold RegistrationHandler; unfold_M;
  destruct (sendStandardHeaders st) as [u st0] eqn:Hs; cbn in Hv, Hc0, Hk0, Hb0, Hc1, Hk1, Hb1; simpl_x;
  rewrite Hm; simpl_x; rewrite Hv; simpl_x.
  2:{ intros H. unfold sendVerifyError in H. destruct (is_ErrNoRows e); refute_code H. }
  destruct (ParseInt (parseIDFromPath (req_Path req))) as [id|] eqn:Hid; simpl_x;
    [|intros H; refute_code H].
  destruct (id <=? 0); simpl_x; [intros H; refute_code H|].
  destruct (Z.eqb id (reg_ID currReg)) eqn:Hidc; simpl_x; [|intros H; refute_code H].
  destruct (UnmarshalRegistration (lib wfe) payload) as [update|] eqn:Hu; simpl_x;
    [|intros H; refute_code H].
  destruct (negb (String.eqb (reg_Agreement update) "")
            && negb (String.eqb (reg_Agreement update) (SubscriberAgreementURL wfe))) eqn:Ha;
    simpl_x; [intros H; refute_code H|].
  set (upd0 := {| reg_ID := reg_ID update; reg_Key := reg_Key currReg;
                  reg_Contact := reg_Contact update; reg_Agreement := reg_Agreement update |}).
  destruct (RA_UpdateRegistration (RA wfe) currReg upd0) as [upd|e2] eqn:Hra; simpl_x.
  2:{ intros H. rewrite sendError_state in H. cbn in H. rewrite Hk1, Hk0, Hc in H.
      injection H as H. pose proof (statusCodeFromError_error e2).
      unfold StatusAccepted in H. lia. }
  destruct (MarshalRegistration (lib wfe) upd) as [json|e3] eqn:Hj; simpl_x.
  2:{ intros H. rewrite sendError_state in H. cbn in H. rewrite Hk1, Hk0, Hc in H. discriminate. }
  intros _. apply Z.eqb_eq in Hidc. subst id.
  destruct (verifyPOST_Ok_inv _ _ _ _ _ _ _ _ Hv) as (raw & hdr & Hb & Hsig & _ & _ & _ & Hreg).
  destruct Hreg as [Hreg|(Hf & _)]; [|discriminate].
  exists raw, hdr, payload, key, currReg, upd0, upd, json.
  split; [apply String.eqb_eq; exact Hm|]. split; [exact Hb|]. split; [exact Hsig|].
  split; [exact Hreg|]. split; [first [exact Hid|reflexivity]|].
  unfold header_Set, Write, WriteHeader, modify. unfold_M.
  destruct st1 as [ns h k b cs a p]. cbn in *. rewrite Hk0, Hc in Hk1. subst k b cs.
  split; [rewrite Hc0; reflexivity|]. split; [reflexivity|].
  split.
  { apply andb_false_iff in Ha as [Ha|Ha]; apply negb_false_iff, String.eqb_eq in Ha; auto. }
  split; [exact Hra|]. split; [exact Hj|].
  split; [rewrite Hb0; reflexivity|]. apply hdr_last.
Qed.

(** A 200 from [RevokeCertificate] comes from one Authority revocation, of
    the parsed certificate that the storage authority holds, that
    returned no error; the response has no body. *)
Theorem RevokeCertificate_ok (wfe : WebFrontEndImpl) (req : Request) (st : St) :
  st_code st = None -> st_code (RevokeCertificate wfe req st).2 = Some StatusOK ->
  let st' := (RevokeCertificate wfe req st).2 in
  exists pc cert serial,
    st_calls st' = st_calls st ++ [CallRevokeCertificate pc] /\
    RA_RevokeCertificate (RA wfe) pc = None /\
    GetCertificate (SA wfe) serial = Ok cert /\
    ParseCertificate (lib wfe) (cert_DER cert) = Ok pc /\
    st_body st' = st_body st.
Proof.
  intros Hc H200. cbv zeta. revert H200.
  destruct (sendStandardHeaders_frame st) as (Hc0 & Hk0 & Hb0).
  destruct (String.eqb (req_Method req) "POST") eqn:Hm.
  2:{ unfold RevokeCertificate; unfold_M.
      destruct (sendStandardHeaders st) as [u st0] eqn:Hs. cbn in Hk0. simpl_x. rewrite Hm. simpl_x.
      intros H.
      destruct (sendAllow_sendError_state ["POST"] "Method not allowed" StatusMethodNotAllowed st0)
        as (_ & _ & _ & Hk & _).
      rewrite Hk, Hk0, Hc in H. discriminate. }
  destruct (verifyPOST wfe req false (sendStandardHeaders st).2)
    as [[[[payload key] reg]|e] st1] eqn:Hv;
  destruct (verifyPOST_calls_code _ _ _ _ _ _ Hv) as [Hc1 Hk1];
  pose proof (verifyPOST_body _ _ _ _ _ _ Hv) as Hb1;
  unfold RevokeCertificate; unfold_M;
  destruct (sendStandardHeaders st) as [u st0] eqn:Hs; cbn in Hv, Hc0, Hk0, Hb0, Hc1, Hk1, Hb1; simpl_x;
  rewrite Hm; simpl_x; rewrite Hv; simpl_x; [|intros H; refute_code H].
  destruct (UnmarshalRevokeRequest (lib wfe) payload) as [der|] eqn:Hu; simpl_x;
    [|intros H; refute_code H].
  destruct (ParseCertificate (lib wfe) der) as [provided|] eqn:Hp; simpl_x;
    [|intros H; refute_code H].
  destruct (GetCertificate (SA wfe) (SerialToString (lib wfe) (pc_SerialNumber provided)))
    as [cert|] eqn:Hg; simpl_x; [|intros H; refute_code H].
  destruct (String.eqb (cert_DER cert) der); simpl_x; [|intros H; refute_code H].
  destruct (ParseCertificate (lib wfe) (cert_DER cert)) as [pc|] eqn:Hp2; simpl_x;
    [|intros H; refute_code H].
  destruct (GetCertificateStatus (SA wfe) (SerialToString (lib wfe) (pc_SerialNumber provided)))
    as [cs|] eqn:Hs2; simpl_x; [|intros H; refute_code H].
  destruct (cs_Status cs); simpl_x; [|intros H; refute_code H].
  destruct (KeyDigestEquals (lib wfe) key (pc_PublicKey pc) || Z.eqb (reg_ID reg) (cert_RegistrationID cert));
    simpl_x; [|intros H; refute_code H].
  destruct (RA_RevokeCertificate (RA wfe) pc) as [e2|] eqn:Hra; simpl_x.
  { intros H. rewrite sendError_state in H. cbn in H. rewrite Hk1, Hk0, Hc in H.
    injection H as H. pose proof (statusCodeFromError_error e2).
    unfold StatusOK in H. lia. }
  intros _. exists pc, cert, (SerialToString (lib wfe) (pc_SerialNumber provided)).
  unfold WriteHeader, modify. unfold_M.
  destruct st1 as [ns h k b cs' a p]. cbn in *. rewrite Hk0, Hc in Hk1. subst k b cs'.
  split; [rewrite Hc0; reflexivity|]. split; [exact Hra|]. split; [exact Hg|].
  split; [exact Hp2|]. rewrite Hb0; reflexivity.
Qed.

(** ** Instances of the handler properties on the concrete front end *)

Lemma post_only_method_gate_witness :
  let w := demo_wfe (demo_sa true 7 OCSPStatusGood) in
  let r := {| req_Method := "PUT"; req_Path := "/acme/reg/7"; req_RawQuery := "";
              req_Body := BodyBytes "k1" |} in
  req_Method r <> "POST" /\ st_code demo_st = None /\
  method_refused demo_st (RegistrationHandler w r demo_st).2 "POST" /\
  method_refused demo_st (NewCertificate w r demo_st).2 "POST" /\
  method_refused demo_st (RevokeCertificate w r demo_st).2 "POST" /\
  (NewRegistration w demo_ext r demo_st).1 = [] /\
  method_refused demo_st (NewRegistration w demo_ext r demo_st).2 "POST" /\
  (NewAuthorization w demo_ext r demo_st).1 = [] /\
  method_refused demo_st (NewAuthorization w demo_ext r demo_st).2 "POST".
Proof.
  cbv zeta. split; [discriminate|]. split; [reflexivity|].
  apply (post_only_method_gate (demo_wfe (demo_sa true 7 OCSPStatusGood)) demo_ext
           {| req_Method := "PUT"; req_Path := "/acme/reg/7"; req_RawQuery := "";
              req_Body := BodyBytes "k1" |} demo_st); [discriminate|reflexivity].
Defined.

Lemma get_post_method_gate_witness :
  let w := demo_wfe demo_sa_authz in
  let r := {| req_Method := "DELETE"; req_Path := "/acme/authz/a1"; req_RawQuery := "";
              req_Body := NoBody |} in
  req_Method r <> "GET" /\ req_Method r <> "POST" /\ st_code demo_st = None /\
  method_refused demo_st (challenge w (demo_authz 7) r demo_st).2 "GET, POST" /\
  method_refused demo_st (CertificateHandler w r demo_st).2 "GET, POST" /\
  method_refused demo_st (AuthorizationHandler w demo_ext r demo_st).2 "GET, POST".
Proof.
  cbv zeta. split; [discriminate|]. split; [discriminate|]. split; [reflexivity|].
  apply (get_post_method_gate (demo_wfe demo_sa_authz) demo_ext (demo_authz 7)
           {| req_Method := "DELETE"; req_Path := "/acme/authz/a1"; req_RawQuery := "";
              req_Body := NoBody |} demo_st); first [discriminate|reflexivity].
Defined.

Lemma AuthorizationHandler_lookup_witness :
  let w := demo_wfe demo_sa_authz in
  let r := {| req_Method := "POST"; req_Path := "/acme/authz/a1"; req_RawQuery := "";
              req_Body := BodyBytes "k1" |} in
  GetAuthorization (SA w) (parseIDFromPath (req_Path r)) = Ok (demo_authz 7) /\
  method_refused demo_st (AuthorizationHandler w demo_ext r demo_st).2 "GET, POST".
Proof.
  cbv zeta. split; [vm_compute; reflexivity|].
  pose proof (AuthorizationHandler_lookup (demo_wfe demo_sa_authz) demo_ext
           {| req_Method := "POST"; req_Path := "/acme/authz/a1"; req_RawQuery := "";
              req_Body := BodyBytes "k1" |} demo_st (or_intror eq_refl) eq_refl) as H.
  cbv zeta in H.
  apply (proj2 (proj2 H) (demo_authz 7)); [vm_compute; reflexivity|reflexivity|reflexivity].
Defined.

Lemma AuthorizationHandler_get_witness :
  let w := demo_wfe demo_sa_authz in
  let st' := (AuthorizationHandler w demo_ext (demo_get "/acme/authz/a1") demo_st).2 in
  st_code st' = Some StatusOK /\ st_body st' = st_body demo_st ++ [Bytes "|example.com"] /\
  ("Link", link (NewCert demo_ext) "next") ∈ st_header st' /\
  ("Content-Type", "application/json") ∈ st_header st' /\
  st_calls st' = st_calls demo_st /\ st_nonces st' = (ns_Nonce (st_nonces demo_st)).2.
Proof.
  exact (AuthorizationHandler_get (demo_wfe demo_sa_authz) demo_ext (demo_get "/acme/authz/a1")
           demo_st (demo_authz 7) "|example.com" eq_refl eq_refl eq_refl
           ltac:(vm_compute; reflexivity) ltac:(vm_compute; reflexivity)).
Defined.

Lemma NewRegistration_key_in_use_witness :
  let w := demo_wfe (demo_sa true 7 OCSPStatusGood) in
  let r := demo_post "/acme/new-reg" "k1" in
  verifyPOST w r false (sendStandardHeaders demo_st).2
    = (Ok ("payload", "k1", demo_reg), (verifyPOST w r false (sendStandardHeaders demo_st).2).2) /\
  (NewRegistration w demo_ext r demo_st).1 = [] /\
  st_code (NewRegistration w demo_ext r demo_st).2 = Some StatusConflict /\
  st_calls (NewRegistration w demo_ext r demo_st).2 = st_calls demo_st.
Proof.
  cbv zeta. split; [vm_compute; reflexivity|].
  exact (NewRegistration_key_in_use (demo_wfe (demo_sa true 7 OCSPStatusGood)) demo_ext
           (demo_post "/acme/new-reg" "k1") demo_st "payload" "k1" demo_reg demo_reg
           (verifyPOST (demo_wfe (demo_sa true 7 OCSPStatusGood)) (demo_post "/acme/new-reg" "k1")
              false (sendStandardHeaders demo_st).2).2
           eq_refl eq_refl ltac:(vm_compute; reflexivity) eq_refl).
Defined.

Lemma NewRegistration_created_witness :
  let w := demo_wfe (demo_sa false 7 OCSPStatusGood) in
  let r := demo_post "/acme/new-reg" "k1" in
  let st' := (NewRegistration w demo_ext r demo_st).2 in
  st_code st' = Some StatusCreated /\
  exists init reg json,
    (NewRegistration w demo_ext r demo_st).1 = [CallNewRegistration init] /\
    RA_NewRegistration demo_ext init = Ok reg /\ MarshalRegistration (lib w) reg = Ok json /\
    st_body st' = st_body demo_st ++ [Bytes json] /\
    ("Location", RegBase demo_ext +:+ pretty (reg_ID reg)) ∈ st_header st' /\
    ("Content-Type", "application/json") ∈ st_header st' /\
    ("Link", link (NewAuthz demo_ext) "next") ∈ st_header st' /\
    (SubscriberAgreementURL w <> "" ->
     ("Link", link (SubscriberAgreementURL w) "terms-of-service") ∈ st_header st').
Proof.
  cbv zeta. split; [vm_compute; reflexivity|].
  exact (NewRegistration_created (demo_wfe (demo_sa false 7 OCSPStatusGood)) demo_ext
           (demo_post "/acme/new-reg" "k1") demo_st eq_refl ltac:(vm_compute; reflexivity)).
Defined.

Lemma NewAuthorization_created_witness :
  let w := demo_wfe (demo_sa true 7 OCSPStatusGood) in
  let r := demo_post "/acme/new-authz" "k1" in
  let st' := (NewAuthorization w demo_ext r demo_st).2 in
  st_code st' = Some StatusCreated /\
  exists init regID authz json,
    (NewAuthorization w demo_ext r demo_st).1 = [CallNewAuthorization init regID] /\
    RA_NewAuthorization demo_ext init regID = Ok authz /\
    MarshalAuthorization demo_ext
      {| authz_ID := ""; authz_Identifier := authz_Identifier authz; authz_RegistrationID := 0;
         authz_Status := authz_Status authz; authz_Challenges := authz_Challenges authz |} = Ok json /\
    st_body st' = st_body demo_st ++ [Bytes json] /\
    ("Location", AuthzBase w +:+ authz_ID authz) ∈ st_header st' /\
    ("Link", link (NewCert demo_ext) "next") ∈ st_header st' /\
    ("Content-Type", "application/json") ∈ st_header st'.
Proof.
  cbv zeta. split; [vm_compute; reflexivity|].
  exact (NewAuthorization_created (demo_wfe (demo_sa true 7 OCSPStatusGood)) demo_ext
           (demo_post "/acme/new-authz" "k1") demo_st eq_refl ltac:(vm_compute; reflexivity)).
Defined.

Lemma challenge_get_witness :
  let w := demo_wfe (demo_sa true 7 OCSPStatusGood) in
  let r := {| req_Method := "GET"; req_Path := "/acme/authz/a1"; req_RawQuery := "challenge=0";
              req_Body := NoBody |} in
  let st' := (challenge w (demo_authz 7) r demo_st).2 in
  findChallenge (authz_Challenges (demo_authz 7)) (req_Path r) (req_RawQuery r) 0 = Some 0%nat /\
  st_calls st' = st_calls demo_st /\ st_panic st' = st_panic demo_st /\
  st_nonces st' = (ns_Nonce (st_nonces demo_st)).2 /\
  (findChallenge (authz_Challenges (demo_authz 7)) (req_Path r) (req_RawQuery r) 0 = None ->
   st_code st' = Some StatusNotFound) /\
  (forall idx, findChallenge (authz_Challenges (demo_authz 7)) (req_Path r) (req_RawQuery r) 0
                 = Some idx ->
   exists ch, authz_Challenges (demo_authz 7) !! idx = Some ch /\
     chal_URI_Path ch = req_Path r /\ chal_URI_RawQuery ch = req_RawQuery r /\
     forall json, MarshalChallenge (lib w) ch = Ok json ->
       st_code st' = Some StatusAccepted /\ st_body st' = st_body demo_st ++ [Bytes json]).
Proof.
  cbv zeta. split; [reflexivity|].
  exact (challenge_get (demo_wfe (demo_sa true 7 OCSPStatusGood)) (demo_authz 7)
           {| req_Method := "GET"; req_Path := "/acme/authz/a1"; req_RawQuery := "challenge=0";
              req_Body := NoBody |} demo_st eq_refl eq_refl).
Defined.

Lemma NewCertificate_created_witness :
  let w := demo_wfe_issuing (demo_sa true 7 OCSPStatusGood) in
  let r := demo_post "/acme/new-cert" "k1" in
  let st' := (NewCertificate w r demo_st).2 in
  st_code st' = Some StatusCreated /\
  exists csr regID cert pc,
    st_calls st' = st_calls demo_st ++ [CallNewCertificate csr regID] /\
    RA_NewCertificate (RA w) csr regID = Ok cert /\
    ParseCertificate (lib w) (cert_DER cert) = Ok pc /\
    st_body st' = st_body demo_st ++ [Bytes (cert_DER cert)] /\
    ("Location", CertBase w +:+ shortSerial (pc_SerialNumber pc)) ∈ st_header st' /\
    ("Link", link (BaseURL w +:+ IssuerPath) "up") ∈ st_header st' /\
    ("Content-Type", "application/pkix-cert") ∈ st_header st'.
Proof.
  cbv zeta. split; [vm_compute; reflexivity|].
  exact (NewCertificate_created (demo_wfe_issuing (demo_sa true 7 OCSPStatusGood))
           (demo_post "/acme/new-cert" "k1") demo_st eq_refl ltac:(vm_compute; reflexivity)).
Defined.

Lemma RegistrationHandler_updated_witness :
  let w := demo_wfe (demo_sa true 7 OCSPStatusGood) in
  let r := demo_post "/acme/reg/7" "k1" in
  let st' := (RegistrationHandler w r demo_st).2 in
  st_code st' = Some StatusAccepted /\
  exists raw hdr payload key currReg update upd json,
    req_Method r = "POST" /\ req_Body r = BodyBytes raw /\
    signed_by w raw key payload hdr /\ GetRegistrationByKey (SA w) key = Ok currReg /\
    ParseInt (parseIDFromPath (req_Path r)) = Ok (reg_ID currReg) /\
    st_calls st' = st_calls demo_st ++ [CallUpdateRegistration currReg update] /\
    reg_Key update = reg_Key currReg /\
    (reg_Agreement update = "" \/ reg_Agreement update = SubscriberAgreementURL w) /\
    RA_UpdateRegistration (RA w) currReg update = Ok upd /\
    MarshalRegistration (lib w) upd = Ok json /\
    st_body st' = st_body demo_st ++ [Bytes json] /\
    ("Content-Type", "application/json") ∈ st_header st'.
Proof.
  cbv zeta. split; [vm_compute; reflexivity|].
  exact (RegistrationHandler_updated (demo_wfe (demo_sa true 7 OCSPStatusGood))
           (demo_post "/acme/reg/7" "k1") demo_st eq_refl ltac:(vm_compute; reflexivity)).
Defined.

Lemma RevokeCertificate_ok_witness :
  let w := demo_wfe (demo_sa true 7 OCSPStatusGood) in
  let r := demo_post "/acme/revoke-cert" "k1" in
  let st' := (RevokeCertificate w r demo_st).2 in
  st_code st' = Some StatusOK /\
  exists pc cert serial,
    st_calls st' = st_calls demo_st ++ [CallRevokeCertificate pc] /\
    RA_RevokeCertificate (RA w) pc = None /\
    GetCertificate (SA w) serial = Ok cert /\
    ParseCertificate (lib w) (cert_DER cert) = Ok pc /\
    st_body st' = st_body demo_st.
Proof.
  cbv zeta. split; [vm_compute; reflexivity|].
  exact (RevokeCertificate_ok (demo_wfe (demo_sa true 7 OCSPStatusGood))
           (demo_post "/acme/revoke-cert" "k1") demo_st eq_refl ltac:(vm_compute; reflexivity)).
Defined.

Lemma CertificateHandler_ok_witness :
  let w := demo_wfe (demo_sa_store [(3, demo_cert 7)]) in
  let r := demo_get (CertPath +:+ shortSerial 3) in
  let st' := (CertificateHandler w r demo_st).2 in
  st_code st' = Some StatusOK /\
  exists serial cert,
    req_Method r = "GET" /\ req_Path r = CertPath +:+ serial /\
    String.length serial = 16%nat /\ allHex_Match serial = true /\
    GetCertificateByShortSerial (SA w) serial = Ok cert /\
    st_body st' = st_body demo_st ++ [Bytes (cert_DER cert)] /\
    st_calls st' = st_calls demo_st /\ st_nonces st' = (ns_Nonce (st_nonces demo_st)).2.
Proof.
  cbv zeta. split; [vm_compute; reflexivity|].
  exact (CertificateHandler_ok (demo_wfe (demo_sa_store [(3, demo_cert 7)]))
           (demo_get (CertPath +:+ shortSerial 3)) demo_st eq_refl ltac:(vm_compute; reflexivity)).
Defined.
